(** * Attendance tracking service: the teacher dashboard report

    A shallow embedding of [src/app.py].  The file follows the request
    handler [get_student_data] (the dashboard report), the handlers that
    write to the collection ([track_attendance], [logout_attendance],
    [clear_all_events]) and [authenticate]:

    - Python values that reach the handlers as JSON are modelled by
      [value];
    - a [str] is modelled by the [string] of its UTF-8 bytes, and
      [str.lower] and [str.title] by CPython's loops over its code points;
    - Python exceptions are modelled by the error monad [result];
    - [datetime] and [timedelta] follow the arithmetic of CPython's
      [datetime] module (ordinals of the proleptic Gregorian calendar);
    - the event collection is the list of stored documents in insertion
      order, [insert_one] is a write that can fail, and the aggregation
      pipeline is [aggregate]. *)

From Stdlib Require Import ZArith Ascii String List Permutation Sorted Lia.
From Stdlib Require Import DecimalString.
From stdpp Require Import base option list gmap strings.

#[local] Set Warnings "-register-all".
#[local] Open Scope string_scope.
#[local] Open Scope list_scope.
#[local] Open Scope Z_scope.

(* ===================================================================== *)
(** ** Python strings *)
(* ===================================================================== *)

(** A [str] is a sequence of code points and a [string] holds its UTF-8
    encoding.  [lower] and [title] follow [do_lower] and [do_title] of
    CPython's [unicodeobject.c], with the case properties and mappings of
    the Unicode Character Database, version 14.0. *)
Module PyStr.

Definition continuation (b : N) : bool := ((128 <=? b) && (b <? 192))%N.

(** A byte that begins no well-formed character stands for itself: it is
    kept apart from the code points, which end at 1114111. *)
Definition stray (b : N) : N := (1114112 + b)%N.

(** The code points of a text. *)
Fixpoint decode (s : string) : list N :=
  match s with
  | EmptyString => []
  | String c0 s1 =>
      let b0 := N_of_ascii c0 in
      if (b0 <? 128)%N then b0 :: decode s1
      else
        match s1 with
        | EmptyString => [stray b0]
        | String c1 s2 =>
            let b1 := N_of_ascii c1 in
            if negb (continuation b1) then stray b0 :: decode s1
            else if ((194 <=? b0) && (b0 <? 224))%N
            then ((b0 - 192) * 64 + (b1 - 128))%N :: decode s2
            else
              match s2 with
              | EmptyString => stray b0 :: decode s1
              | String c2 s3 =>
                  let b2 := N_of_ascii c2 in
                  if negb (continuation b2) then stray b0 :: decode s1
                  else
                    let p3 := ((b0 - 224) * 4096 + (b1 - 128) * 64
                               + (b2 - 128))%N in
                    if ((224 <=? b0) && (b0 <? 240) && (2048 <=? p3)
                        && negb ((55296 <=? p3) && (p3 <? 57344)))%N
                    then p3 :: decode s3
                    else
                      match s3 with
                      | EmptyString => stray b0 :: decode s1
                      | String c3 s4 =>
                          let b3 := N_of_ascii c3 in
                          let p4 := ((b0 - 240) * 262144 + (b1 - 128) * 4096
                                     + (b2 - 128) * 64 + (b3 - 128))%N in
                          if (continuation b3 && (240 <=? b0) && (b0 <? 245)
                              && (65536 <=? p4) && (p4 <? 1114112))%N
                          then p4 :: decode s4
                          else stray b0 :: decode s1
                      end
              end
        end
  end.

Definition byte (n : N) : ascii := ascii_of_N n.

(** The bytes of a code point. *)
Definition encode_point (p : N) : string :=
  (if p <? 128 then String (byte p) ""
   else if p <? 2048
   then String (byte (192 + p / 64)) (String (byte (128 + p mod 64)) "")
   else if p <? 65536
   then String (byte (224 + p / 4096))
          (String (byte (128 + p / 64 mod 64))
             (String (byte (128 + p mod 64)) ""))
   else if p <? 1114112
   then String (byte (240 + p / 262144))
          (String (byte (128 + p / 4096 mod 64))
             (String (byte (128 + p / 64 mod 64))
                (String (byte (128 + p mod 64)) "")))
   else String (byte (p - 1114112)) "")%N.

Fixpoint encode (l : list N) : string :=
  match l with
  | [] => EmptyString
  | p :: l' => String.append (encode_point p) (encode l')
  end.

(** The code points above 127 that [_PyUnicode_ToLowerFull] changes, each
    with what it becomes (Unicode 14.0). *)
Definition lower_table : list (N * list N) :=
  [
    (192, [224]); (193, [225]); (194, [226]); (195, [227]); (196, [228]);
    (197, [229]); (198, [230]); (199, [231]); (200, [232]); (201, [233]);
    (202, [234]); (203, [235]); (204, [236]); (205, [237]); (206, [238]);
    (207, [239]); (208, [240]); (209, [241]); (210, [242]); (211, [243]);
    (212, [244]); (213, [245]); (214, [246]); (216, [248]); (217, [249]);
    (218, [250]); (219, [251]); (220, [252]); (221, [253]); (222, [254]);
    (256, [257]); (258, [259]); (260, [261]); (262, [263]); (264, [265]);
    (266, [267]); (268, [269]); (270, [271]); (272, [273]); (274, [275]);
    (276, [277]); (278, [279]); (280, [281]); (282, [283]); (284, [285]);
    (286, [287]); (288, [289]); (290, [291]); (292, [293]); (294, [295]);
    (296, [297]); (298, [299]); (300, [301]); (302, [303]);
    (304, [105; 775]); (306, [307]); (308, [309]); (310, [311]);
    (313, [314]); (315, [316]); (317, [318]); (319, [320]); (321, [322]);
    (323, [324]); (325, [326]); (327, [328]); (330, [331]); (332, [333]);
    (334, [335]); (336, [337]); (338, [339]); (340, [341]); (342, [343]);
    (344, [345]); (346, [347]); (348, [349]); (350, [351]); (352, [353]);
    (354, [355]); (356, [357]); (358, [359]); (360, [361]); (362, [363]);
    (364, [365]); (366, [367]); (368, [369]); (370, [371]); (372, [373]);
    (374, [375]); (376, [255]); (377, [378]); (379, [380]); (381, [382]);
    (385, [595]); (386, [387]); (388, [389]); (390, [596]); (391, [392]);
    (393, [598]); (394, [599]); (395, [396]); (398, [477]); (399, [601]);
    (400, [603]); (401, [402]); (403, [608]); (404, [611]); (406, [617]);
    (407, [616]); (408, [409]); (412, [623]); (413, [626]); (415, [629]);
    (416, [417]); (418, [419]); (420, [421]); (422, [640]); (423, [424]);
    (425, [643]); (428, [429]); (430, [648]); (431, [432]); (433, [650]);
    (434, [651]); (435, [436]); (437, [438]); (439, [658]); (440, [441]);
    (444, [445]); (452, [454]); (453, [454]); (455, [457]); (456, [457]);
    (458, [460]); (459, [460]); (461, [462]); (463, [464]); (465, [466]);
    (467, [468]); (469, [470]); (471, [472]); (473, [474]); (475, [476]);
    (478, [479]); (480, [481]); (482, [483]); (484, [485]); (486, [487]);
    (488, [489]); (490, [491]); (492, [493]); (494, [495]); (497, [499]);
    (498, [499]); (500, [501]); (502, [405]); (503, [447]); (504, [505]);
    (506, [507]); (508, [509]); (510, [511]); (512, [513]); (514, [515]);
    (516, [517]); (518, [519]); (520, [521]); (522, [523]); (524, [525]);
    (526, [527]); (528, [529]); (530, [531]); (532, [533]); (534, [535]);
    (536, [537]); (538, [539]); (540, [541]); (542, [543]); (544, [414]);
    (546, [547]); (548, [549]); (550, [551]); (552, [553]); (554, [555]);
    (556, [557]); (558, [559]); (560, [561]); (562, [563]); (570, [11365]);
    (571, [572]); (573, [410]); (574, [11366]); (577, [578]); (579, [384]);
    (580, [649]); (581, [652]); (582, [583]); (584, [585]); (586, [587]);
    (588, [589]); (590, [591]); (880, [881]); (882, [883]); (886, [887]);
    (895, [1011]); (902, [940]); (904, [941]); (905, [942]); (906, [943]);
    (908, [972]); (910, [973]); (911, [974]); (913, [945]); (914, [946]);
    (915, [947]); (916, [948]); (917, [949]); (918, [950]); (919, [951]);
    (920, [952]); (921, [953]); (922, [954]); (923, [955]); (924, [956]);
    (925, [957]); (926, [958]); (927, [959]); (928, [960]); (929, [961]);
    (931, [963]); (932, [964]); (933, [965]); (934, [966]); (935, [967]);
    (936, [968]); (937, [969]); (938, [970]); (939, [971]); (975, [983]);
    (984, [985]); (986, [987]); (988, [989]); (990, [991]); (992, [993]);
    (994, [995]); (996, [997]); (998, [999]); (1000, [1001]); (1002, [1003]);
    (1004, [1005]); (1006, [1007]); (1012, [952]); (1015, [1016]);
    (1017, [1010]); (1018, [1019]); (1021, [891]); (1022, [892]);
    (1023, [893]); (1024, [1104]); (1025, [1105]); (1026, [1106]);
    (1027, [1107]); (1028, [1108]); (1029, [1109]); (1030, [1110]);
    (1031, [1111]); (1032, [1112]); (1033, [1113]); (1034, [1114]);
    (1035, [1115]); (1036, [1116]); (1037, [1117]); (1038, [1118]);
    (1039, [1119]); (1040, [1072]); (1041, [1073]); (1042, [1074]);
    (1043, [1075]); (1044, [1076]); (1045, [1077]); (1046, [1078]);
    (1047, [1079]); (1048, [1080]); (1049, [1081]); (1050, [1082]);
    (1051, [1083]); (1052, [1084]); (1053, [1085]); (1054, [1086]);
    (1055, [1087]); (1056, [1088]); (1057, [1089]); (1058, [1090]);
    (1059, [1091]); (1060, [1092]); (1061, [1093]); (1062, [1094]);
    (1063, [1095]); (1064, [1096]); (1065, [1097]); (1066, [1098]);
    (1067, [1099]); (1068, [1100]); (1069, [1101]); (1070, [1102]);
    (1071, [1103]); (1120, [1121]); (1122, [1123]); (1124, [1125]);
    (1126, [1127]); (1128, [1129]); (1130, [1131]); (1132, [1133]);
    (1134, [1135]); (1136, [1137]); (1138, [1139]); (1140, [1141]);
    (1142, [1143]); (1144, [1145]); (1146, [1147]); (1148, [1149]);
    (1150, [1151]); (1152, [1153]); (1162, [1163]); (1164, [1165]);
    (1166, [1167]); (1168, [1169]); (1170, [1171]); (1172, [1173]);
    (1174, [1175]); (1176, [1177]); (1178, [1179]); (1180, [1181]);
    (1182, [1183]); (1184, [1185]); (1186, [1187]); (1188, [1189]);
    (1190, [1191]); (1192, [1193]); (1194, [1195]); (1196, [1197]);
    (1198, [1199]); (1200, [1201]); (1202, [1203]); (1204, [1205]);
    (1206, [1207]); (1208, [1209]); (1210, [1211]); (1212, [1213]);
    (1214, [1215]); (1216, [1231]); (1217, [1218]); (1219, [1220]);
    (1221, [1222]); (1223, [1224]); (1225, [1226]); (1227, [1228]);
    (1229, [1230]); (1232, [1233]); (1234, [1235]); (1236, [1237]);
    (1238, [1239]); (1240, [1241]); (1242, [1243]); (1244, [1245]);
    (1246, [1247]); (1248, [1249]); (1250, [1251]); (1252, [1253]);
    (1254, [1255]); (1256, [1257]); (1258, [1259]); (1260, [1261]);
    (1262, [1263]); (1264, [1265]); (1266, [1267]); (1268, [1269]);
    (1270, [1271]); (1272, [1273]); (1274, [1275]); (1276, [1277]);
    (1278, [1279]); (1280, [1281]); (1282, [1283]); (1284, [1285]);
    (1286, [1287]); (1288, [1289]); (1290, [1291]); (1292, [1293]);
    (1294, [1295]); (1296, [1297]); (1298, [1299]); (1300, [1301]);
    (1302, [1303]); (1304, [1305]); (1306, [1307]); (1308, [1309]);
    (1310, [1311]); (1312, [1313]); (1314, [1315]); (1316, [1317]);
    (1318, [1319]); (1320, [1321]); (1322, [1323]); (1324, [1325]);
    (1326, [1327]); (1329, [1377]); (1330, [1378]); (1331, [1379]);
    (1332, [1380]); (1333, [1381]); (1334, [1382]); (1335, [1383]);
    (1336, [1384]); (1337, [1385]); (1338, [1386]); (1339, [1387]);
    (1340, [1388]); (1341, [1389]); (1342, [1390]); (1343, [1391]);
    (1344, [1392]); (1345, [1393]); (1346, [1394]); (1347, [1395]);
    (1348, [1396]); (1349, [1397]); (1350, [1398]); (1351, [1399]);
    (1352, [1400]); (1353, [1401]); (1354, [1402]); (1355, [1403]);
    (1356, [1404]); (1357, [1405]); (1358, [1406]); (1359, [1407]);
    (1360, [1408]); (1361, [1409]); (1362, [1410]); (1363, [1411]);
    (1364, [1412]); (1365, [1413]); (1366, [1414]); (4256, [11520]);
    (4257, [11521]); (4258, [11522]); (4259, [11523]); (4260, [11524]);
    (4261, [11525]); (4262, [11526]); (4263, [11527]); (4264, [11528]);
    (4265, [11529]); (4266, [11530]); (4267, [11531]); (4268, [11532]);
    (4269, [11533]); (4270, [11534]); (4271, [11535]); (4272, [11536]);
    (4273, [11537]); (4274, [11538]); (4275, [11539]); (4276, [11540]);
    (4277, [11541]); (4278, [11542]); (4279, [11543]); (4280, [11544]);
    (4281, [11545]); (4282, [11546]); (4283, [11547]); (4284, [11548]);
    (4285, [11549]); (4286, [11550]); (4287, [11551]); (4288, [11552]);
    (4289, [11553]); (4290, [11554]); (4291, [11555]); (4292, [11556]);
    (4293, [11557]); (4295, [11559]); (4301, [11565]); (5024, [43888]);
    (5025, [43889]); (5026, [43890]); (5027, [43891]); (5028, [43892]);
    (5029, [43893]); (5030, [43894]); (5031, [43895]); (5032, [43896]);
    (5033, [43897]); (5034, [43898]); (5035, [43899]); (5036, [43900]);
    (5037, [43901]); (5038, [43902]); (5039, [43903]); (5040, [43904]);
    (5041, [43905]); (5042, [43906]); (5043, [43907]); (5044, [43908]);
    (5045, [43909]); (5046, [43910]); (5047, [43911]); (5048, [43912]);
    (5049, [43913]); (5050, [43914]); (5051, [43915]); (5052, [43916]);
    (5053, [43917]); (5054, [43918]); (5055, [43919]); (5056, [43920]);
    (5057, [43921]); (5058, [43922]); (5059, [43923]); (5060, [43924]);
    (5061, [43925]); (5062, [43926]); (5063, [43927]); (5064, [43928]);
    (5065, [43929]); (5066, [43930]); (5067, [43931]); (5068, [43932]);
    (5069, [43933]); (5070, [43934]); (5071, [43935]); (5072, [43936]);
    (5073, [43937]); (5074, [43938]); (5075, [43939]); (5076, [43940]);
    (5077, [43941]); (5078, [43942]); (5079, [43943]); (5080, [43944]);
    (5081, [43945]); (5082, [43946]); (5083, [43947]); (5084, [43948]);
    (5085, [43949]); (5086, [43950]); (5087, [43951]); (5088, [43952]);
    (5089, [43953]); (5090, [43954]); (5091, [43955]); (5092, [43956]);
    (5093, [43957]); (5094, [43958]); (5095, [43959]); (5096, [43960]);
    (5097, [43961]); (5098, [43962]); (5099, [43963]); (5100, [43964]);
    (5101, [43965]); (5102, [43966]); (5103, [43967]); (5104, [5112]);
    (5105, [5113]); (5106, [5114]); (5107, [5115]); (5108, [5116]);
    (5109, [5117]); (7312, [4304]); (7313, [4305]); (7314, [4306]);
    (7315, [4307]); (7316, [4308]); (7317, [4309]); (7318, [4310]);
    (7319, [4311]); (7320, [4312]); (7321, [4313]); (7322, [4314]);
    (7323, [4315]); (7324, [4316]); (7325, [4317]); (7326, [4318]);
    (7327, [4319]); (7328, [4320]); (7329, [4321]); (7330, [4322]);
    (7331, [4323]); (7332, [4324]); (7333, [4325]); (7334, [4326]);
    (7335, [4327]); (7336, [4328]); (7337, [4329]); (7338, [4330]);
    (7339, [4331]); (7340, [4332]); (7341, [4333]); (7342, [4334]);
    (7343, [4335]); (7344, [4336]); (7345, [4337]); (7346, [4338]);
    (7347, [4339]); (7348, [4340]); (7349, [4341]); (7350, [4342]);
    (7351, [4343]); (7352, [4344]); (7353, [4345]); (7354, [4346]);
    (7357, [4349]); (7358, [4350]); (7359, [4351]); (7680, [7681]);
    (7682, [7683]); (7684, [7685]); (7686, [7687]); (7688, [7689]);
    (7690, [7691]); (7692, [7693]); (7694, [7695]); (7696, [7697]);
    (7698, [7699]); (7700, [7701]); (7702, [7703]); (7704, [7705]);
    (7706, [7707]); (7708, [7709]); (7710, [7711]); (7712, [7713]);
    (7714, [7715]); (7716, [7717]); (7718, [7719]); (7720, [7721]);
    (7722, [7723]); (7724, [7725]); (7726, [7727]); (7728, [7729]);
    (7730, [7731]); (7732, [7733]); (7734, [7735]); (7736, [7737]);
    (7738, [7739]); (7740, [7741]); (7742, [7743]); (7744, [7745]);
    (7746, [7747]); (7748, [7749]); (7750, [7751]); (7752, [7753]);
    (7754, [7755]); (7756, [7757]); (7758, [7759]); (7760, [7761]);
    (7762, [7763]); (7764, [7765]); (7766, [7767]); (7768, [7769]);
    (7770, [7771]); (7772, [7773]); (7774, [7775]); (7776, [7777]);
    (7778, [7779]); (7780, [7781]); (7782, [7783]); (7784, [7785]);
    (7786, [7787]); (7788, [7789]); (7790, [7791]); (7792, [7793]);
    (7794, [7795]); (7796, [7797]); (7798, [7799]); (7800, [7801]);
    (7802, [7803]); (7804, [7805]); (7806, [7807]); (7808, [7809]);
    (7810, [7811]); (7812, [7813]); (7814, [7815]); (7816, [7817]);
    (7818, [7819]); (7820, [7821]); (7822, [7823]); (7824, [7825]);
    (7826, [7827]); (7828, [7829]); (7838, [223]); (7840, [7841]);
    (7842, [7843]); (7844, [7845]); (7846, [7847]); (7848, [7849]);
    (7850, [7851]); (7852, [7853]); (7854, [7855]); (7856, [7857]);
    (7858, [7859]); (7860, [7861]); (7862, [7863]); (7864, [7865]);
    (7866, [7867]); (7868, [7869]); (7870, [7871]); (7872, [7873]);
    (7874, [7875]); (7876, [7877]); (7878, [7879]); (7880, [7881]);
    (7882, [7883]); (7884, [7885]); (7886, [7887]); (7888, [7889]);
    (7890, [7891]); (7892, [7893]); (7894, [7895]); (7896, [7897]);
    (7898, [7899]); (7900, [7901]); (7902, [7903]); (7904, [7905]);
    (7906, [7907]); (7908, [7909]); (7910, [7911]); (7912, [7913]);
    (7914, [7915]); (7916, [7917]); (7918, [7919]); (7920, [7921]);
    (7922, [7923]); (7924, [7925]); (7926, [7927]); (7928, [7929]);
    (7930, [7931]); (7932, [7933]); (7934, [7935]); (7944, [7936]);
    (7945, [7937]); (7946, [7938]); (7947, [7939]); (7948, [7940]);
    (7949, [7941]); (7950, [7942]); (7951, [7943]); (7960, [7952]);
    (7961, [7953]); (7962, [7954]); (7963, [7955]); (7964, [7956]);
    (7965, [7957]); (7976, [7968]); (7977, [7969]); (7978, [7970]);
    (7979, [7971]); (7980, [7972]); (7981, [7973]); (7982, [7974]);
    (7983, [7975]); (7992, [7984]); (7993, [7985]); (7994, [7986]);
    (7995, [7987]); (7996, [7988]); (7997, [7989]); (7998, [7990]);
    (7999, [7991]); (8008, [8000]); (8009, [8001]); (8010, [8002]);
    (8011, [8003]); (8012, [8004]); (8013, [8005]); (8025, [8017]);
    (8027, [8019]); (8029, [8021]); (8031, [8023]); (8040, [8032]);
    (8041, [8033]); (8042, [8034]); (8043, [8035]); (8044, [8036]);
    (8045, [8037]); (8046, [8038]); (8047, [8039]); (8072, [8064]);
    (8073, [8065]); (8074, [8066]); (8075, [8067]); (8076, [8068]);
    (8077, [8069]); (8078, [8070]); (8079, [8071]); (8088, [8080]);
    (8089, [8081]); (8090, [8082]); (8091, [8083]); (8092, [8084]);
    (8093, [8085]); (8094, [8086]); (8095, [8087]); (8104, [8096]);
    (8105, [8097]); (8106, [8098]); (8107, [8099]); (8108, [8100]);
    (8109, [8101]); (8110, [8102]); (8111, [8103]); (8120, [8112]);
    (8121, [8113]); (8122, [8048]); (8123, [8049]); (8124, [8115]);
    (8136, [8050]); (8137, [8051]); (8138, [8052]); (8139, [8053]);
    (8140, [8131]); (8152, [8144]); (8153, [8145]); (8154, [8054]);
    (8155, [8055]); (8168, [8160]); (8169, [8161]); (8170, [8058]);
    (8171, [8059]); (8172, [8165]); (8184, [8056]); (8185, [8057]);
    (8186, [8060]); (8187, [8061]); (8188, [8179]); (8486, [969]);
    (8490, [107]); (8491, [229]); (8498, [8526]); (8544, [8560]);
    (8545, [8561]); (8546, [8562]); (8547, [8563]); (8548, [8564]);
    (8549, [8565]); (8550, [8566]); (8551, [8567]); (8552, [8568]);
    (8553, [8569]); (8554, [8570]); (8555, [8571]); (8556, [8572]);
    (8557, [8573]); (8558, [8574]); (8559, [8575]); (8579, [8580]);
    (9398, [9424]); (9399, [9425]); (9400, [9426]); (9401, [9427]);
    (9402, [9428]); (9403, [9429]); (9404, [9430]); (9405, [9431]);
    (9406, [9432]); (9407, [9433]); (9408, [9434]); (9409, [9435]);
    (9410, [9436]); (9411, [9437]); (9412, [9438]); (9413, [9439]);
    (9414, [9440]); (9415, [9441]); (9416, [9442]); (9417, [9443]);
    (9418, [9444]); (9419, [9445]); (9420, [9446]); (9421, [9447]);
    (9422, [9448]); (9423, [9449]); (11264, [11312]); (11265, [11313]);
    (11266, [11314]); (11267, [11315]); (11268, [11316]); (11269, [11317]);
    (11270, [11318]); (11271, [11319]); (11272, [11320]); (11273, [11321]);
    (11274, [11322]); (11275, [11323]); (11276, [11324]); (11277, [11325]);
    (11278, [11326]); (11279, [11327]); (11280, [11328]); (11281, [11329]);
    (11282, [11330]); (11283, [11331]); (11284, [11332]); (11285, [11333]);
    (11286, [11334]); (11287, [11335]); (11288, [11336]); (11289, [11337]);
    (11290, [11338]); (11291, [11339]); (11292, [11340]); (11293, [11341]);
    (11294, [11342]); (11295, [11343]); (11296, [11344]); (11297, [11345]);
    (11298, [11346]); (11299, [11347]); (11300, [11348]); (11301, [11349]);
    (11302, [11350]); (11303, [11351]); (11304, [11352]); (11305, [11353]);
    (11306, [11354]); (11307, [11355]); (11308, [11356]); (11309, [11357]);
    (11310, [11358]); (11311, [11359]); (11360, [11361]); (11362, [619]);
    (11363, [7549]); (11364, [637]); (11367, [11368]); (11369, [11370]);
    (11371, [11372]); (11373, [593]); (11374, [625]); (11375, [592]);
    (11376, [594]); (11378, [11379]); (11381, [11382]); (11390, [575]);
    (11391, [576]); (11392, [11393]); (11394, [11395]); (11396, [11397]);
    (11398, [11399]); (11400, [11401]); (11402, [11403]); (11404, [11405]);
    (11406, [11407]); (11408, [11409]); (11410, [11411]); (11412, [11413]);
    (11414, [11415]); (11416, [11417]); (11418, [11419]); (11420, [11421]);
    (11422, [11423]); (11424, [11425]); (11426, [11427]); (11428, [11429]);
    (11430, [11431]); (11432, [11433]); (11434, [11435]); (11436, [11437]);
    (11438, [11439]); (11440, [11441]); (11442, [11443]); (11444, [11445]);
    (11446, [11447]); (11448, [11449]); (11450, [11451]); (11452, [11453]);
    (11454, [11455]); (11456, [11457]); (11458, [11459]); (11460, [11461]);
    (11462, [11463]); (11464, [11465]); (11466, [11467]); (11468, [11469]);
    (11470, [11471]); (11472, [11473]); (11474, [11475]); (11476, [11477]);
    (11478, [11479]); (11480, [11481]); (11482, [11483]); (11484, [11485]);
    (11486, [11487]); (11488, [11489]); (11490, [11491]); (11499, [11500]);
    (11501, [11502]); (11506, [11507]); (42560, [42561]); (42562, [42563]);
    (42564, [42565]); (42566, [42567]); (42568, [42569]); (42570, [42571]);
    (42572, [42573]); (42574, [42575]); (42576, [42577]); (42578, [42579]);
    (42580, [42581]); (42582, [42583]); (42584, [42585]); (42586, [42587]);
    (42588, [42589]); (42590, [42591]); (42592, [42593]); (42594, [42595]);
    (42596, [42597]); (42598, [42599]); (42600, [42601]); (42602, [42603]);
    (42604, [42605]); (42624, [42625]); (42626, [42627]); (42628, [42629]);
    (42630, [42631]); (42632, [42633]); (42634, [42635]); (42636, [42637]);
    (42638, [42639]); (42640, [42641]); (42642, [42643]); (42644, [42645]);
    (42646, [42647]); (42648, [42649]); (42650, [42651]); (42786, [42787]);
    (42788, [42789]); (42790, [42791]); (42792, [42793]); (42794, [42795]);
    (42796, [42797]); (42798, [42799]); (42802, [42803]); (42804, [42805]);
    (42806, [42807]); (42808, [42809]); (42810, [42811]); (42812, [42813]);
    (42814, [42815]); (42816, [42817]); (42818, [42819]); (42820, [42821]);
    (42822, [42823]); (42824, [42825]); (42826, [42827]); (42828, [42829]);
    (42830, [42831]); (42832, [42833]); (42834, [42835]); (42836, [42837]);
    (42838, [42839]); (42840, [42841]); (42842, [42843]); (42844, [42845]);
    (42846, [42847]); (42848, [42849]); (42850, [42851]); (42852, [42853]);
    (42854, [42855]); (42856, [42857]); (42858, [42859]); (42860, [42861]);
    (42862, [42863]); (42873, [42874]); (42875, [42876]); (42877, [7545]);
    (42878, [42879]); (42880, [42881]); (42882, [42883]); (42884, [42885]);
    (42886, [42887]); (42891, [42892]); (42893, [613]); (42896, [42897]);
    (42898, [42899]); (42902, [42903]); (42904, [42905]); (42906, [42907]);
    (42908, [42909]); (42910, [42911]); (42912, [42913]); (42914, [42915]);
    (42916, [42917]); (42918, [42919]); (42920, [42921]); (42922, [614]);
    (42923, [604]); (42924, [609]); (42925, [620]); (42926, [618]);
    (42928, [670]); (42929, [647]); (42930, [669]); (42931, [43859]);
    (42932, [42933]); (42934, [42935]); (42936, [42937]); (42938, [42939]);
    (42940, [42941]); (42942, [42943]); (42944, [42945]); (42946, [42947]);
    (42948, [42900]); (42949, [642]); (42950, [7566]); (42951, [42952]);
    (42953, [42954]); (42960, [42961]); (42966, [42967]); (42968, [42969]);
    (42997, [42998]); (65313, [65345]); (65314, [65346]); (65315, [65347]);
    (65316, [65348]); (65317, [65349]); (65318, [65350]); (65319, [65351]);
    (65320, [65352]); (65321, [65353]); (65322, [65354]); (65323, [65355]);
    (65324, [65356]); (65325, [65357]); (65326, [65358]); (65327, [65359]);
    (65328, [65360]); (65329, [65361]); (65330, [65362]); (65331, [65363]);
    (65332, [65364]); (65333, [65365]); (65334, [65366]); (65335, [65367]);
    (65336, [65368]); (65337, [65369]); (65338, [65370]); (66560, [66600]);
    (66561, [66601]); (66562, [66602]); (66563, [66603]); (66564, [66604]);
    (66565, [66605]); (66566, [66606]); (66567, [66607]); (66568, [66608]);
    (66569, [66609]); (66570, [66610]); (66571, [66611]); (66572, [66612]);
    (66573, [66613]); (66574, [66614]); (66575, [66615]); (66576, [66616]);
    (66577, [66617]); (66578, [66618]); (66579, [66619]); (66580, [66620]);
    (66581, [66621]); (66582, [66622]); (66583, [66623]); (66584, [66624]);
    (66585, [66625]); (66586, [66626]); (66587, [66627]); (66588, [66628]);
    (66589, [66629]); (66590, [66630]); (66591, [66631]); (66592, [66632]);
    (66593, [66633]); (66594, [66634]); (66595, [66635]); (66596, [66636]);
    (66597, [66637]); (66598, [66638]); (66599, [66639]); (66736, [66776]);
    (66737, [66777]); (66738, [66778]); (66739, [66779]); (66740, [66780]);
    (66741, [66781]); (66742, [66782]); (66743, [66783]); (66744, [66784]);
    (66745, [66785]); (66746, [66786]); (66747, [66787]); (66748, [66788]);
    (66749, [66789]); (66750, [66790]); (66751, [66791]); (66752, [66792]);
    (66753, [66793]); (66754, [66794]); (66755, [66795]); (66756, [66796]);
    (66757, [66797]); (66758, [66798]); (66759, [66799]); (66760, [66800]);
    (66761, [66801]); (66762, [66802]); (66763, [66803]); (66764, [66804]);
    (66765, [66805]); (66766, [66806]); (66767, [66807]); (66768, [66808]);
    (66769, [66809]); (66770, [66810]); (66771, [66811]); (66928, [66967]);
    (66929, [66968]); (66930, [66969]); (66931, [66970]); (66932, [66971]);
    (66933, [66972]); (66934, [66973]); (66935, [66974]); (66936, [66975]);
    (66937, [66976]); (66938, [66977]); (66940, [66979]); (66941, [66980]);
    (66942, [66981]); (66943, [66982]); (66944, [66983]); (66945, [66984]);
    (66946, [66985]); (66947, [66986]); (66948, [66987]); (66949, [66988]);
    (66950, [66989]); (66951, [66990]); (66952, [66991]); (66953, [66992]);
    (66954, [66993]); (66956, [66995]); (66957, [66996]); (66958, [66997]);
    (66959, [66998]); (66960, [66999]); (66961, [67000]); (66962, [67001]);
    (66964, [67003]); (66965, [67004]); (68736, [68800]); (68737, [68801]);
    (68738, [68802]); (68739, [68803]); (68740, [68804]); (68741, [68805]);
    (68742, [68806]); (68743, [68807]); (68744, [68808]); (68745, [68809]);
    (68746, [68810]); (68747, [68811]); (68748, [68812]); (68749, [68813]);
    (68750, [68814]); (68751, [68815]); (68752, [68816]); (68753, [68817]);
    (68754, [68818]); (68755, [68819]); (68756, [68820]); (68757, [68821]);
    (68758, [68822]); (68759, [68823]); (68760, [68824]); (68761, [68825]);
    (68762, [68826]); (68763, [68827]); (68764, [68828]); (68765, [68829]);
    (68766, [68830]); (68767, [68831]); (68768, [68832]); (68769, [68833]);
    (68770, [68834]); (68771, [68835]); (68772, [68836]); (68773, [68837]);
    (68774, [68838]); (68775, [68839]); (68776, [68840]); (68777, [68841]);
    (68778, [68842]); (68779, [68843]); (68780, [68844]); (68781, [68845]);
    (68782, [68846]); (68783, [68847]); (68784, [68848]); (68785, [68849]);
    (68786, [68850]); (71840, [71872]); (71841, [71873]); (71842, [71874]);
    (71843, [71875]); (71844, [71876]); (71845, [71877]); (71846, [71878]);
    (71847, [71879]); (71848, [71880]); (71849, [71881]); (71850, [71882]);
    (71851, [71883]); (71852, [71884]); (71853, [71885]); (71854, [71886]);
    (71855, [71887]); (71856, [71888]); (71857, [71889]); (71858, [71890]);
    (71859, [71891]); (71860, [71892]); (71861, [71893]); (71862, [71894]);
    (71863, [71895]); (71864, [71896]); (71865, [71897]); (71866, [71898]);
    (71867, [71899]); (71868, [71900]); (71869, [71901]); (71870, [71902]);
    (71871, [71903]); (93760, [93792]); (93761, [93793]); (93762, [93794]);
    (93763, [93795]); (93764, [93796]); (93765, [93797]); (93766, [93798]);
    (93767, [93799]); (93768, [93800]); (93769, [93801]); (93770, [93802]);
    (93771, [93803]); (93772, [93804]); (93773, [93805]); (93774, [93806]);
    (93775, [93807]); (93776, [93808]); (93777, [93809]); (93778, [93810]);
    (93779, [93811]); (93780, [93812]); (93781, [93813]); (93782, [93814]);
    (93783, [93815]); (93784, [93816]); (93785, [93817]); (93786, [93818]);
    (93787, [93819]); (93788, [93820]); (93789, [93821]); (93790, [93822]);
    (93791, [93823]); (125184, [125218]); (125185, [125219]);
    (125186, [125220]); (125187, [125221]); (125188, [125222]);
    (125189, [125223]); (125190, [125224]); (125191, [125225]);
    (125192, [125226]); (125193, [125227]); (125194, [125228]);
    (125195, [125229]); (125196, [125230]); (125197, [125231]);
    (125198, [125232]); (125199, [125233]); (125200, [125234]);
    (125201, [125235]); (125202, [125236]); (125203, [125237]);
    (125204, [125238]); (125205, [125239]); (125206, [125240]);
    (125207, [125241]); (125208, [125242]); (125209, [125243]);
    (125210, [125244]); (125211, [125245]); (125212, [125246]);
    (125213, [125247]); (125214, [125248]); (125215, [125249]);
    (125216, [125250]); (125217, [125251])
  ]%N.

(** The code points above 127 that [_PyUnicode_ToTitleFull] changes. *)
Definition title_table : list (N * list N) :=
  [
    (181, [924]); (223, [83; 115]); (224, [192]); (225, [193]); (226, [194]);
    (227, [195]); (228, [196]); (229, [197]); (230, [198]); (231, [199]);
    (232, [200]); (233, [201]); (234, [202]); (235, [203]); (236, [204]);
    (237, [205]); (238, [206]); (239, [207]); (240, [208]); (241, [209]);
    (242, [210]); (243, [211]); (244, [212]); (245, [213]); (246, [214]);
    (248, [216]); (249, [217]); (250, [218]); (251, [219]); (252, [220]);
    (253, [221]); (254, [222]); (255, [376]); (257, [256]); (259, [258]);
    (261, [260]); (263, [262]); (265, [264]); (267, [266]); (269, [268]);
    (271, [270]); (273, [272]); (275, [274]); (277, [276]); (279, [278]);
    (281, [280]); (283, [282]); (285, [284]); (287, [286]); (289, [288]);
    (291, [290]); (293, [292]); (295, [294]); (297, [296]); (299, [298]);
    (301, [300]); (303, [302]); (305, [73]); (307, [306]); (309, [308]);
    (311, [310]); (314, [313]); (316, [315]); (318, [317]); (320, [319]);
    (322, [321]); (324, [323]); (326, [325]); (328, [327]); (329, [700; 78]);
    (331, [330]); (333, [332]); (335, [334]); (337, [336]); (339, [338]);
    (341, [340]); (343, [342]); (345, [344]); (347, [346]); (349, [348]);
    (351, [350]); (353, [352]); (355, [354]); (357, [356]); (359, [358]);
    (361, [360]); (363, [362]); (365, [364]); (367, [366]); (369, [368]);
    (371, [370]); (373, [372]); (375, [374]); (378, [377]); (380, [379]);
    (382, [381]); (383, [83]); (384, [579]); (387, [386]); (389, [388]);
    (392, [391]); (396, [395]); (402, [401]); (405, [502]); (409, [408]);
    (410, [573]); (414, [544]); (417, [416]); (419, [418]); (421, [420]);
    (424, [423]); (429, [428]); (432, [431]); (436, [435]); (438, [437]);
    (441, [440]); (445, [444]); (447, [503]); (452, [453]); (454, [453]);
    (455, [456]); (457, [456]); (458, [459]); (460, [459]); (462, [461]);
    (464, [463]); (466, [465]); (468, [467]); (470, [469]); (472, [471]);
    (474, [473]); (476, [475]); (477, [398]); (479, [478]); (481, [480]);
    (483, [482]); (485, [484]); (487, [486]); (489, [488]); (491, [490]);
    (493, [492]); (495, [494]); (496, [74; 780]); (497, [498]); (499, [498]);
    (501, [500]); (505, [504]); (507, [506]); (509, [508]); (511, [510]);
    (513, [512]); (515, [514]); (517, [516]); (519, [518]); (521, [520]);
    (523, [522]); (525, [524]); (527, [526]); (529, [528]); (531, [530]);
    (533, [532]); (535, [534]); (537, [536]); (539, [538]); (541, [540]);
    (543, [542]); (547, [546]); (549, [548]); (551, [550]); (553, [552]);
    (555, [554]); (557, [556]); (559, [558]); (561, [560]); (563, [562]);
    (572, [571]); (575, [11390]); (576, [11391]); (578, [577]); (583, [582]);
    (585, [584]); (587, [586]); (589, [588]); (591, [590]); (592, [11375]);
    (593, [11373]); (594, [11376]); (595, [385]); (596, [390]); (598, [393]);
    (599, [394]); (601, [399]); (603, [400]); (604, [42923]); (608, [403]);
    (609, [42924]); (611, [404]); (613, [42893]); (614, [42922]);
    (616, [407]); (617, [406]); (618, [42926]); (619, [11362]);
    (620, [42925]); (623, [412]); (625, [11374]); (626, [413]); (629, [415]);
    (637, [11364]); (640, [422]); (642, [42949]); (643, [425]);
    (647, [42929]); (648, [430]); (649, [580]); (650, [433]); (651, [434]);
    (652, [581]); (658, [439]); (669, [42930]); (670, [42928]); (837, [921]);
    (881, [880]); (883, [882]); (887, [886]); (891, [1021]); (892, [1022]);
    (893, [1023]); (912, [921; 776; 769]); (940, [902]); (941, [904]);
    (942, [905]); (943, [906]); (944, [933; 776; 769]); (945, [913]);
    (946, [914]); (947, [915]); (948, [916]); (949, [917]); (950, [918]);
    (951, [919]); (952, [920]); (953, [921]); (954, [922]); (955, [923]);
    (956, [924]); (957, [925]); (958, [926]); (959, [927]); (960, [928]);
    (961, [929]); (962, [931]); (963, [931]); (964, [932]); (965, [933]);
    (966, [934]); (967, [935]); (968, [936]); (969, [937]); (970, [938]);
    (971, [939]); (972, [908]); (973, [910]); (974, [911]); (976, [914]);
    (977, [920]); (981, [934]); (982, [928]); (983, [975]); (985, [984]);
    (987, [986]); (989, [988]); (991, [990]); (993, [992]); (995, [994]);
    (997, [996]); (999, [998]); (1001, [1000]); (1003, [1002]);
    (1005, [1004]); (1007, [1006]); (1008, [922]); (1009, [929]);
    (1010, [1017]); (1011, [895]); (1013, [917]); (1016, [1015]);
    (1019, [1018]); (1072, [1040]); (1073, [1041]); (1074, [1042]);
    (1075, [1043]); (1076, [1044]); (1077, [1045]); (1078, [1046]);
    (1079, [1047]); (1080, [1048]); (1081, [1049]); (1082, [1050]);
    (1083, [1051]); (1084, [1052]); (1085, [1053]); (1086, [1054]);
    (1087, [1055]); (1088, [1056]); (1089, [1057]); (1090, [1058]);
    (1091, [1059]); (1092, [1060]); (1093, [1061]); (1094, [1062]);
    (1095, [1063]); (1096, [1064]); (1097, [1065]); (1098, [1066]);
    (1099, [1067]); (1100, [1068]); (1101, [1069]); (1102, [1070]);
    (1103, [1071]); (1104, [1024]); (1105, [1025]); (1106, [1026]);
    (1107, [1027]); (1108, [1028]); (1109, [1029]); (1110, [1030]);
    (1111, [1031]); (1112, [1032]); (1113, [1033]); (1114, [1034]);
    (1115, [1035]); (1116, [1036]); (1117, [1037]); (1118, [1038]);
    (1119, [1039]); (1121, [1120]); (1123, [1122]); (1125, [1124]);
    (1127, [1126]); (1129, [1128]); (1131, [1130]); (1133, [1132]);
    (1135, [1134]); (1137, [1136]); (1139, [1138]); (1141, [1140]);
    (1143, [1142]); (1145, [1144]); (1147, [1146]); (1149, [1148]);
    (1151, [1150]); (1153, [1152]); (1163, [1162]); (1165, [1164]);
    (1167, [1166]); (1169, [1168]); (1171, [1170]); (1173, [1172]);
    (1175, [1174]); (1177, [1176]); (1179, [1178]); (1181, [1180]);
    (1183, [1182]); (1185, [1184]); (1187, [1186]); (1189, [1188]);
    (1191, [1190]); (1193, [1192]); (1195, [1194]); (1197, [1196]);
    (1199, [1198]); (1201, [1200]); (1203, [1202]); (1205, [1204]);
    (1207, [1206]); (1209, [1208]); (1211, [1210]); (1213, [1212]);
    (1215, [1214]); (1218, [1217]); (1220, [1219]); (1222, [1221]);
    (1224, [1223]); (1226, [1225]); (1228, [1227]); (1230, [1229]);
    (1231, [1216]); (1233, [1232]); (1235, [1234]); (1237, [1236]);
    (1239, [1238]); (1241, [1240]); (1243, [1242]); (1245, [1244]);
    (1247, [1246]); (1249, [1248]); (1251, [1250]); (1253, [1252]);
    (1255, [1254]); (1257, [1256]); (1259, [1258]); (1261, [1260]);
    (1263, [1262]); (1265, [1264]); (1267, [1266]); (1269, [1268]);
    (1271, [1270]); (1273, [1272]); (1275, [1274]); (1277, [1276]);
    (1279, [1278]); (1281, [1280]); (1283, [1282]); (1285, [1284]);
    (1287, [1286]); (1289, [1288]); (1291, [1290]); (1293, [1292]);
    (1295, [1294]); (1297, [1296]); (1299, [1298]); (1301, [1300]);
    (1303, [1302]); (1305, [1304]); (1307, [1306]); (1309, [1308]);
    (1311, [1310]); (1313, [1312]); (1315, [1314]); (1317, [1316]);
    (1319, [1318]); (1321, [1320]); (1323, [1322]); (1325, [1324]);
    (1327, [1326]); (1377, [1329]); (1378, [1330]); (1379, [1331]);
    (1380, [1332]); (1381, [1333]); (1382, [1334]); (1383, [1335]);
    (1384, [1336]); (1385, [1337]); (1386, [1338]); (1387, [1339]);
    (1388, [1340]); (1389, [1341]); (1390, [1342]); (1391, [1343]);
    (1392, [1344]); (1393, [1345]); (1394, [1346]); (1395, [1347]);
    (1396, [1348]); (1397, [1349]); (1398, [1350]); (1399, [1351]);
    (1400, [1352]); (1401, [1353]); (1402, [1354]); (1403, [1355]);
    (1404, [1356]); (1405, [1357]); (1406, [1358]); (1407, [1359]);
    (1408, [1360]); (1409, [1361]); (1410, [1362]); (1411, [1363]);
    (1412, [1364]); (1413, [1365]); (1414, [1366]); (1415, [1333; 1410]);
    (5112, [5104]); (5113, [5105]); (5114, [5106]); (5115, [5107]);
    (5116, [5108]); (5117, [5109]); (7296, [1042]); (7297, [1044]);
    (7298, [1054]); (7299, [1057]); (7300, [1058]); (7301, [1058]);
    (7302, [1066]); (7303, [1122]); (7304, [42570]); (7545, [42877]);
    (7549, [11363]); (7566, [42950]); (7681, [7680]); (7683, [7682]);
    (7685, [7684]); (7687, [7686]); (7689, [7688]); (7691, [7690]);
    (7693, [7692]); (7695, [7694]); (7697, [7696]); (7699, [7698]);
    (7701, [7700]); (7703, [7702]); (7705, [7704]); (7707, [7706]);
    (7709, [7708]); (7711, [7710]); (7713, [7712]); (7715, [7714]);
    (7717, [7716]); (7719, [7718]); (7721, [7720]); (7723, [7722]);
    (7725, [7724]); (7727, [7726]); (7729, [7728]); (7731, [7730]);
    (7733, [7732]); (7735, [7734]); (7737, [7736]); (7739, [7738]);
    (7741, [7740]); (7743, [7742]); (7745, [7744]); (7747, [7746]);
    (7749, [7748]); (7751, [7750]); (7753, [7752]); (7755, [7754]);
    (7757, [7756]); (7759, [7758]); (7761, [7760]); (7763, [7762]);
    (7765, [7764]); (7767, [7766]); (7769, [7768]); (7771, [7770]);
    (7773, [7772]); (7775, [7774]); (7777, [7776]); (7779, [7778]);
    (7781, [7780]); (7783, [7782]); (7785, [7784]); (7787, [7786]);
    (7789, [7788]); (7791, [7790]); (7793, [7792]); (7795, [7794]);
    (7797, [7796]); (7799, [7798]); (7801, [7800]); (7803, [7802]);
    (7805, [7804]); (7807, [7806]); (7809, [7808]); (7811, [7810]);
    (7813, [7812]); (7815, [7814]); (7817, [7816]); (7819, [7818]);
    (7821, [7820]); (7823, [7822]); (7825, [7824]); (7827, [7826]);
    (7829, [7828]); (7830, [72; 817]); (7831, [84; 776]); (7832, [87; 778]);
    (7833, [89; 778]); (7834, [65; 702]); (7835, [7776]); (7841, [7840]);
    (7843, [7842]); (7845, [7844]); (7847, [7846]); (7849, [7848]);
    (7851, [7850]); (7853, [7852]); (7855, [7854]); (7857, [7856]);
    (7859, [7858]); (7861, [7860]); (7863, [7862]); (7865, [7864]);
    (7867, [7866]); (7869, [7868]); (7871, [7870]); (7873, [7872]);
    (7875, [7874]); (7877, [7876]); (7879, [7878]); (7881, [7880]);
    (7883, [7882]); (7885, [7884]); (7887, [7886]); (7889, [7888]);
    (7891, [7890]); (7893, [7892]); (7895, [7894]); (7897, [7896]);
    (7899, [7898]); (7901, [7900]); (7903, [7902]); (7905, [7904]);
    (7907, [7906]); (7909, [7908]); (7911, [7910]); (7913, [7912]);
    (7915, [7914]); (7917, [7916]); (7919, [7918]); (7921, [7920]);
    (7923, [7922]); (7925, [7924]); (7927, [7926]); (7929, [7928]);
    (7931, [7930]); (7933, [7932]); (7935, [7934]); (7936, [7944]);
    (7937, [7945]); (7938, [7946]); (7939, [7947]); (7940, [7948]);
    (7941, [7949]); (7942, [7950]); (7943, [7951]); (7952, [7960]);
    (7953, [7961]); (7954, [7962]); (7955, [7963]); (7956, [7964]);
    (7957, [7965]); (7968, [7976]); (7969, [7977]); (7970, [7978]);
    (7971, [7979]); (7972, [7980]); (7973, [7981]); (7974, [7982]);
    (7975, [7983]); (7984, [7992]); (7985, [7993]); (7986, [7994]);
    (7987, [7995]); (7988, [7996]); (7989, [7997]); (7990, [7998]);
    (7991, [7999]); (8000, [8008]); (8001, [8009]); (8002, [8010]);
    (8003, [8011]); (8004, [8012]); (8005, [8013]); (8016, [933; 787]);
    (8017, [8025]); (8018, [933; 787; 768]); (8019, [8027]);
    (8020, [933; 787; 769]); (8021, [8029]); (8022, [933; 787; 834]);
    (8023, [8031]); (8032, [8040]); (8033, [8041]); (8034, [8042]);
    (8035, [8043]); (8036, [8044]); (8037, [8045]); (8038, [8046]);
    (8039, [8047]); (8048, [8122]); (8049, [8123]); (8050, [8136]);
    (8051, [8137]); (8052, [8138]); (8053, [8139]); (8054, [8154]);
    (8055, [8155]); (8056, [8184]); (8057, [8185]); (8058, [8170]);
    (8059, [8171]); (8060, [8186]); (8061, [8187]); (8064, [8072]);
    (8065, [8073]); (8066, [8074]); (8067, [8075]); (8068, [8076]);
    (8069, [8077]); (8070, [8078]); (8071, [8079]); (8080, [8088]);
    (8081, [8089]); (8082, [8090]); (8083, [8091]); (8084, [8092]);
    (8085, [8093]); (8086, [8094]); (8087, [8095]); (8096, [8104]);
    (8097, [8105]); (8098, [8106]); (8099, [8107]); (8100, [8108]);
    (8101, [8109]); (8102, [8110]); (8103, [8111]); (8112, [8120]);
    (8113, [8121]); (8114, [8122; 837]); (8115, [8124]); (8116, [902; 837]);
    (8118, [913; 834]); (8119, [913; 834; 837]); (8126, [921]);
    (8130, [8138; 837]); (8131, [8140]); (8132, [905; 837]);
    (8134, [919; 834]); (8135, [919; 834; 837]); (8144, [8152]);
    (8145, [8153]); (8146, [921; 776; 768]); (8147, [921; 776; 769]);
    (8150, [921; 834]); (8151, [921; 776; 834]); (8160, [8168]);
    (8161, [8169]); (8162, [933; 776; 768]); (8163, [933; 776; 769]);
    (8164, [929; 787]); (8165, [8172]); (8166, [933; 834]);
    (8167, [933; 776; 834]); (8178, [8186; 837]); (8179, [8188]);
    (8180, [911; 837]); (8182, [937; 834]); (8183, [937; 834; 837]);
    (8526, [8498]); (8560, [8544]); (8561, [8545]); (8562, [8546]);
    (8563, [8547]); (8564, [8548]); (8565, [8549]); (8566, [8550]);
    (8567, [8551]); (8568, [8552]); (8569, [8553]); (8570, [8554]);
    (8571, [8555]); (8572, [8556]); (8573, [8557]); (8574, [8558]);
    (8575, [8559]); (8580, [8579]); (9424, [9398]); (9425, [9399]);
    (9426, [9400]); (9427, [9401]); (9428, [9402]); (9429, [9403]);
    (9430, [9404]); (9431, [9405]); (9432, [9406]); (9433, [9407]);
    (9434, [9408]); (9435, [9409]); (9436, [9410]); (9437, [9411]);
    (9438, [9412]); (9439, [9413]); (9440, [9414]); (9441, [9415]);
    (9442, [9416]); (9443, [9417]); (9444, [9418]); (9445, [9419]);
    (9446, [9420]); (9447, [9421]); (9448, [9422]); (9449, [9423]);
    (11312, [11264]); (11313, [11265]); (11314, [11266]); (11315, [11267]);
    (11316, [11268]); (11317, [11269]); (11318, [11270]); (11319, [11271]);
    (11320, [11272]); (11321, [11273]); (11322, [11274]); (11323, [11275]);
    (11324, [11276]); (11325, [11277]); (11326, [11278]); (11327, [11279]);
    (11328, [11280]); (11329, [11281]); (11330, [11282]); (11331, [11283]);
    (11332, [11284]); (11333, [11285]); (11334, [11286]); (11335, [11287]);
    (11336, [11288]); (11337, [11289]); (11338, [11290]); (11339, [11291]);
    (11340, [11292]); (11341, [11293]); (11342, [11294]); (11343, [11295]);
    (11344, [11296]); (11345, [11297]); (11346, [11298]); (11347, [11299]);
    (11348, [11300]); (11349, [11301]); (11350, [11302]); (11351, [11303]);
    (11352, [11304]); (11353, [11305]); (11354, [11306]); (11355, [11307]);
    (11356, [11308]); (11357, [11309]); (11358, [11310]); (11359, [11311]);
    (11361, [11360]); (11365, [570]); (11366, [574]); (11368, [11367]);
    (11370, [11369]); (11372, [11371]); (11379, [11378]); (11382, [11381]);
    (11393, [11392]); (11395, [11394]); (11397, [11396]); (11399, [11398]);
    (11401, [11400]); (11403, [11402]); (11405, [11404]); (11407, [11406]);
    (11409, [11408]); (11411, [11410]); (11413, [11412]); (11415, [11414]);
    (11417, [11416]); (11419, [11418]); (11421, [11420]); (11423, [11422]);
    (11425, [11424]); (11427, [11426]); (11429, [11428]); (11431, [11430]);
    (11433, [11432]); (11435, [11434]); (11437, [11436]); (11439, [11438]);
    (11441, [11440]); (11443, [11442]); (11445, [11444]); (11447, [11446]);
    (11449, [11448]); (11451, [11450]); (11453, [11452]); (11455, [11454]);
    (11457, [11456]); (11459, [11458]); (11461, [11460]); (11463, [11462]);
    (11465, [11464]); (11467, [11466]); (11469, [11468]); (11471, [11470]);
    (11473, [11472]); (11475, [11474]); (11477, [11476]); (11479, [11478]);
    (11481, [11480]); (11483, [11482]); (11485, [11484]); (11487, [11486]);
    (11489, [11488]); (11491, [11490]); (11500, [11499]); (11502, [11501]);
    (11507, [11506]); (11520, [4256]); (11521, [4257]); (11522, [4258]);
    (11523, [4259]); (11524, [4260]); (11525, [4261]); (11526, [4262]);
    (11527, [4263]); (11528, [4264]); (11529, [4265]); (11530, [4266]);
    (11531, [4267]); (11532, [4268]); (11533, [4269]); (11534, [4270]);
    (11535, [4271]); (11536, [4272]); (11537, [4273]); (11538, [4274]);
    (11539, [4275]); (11540, [4276]); (11541, [4277]); (11542, [4278]);
    (11543, [4279]); (11544, [4280]); (11545, [4281]); (11546, [4282]);
    (11547, [4283]); (11548, [4284]); (11549, [4285]); (11550, [4286]);
    (11551, [4287]); (11552, [4288]); (11553, [4289]); (11554, [4290]);
    (11555, [4291]); (11556, [4292]); (11557, [4293]); (11559, [4295]);
    (11565, [4301]); (42561, [42560]); (42563, [42562]); (42565, [42564]);
    (42567, [42566]); (42569, [42568]); (42571, [42570]); (42573, [42572]);
    (42575, [42574]); (42577, [42576]); (42579, [42578]); (42581, [42580]);
    (42583, [42582]); (42585, [42584]); (42587, [42586]); (42589, [42588]);
    (42591, [42590]); (42593, [42592]); (42595, [42594]); (42597, [42596]);
    (42599, [42598]); (42601, [42600]); (42603, [42602]); (42605, [42604]);
    (42625, [42624]); (42627, [42626]); (42629, [42628]); (42631, [42630]);
    (42633, [42632]); (42635, [42634]); (42637, [42636]); (42639, [42638]);
    (42641, [42640]); (42643, [42642]); (42645, [42644]); (42647, [42646]);
    (42649, [42648]); (42651, [42650]); (42787, [42786]); (42789, [42788]);
    (42791, [42790]); (42793, [42792]); (42795, [42794]); (42797, [42796]);
    (42799, [42798]); (42803, [42802]); (42805, [42804]); (42807, [42806]);
    (42809, [42808]); (42811, [42810]); (42813, [42812]); (42815, [42814]);
    (42817, [42816]); (42819, [42818]); (42821, [42820]); (42823, [42822]);
    (42825, [42824]); (42827, [42826]); (42829, [42828]); (42831, [42830]);
    (42833, [42832]); (42835, [42834]); (42837, [42836]); (42839, [42838]);
    (42841, [42840]); (42843, [42842]); (42845, [42844]); (42847, [42846]);
    (42849, [42848]); (42851, [42850]); (42853, [42852]); (42855, [42854]);
    (42857, [42856]); (42859, [42858]); (42861, [42860]); (42863, [42862]);
    (42874, [42873]); (42876, [42875]); (42879, [42878]); (42881, [42880]);
    (42883, [42882]); (42885, [42884]); (42887, [42886]); (42892, [42891]);
    (42897, [42896]); (42899, [42898]); (42900, [42948]); (42903, [42902]);
    (42905, [42904]); (42907, [42906]); (42909, [42908]); (42911, [42910]);
    (42913, [42912]); (42915, [42914]); (42917, [42916]); (42919, [42918]);
    (42921, [42920]); (42933, [42932]); (42935, [42934]); (42937, [42936]);
    (42939, [42938]); (42941, [42940]); (42943, [42942]); (42945, [42944]);
    (42947, [42946]); (42952, [42951]); (42954, [42953]); (42961, [42960]);
    (42967, [42966]); (42969, [42968]); (42998, [42997]); (43859, [42931]);
    (43888, [5024]); (43889, [5025]); (43890, [5026]); (43891, [5027]);
    (43892, [5028]); (43893, [5029]); (43894, [5030]); (43895, [5031]);
    (43896, [5032]); (43897, [5033]); (43898, [5034]); (43899, [5035]);
    (43900, [5036]); (43901, [5037]); (43902, [5038]); (43903, [5039]);
    (43904, [5040]); (43905, [5041]); (43906, [5042]); (43907, [5043]);
    (43908, [5044]); (43909, [5045]); (43910, [5046]); (43911, [5047]);
    (43912, [5048]); (43913, [5049]); (43914, [5050]); (43915, [5051]);
    (43916, [5052]); (43917, [5053]); (43918, [5054]); (43919, [5055]);
    (43920, [5056]); (43921, [5057]); (43922, [5058]); (43923, [5059]);
    (43924, [5060]); (43925, [5061]); (43926, [5062]); (43927, [5063]);
    (43928, [5064]); (43929, [5065]); (43930, [5066]); (43931, [5067]);
    (43932, [5068]); (43933, [5069]); (43934, [5070]); (43935, [5071]);
    (43936, [5072]); (43937, [5073]); (43938, [5074]); (43939, [5075]);
    (43940, [5076]); (43941, [5077]); (43942, [5078]); (43943, [5079]);
    (43944, [5080]); (43945, [5081]); (43946, [5082]); (43947, [5083]);
    (43948, [5084]); (43949, [5085]); (43950, [5086]); (43951, [5087]);
    (43952, [5088]); (43953, [5089]); (43954, [5090]); (43955, [5091]);
    (43956, [5092]); (43957, [5093]); (43958, [5094]); (43959, [5095]);
    (43960, [5096]); (43961, [5097]); (43962, [5098]); (43963, [5099]);
    (43964, [5100]); (43965, [5101]); (43966, [5102]); (43967, [5103]);
    (64256, [70; 102]); (64257, [70; 105]); (64258, [70; 108]);
    (64259, [70; 102; 105]); (64260, [70; 102; 108]); (64261, [83; 116]);
    (64262, [83; 116]); (64275, [1348; 1398]); (64276, [1348; 1381]);
    (64277, [1348; 1387]); (64278, [1358; 1398]); (64279, [1348; 1389]);
    (65345, [65313]); (65346, [65314]); (65347, [65315]); (65348, [65316]);
    (65349, [65317]); (65350, [65318]); (65351, [65319]); (65352, [65320]);
    (65353, [65321]); (65354, [65322]); (65355, [65323]); (65356, [65324]);
    (65357, [65325]); (65358, [65326]); (65359, [65327]); (65360, [65328]);
    (65361, [65329]); (65362, [65330]); (65363, [65331]); (65364, [65332]);
    (65365, [65333]); (65366, [65334]); (65367, [65335]); (65368, [65336]);
    (65369, [65337]); (65370, [65338]); (66600, [66560]); (66601, [66561]);
    (66602, [66562]); (66603, [66563]); (66604, [66564]); (66605, [66565]);
    (66606, [66566]); (66607, [66567]); (66608, [66568]); (66609, [66569]);
    (66610, [66570]); (66611, [66571]); (66612, [66572]); (66613, [66573]);
    (66614, [66574]); (66615, [66575]); (66616, [66576]); (66617, [66577]);
    (66618, [66578]); (66619, [66579]); (66620, [66580]); (66621, [66581]);
    (66622, [66582]); (66623, [66583]); (66624, [66584]); (66625, [66585]);
    (66626, [66586]); (66627, [66587]); (66628, [66588]); (66629, [66589]);
    (66630, [66590]); (66631, [66591]); (66632, [66592]); (66633, [66593]);
    (66634, [66594]); (66635, [66595]); (66636, [66596]); (66637, [66597]);
    (66638, [66598]); (66639, [66599]); (66776, [66736]); (66777, [66737]);
    (66778, [66738]); (66779, [66739]); (66780, [66740]); (66781, [66741]);
    (66782, [66742]); (66783, [66743]); (66784, [66744]); (66785, [66745]);
    (66786, [66746]); (66787, [66747]); (66788, [66748]); (66789, [66749]);
    (66790, [66750]); (66791, [66751]); (66792, [66752]); (66793, [66753]);
    (66794, [66754]); (66795, [66755]); (66796, [66756]); (66797, [66757]);
    (66798, [66758]); (66799, [66759]); (66800, [66760]); (66801, [66761]);
    (66802, [66762]); (66803, [66763]); (66804, [66764]); (66805, [66765]);
    (66806, [66766]); (66807, [66767]); (66808, [66768]); (66809, [66769]);
    (66810, [66770]); (66811, [66771]); (66967, [66928]); (66968, [66929]);
    (66969, [66930]); (66970, [66931]); (66971, [66932]); (66972, [66933]);
    (66973, [66934]); (66974, [66935]); (66975, [66936]); (66976, [66937]);
    (66977, [66938]); (66979, [66940]); (66980, [66941]); (66981, [66942]);
    (66982, [66943]); (66983, [66944]); (66984, [66945]); (66985, [66946]);
    (66986, [66947]); (66987, [66948]); (66988, [66949]); (66989, [66950]);
    (66990, [66951]); (66991, [66952]); (66992, [66953]); (66993, [66954]);
    (66995, [66956]); (66996, [66957]); (66997, [66958]); (66998, [66959]);
    (66999, [66960]); (67000, [66961]); (67001, [66962]); (67003, [66964]);
    (67004, [66965]); (68800, [68736]); (68801, [68737]); (68802, [68738]);
    (68803, [68739]); (68804, [68740]); (68805, [68741]); (68806, [68742]);
    (68807, [68743]); (68808, [68744]); (68809, [68745]); (68810, [68746]);
    (68811, [68747]); (68812, [68748]); (68813, [68749]); (68814, [68750]);
    (68815, [68751]); (68816, [68752]); (68817, [68753]); (68818, [68754]);
    (68819, [68755]); (68820, [68756]); (68821, [68757]); (68822, [68758]);
    (68823, [68759]); (68824, [68760]); (68825, [68761]); (68826, [68762]);
    (68827, [68763]); (68828, [68764]); (68829, [68765]); (68830, [68766]);
    (68831, [68767]); (68832, [68768]); (68833, [68769]); (68834, [68770]);
    (68835, [68771]); (68836, [68772]); (68837, [68773]); (68838, [68774]);
    (68839, [68775]); (68840, [68776]); (68841, [68777]); (68842, [68778]);
    (68843, [68779]); (68844, [68780]); (68845, [68781]); (68846, [68782]);
    (68847, [68783]); (68848, [68784]); (68849, [68785]); (68850, [68786]);
    (71872, [71840]); (71873, [71841]); (71874, [71842]); (71875, [71843]);
    (71876, [71844]); (71877, [71845]); (71878, [71846]); (71879, [71847]);
    (71880, [71848]); (71881, [71849]); (71882, [71850]); (71883, [71851]);
    (71884, [71852]); (71885, [71853]); (71886, [71854]); (71887, [71855]);
    (71888, [71856]); (71889, [71857]); (71890, [71858]); (71891, [71859]);
    (71892, [71860]); (71893, [71861]); (71894, [71862]); (71895, [71863]);
    (71896, [71864]); (71897, [71865]); (71898, [71866]); (71899, [71867]);
    (71900, [71868]); (71901, [71869]); (71902, [71870]); (71903, [71871]);
    (93792, [93760]); (93793, [93761]); (93794, [93762]); (93795, [93763]);
    (93796, [93764]); (93797, [93765]); (93798, [93766]); (93799, [93767]);
    (93800, [93768]); (93801, [93769]); (93802, [93770]); (93803, [93771]);
    (93804, [93772]); (93805, [93773]); (93806, [93774]); (93807, [93775]);
    (93808, [93776]); (93809, [93777]); (93810, [93778]); (93811, [93779]);
    (93812, [93780]); (93813, [93781]); (93814, [93782]); (93815, [93783]);
    (93816, [93784]); (93817, [93785]); (93818, [93786]); (93819, [93787]);
    (93820, [93788]); (93821, [93789]); (93822, [93790]); (93823, [93791]);
    (125218, [125184]); (125219, [125185]); (125220, [125186]);
    (125221, [125187]); (125222, [125188]); (125223, [125189]);
    (125224, [125190]); (125225, [125191]); (125226, [125192]);
    (125227, [125193]); (125228, [125194]); (125229, [125195]);
    (125230, [125196]); (125231, [125197]); (125232, [125198]);
    (125233, [125199]); (125234, [125200]); (125235, [125201]);
    (125236, [125202]); (125237, [125203]); (125238, [125204]);
    (125239, [125205]); (125240, [125206]); (125241, [125207]);
    (125242, [125208]); (125243, [125209]); (125244, [125210]);
    (125245, [125211]); (125246, [125212]); (125247, [125213]);
    (125248, [125214]); (125249, [125215]); (125250, [125216]);
    (125251, [125217])
  ]%N.

(** The code points above 127 with the property Cased, as ranges. *)
Definition cased_ranges : list (N * N) :=
  [
    (170, 170); (181, 181); (186, 186); (192, 214); (216, 246); (248, 442);
    (444, 447); (452, 659); (661, 696); (704, 705); (736, 740); (837, 837);
    (880, 883); (886, 887); (890, 893); (895, 895); (902, 902); (904, 906);
    (908, 908); (910, 929); (931, 1013); (1015, 1153); (1162, 1327);
    (1329, 1366); (1376, 1416); (4256, 4293); (4295, 4295); (4301, 4301);
    (4304, 4346); (4349, 4351); (5024, 5109); (5112, 5117); (7296, 7304);
    (7312, 7354); (7357, 7359); (7424, 7615); (7680, 7957); (7960, 7965);
    (7968, 8005); (8008, 8013); (8016, 8023); (8025, 8025); (8027, 8027);
    (8029, 8029); (8031, 8061); (8064, 8116); (8118, 8124); (8126, 8126);
    (8130, 8132); (8134, 8140); (8144, 8147); (8150, 8155); (8160, 8172);
    (8178, 8180); (8182, 8188); (8305, 8305); (8319, 8319); (8336, 8348);
    (8450, 8450); (8455, 8455); (8458, 8467); (8469, 8469); (8473, 8477);
    (8484, 8484); (8486, 8486); (8488, 8488); (8490, 8493); (8495, 8500);
    (8505, 8505); (8508, 8511); (8517, 8521); (8526, 8526); (8544, 8575);
    (8579, 8580); (9398, 9449); (11264, 11492); (11499, 11502);
    (11506, 11507); (11520, 11557); (11559, 11559); (11565, 11565);
    (42560, 42605); (42624, 42653); (42786, 42887); (42891, 42894);
    (42896, 42954); (42960, 42961); (42963, 42963); (42965, 42969);
    (42997, 42998); (43000, 43002); (43824, 43866); (43868, 43880);
    (43888, 43967); (64256, 64262); (64275, 64279); (65313, 65338);
    (65345, 65370); (66560, 66639); (66736, 66771); (66776, 66811);
    (66928, 66938); (66940, 66954); (66956, 66962); (66964, 66965);
    (66967, 66977); (66979, 66993); (66995, 67001); (67003, 67004);
    (67456, 67456); (67459, 67461); (67463, 67504); (67506, 67514);
    (68736, 68786); (68800, 68850); (71840, 71903); (93760, 93823);
    (119808, 119892); (119894, 119964); (119966, 119967); (119970, 119970);
    (119973, 119974); (119977, 119980); (119982, 119993); (119995, 119995);
    (119997, 120003); (120005, 120069); (120071, 120074); (120077, 120084);
    (120086, 120092); (120094, 120121); (120123, 120126); (120128, 120132);
    (120134, 120134); (120138, 120144); (120146, 120485); (120488, 120512);
    (120514, 120538); (120540, 120570); (120572, 120596); (120598, 120628);
    (120630, 120654); (120656, 120686); (120688, 120712); (120714, 120744);
    (120746, 120770); (120772, 120779); (122624, 122633); (122635, 122654);
    (125184, 125251); (127280, 127305); (127312, 127337); (127344, 127369)
  ]%N.

(** The code points with the property Case_Ignorable, as ranges. *)
Definition case_ignorable_ranges : list (N * N) :=
  [
    (39, 39); (46, 46); (58, 58); (94, 94); (96, 96); (168, 168); (173, 173);
    (175, 175); (180, 180); (183, 184); (688, 879); (884, 885); (890, 890);
    (900, 901); (903, 903); (1155, 1161); (1369, 1369); (1375, 1375);
    (1425, 1469); (1471, 1471); (1473, 1474); (1476, 1477); (1479, 1479);
    (1524, 1524); (1536, 1541); (1552, 1562); (1564, 1564); (1600, 1600);
    (1611, 1631); (1648, 1648); (1750, 1757); (1759, 1768); (1770, 1773);
    (1807, 1807); (1809, 1809); (1840, 1866); (1958, 1968); (2027, 2037);
    (2042, 2042); (2045, 2045); (2070, 2093); (2137, 2139); (2184, 2184);
    (2192, 2193); (2200, 2207); (2249, 2306); (2362, 2362); (2364, 2364);
    (2369, 2376); (2381, 2381); (2385, 2391); (2402, 2403); (2417, 2417);
    (2433, 2433); (2492, 2492); (2497, 2500); (2509, 2509); (2530, 2531);
    (2558, 2558); (2561, 2562); (2620, 2620); (2625, 2626); (2631, 2632);
    (2635, 2637); (2641, 2641); (2672, 2673); (2677, 2677); (2689, 2690);
    (2748, 2748); (2753, 2757); (2759, 2760); (2765, 2765); (2786, 2787);
    (2810, 2815); (2817, 2817); (2876, 2876); (2879, 2879); (2881, 2884);
    (2893, 2893); (2901, 2902); (2914, 2915); (2946, 2946); (3008, 3008);
    (3021, 3021); (3072, 3072); (3076, 3076); (3132, 3132); (3134, 3136);
    (3142, 3144); (3146, 3149); (3157, 3158); (3170, 3171); (3201, 3201);
    (3260, 3260); (3263, 3263); (3270, 3270); (3276, 3277); (3298, 3299);
    (3328, 3329); (3387, 3388); (3393, 3396); (3405, 3405); (3426, 3427);
    (3457, 3457); (3530, 3530); (3538, 3540); (3542, 3542); (3633, 3633);
    (3636, 3642); (3654, 3662); (3761, 3761); (3764, 3772); (3782, 3782);
    (3784, 3789); (3864, 3865); (3893, 3893); (3895, 3895); (3897, 3897);
    (3953, 3966); (3968, 3972); (3974, 3975); (3981, 3991); (3993, 4028);
    (4038, 4038); (4141, 4144); (4146, 4151); (4153, 4154); (4157, 4158);
    (4184, 4185); (4190, 4192); (4209, 4212); (4226, 4226); (4229, 4230);
    (4237, 4237); (4253, 4253); (4348, 4348); (4957, 4959); (5906, 5908);
    (5938, 5939); (5970, 5971); (6002, 6003); (6068, 6069); (6071, 6077);
    (6086, 6086); (6089, 6099); (6103, 6103); (6109, 6109); (6155, 6159);
    (6211, 6211); (6277, 6278); (6313, 6313); (6432, 6434); (6439, 6440);
    (6450, 6450); (6457, 6459); (6679, 6680); (6683, 6683); (6742, 6742);
    (6744, 6750); (6752, 6752); (6754, 6754); (6757, 6764); (6771, 6780);
    (6783, 6783); (6823, 6823); (6832, 6862); (6912, 6915); (6964, 6964);
    (6966, 6970); (6972, 6972); (6978, 6978); (7019, 7027); (7040, 7041);
    (7074, 7077); (7080, 7081); (7083, 7085); (7142, 7142); (7144, 7145);
    (7149, 7149); (7151, 7153); (7212, 7219); (7222, 7223); (7288, 7293);
    (7376, 7378); (7380, 7392); (7394, 7400); (7405, 7405); (7412, 7412);
    (7416, 7417); (7468, 7530); (7544, 7544); (7579, 7679); (8125, 8125);
    (8127, 8129); (8141, 8143); (8157, 8159); (8173, 8175); (8189, 8190);
    (8203, 8207); (8216, 8217); (8228, 8228); (8231, 8231); (8234, 8238);
    (8288, 8292); (8294, 8303); (8305, 8305); (8319, 8319); (8336, 8348);
    (8400, 8432); (11388, 11389); (11503, 11505); (11631, 11631);
    (11647, 11647); (11744, 11775); (11823, 11823); (12293, 12293);
    (12330, 12333); (12337, 12341); (12347, 12347); (12441, 12446);
    (12540, 12542); (40981, 40981); (42232, 42237); (42508, 42508);
    (42607, 42610); (42612, 42621); (42623, 42623); (42652, 42655);
    (42736, 42737); (42752, 42785); (42864, 42864); (42888, 42890);
    (42994, 42996); (43000, 43001); (43010, 43010); (43014, 43014);
    (43019, 43019); (43045, 43046); (43052, 43052); (43204, 43205);
    (43232, 43249); (43263, 43263); (43302, 43309); (43335, 43345);
    (43392, 43394); (43443, 43443); (43446, 43449); (43452, 43453);
    (43471, 43471); (43493, 43494); (43561, 43566); (43569, 43570);
    (43573, 43574); (43587, 43587); (43596, 43596); (43632, 43632);
    (43644, 43644); (43696, 43696); (43698, 43700); (43703, 43704);
    (43710, 43711); (43713, 43713); (43741, 43741); (43756, 43757);
    (43763, 43764); (43766, 43766); (43867, 43871); (43881, 43883);
    (44005, 44005); (44008, 44008); (44013, 44013); (64286, 64286);
    (64434, 64450); (65024, 65039); (65043, 65043); (65056, 65071);
    (65106, 65106); (65109, 65109); (65279, 65279); (65287, 65287);
    (65294, 65294); (65306, 65306); (65342, 65342); (65344, 65344);
    (65392, 65392); (65438, 65439); (65507, 65507); (65529, 65531);
    (66045, 66045); (66272, 66272); (66422, 66426); (67456, 67461);
    (67463, 67504); (67506, 67514); (68097, 68099); (68101, 68102);
    (68108, 68111); (68152, 68154); (68159, 68159); (68325, 68326);
    (68900, 68903); (69291, 69292); (69446, 69456); (69506, 69509);
    (69633, 69633); (69688, 69702); (69744, 69744); (69747, 69748);
    (69759, 69761); (69811, 69814); (69817, 69818); (69821, 69821);
    (69826, 69826); (69837, 69837); (69888, 69890); (69927, 69931);
    (69933, 69940); (70003, 70003); (70016, 70017); (70070, 70078);
    (70089, 70092); (70095, 70095); (70191, 70193); (70196, 70196);
    (70198, 70199); (70206, 70206); (70367, 70367); (70371, 70378);
    (70400, 70401); (70459, 70460); (70464, 70464); (70502, 70508);
    (70512, 70516); (70712, 70719); (70722, 70724); (70726, 70726);
    (70750, 70750); (70835, 70840); (70842, 70842); (70847, 70848);
    (70850, 70851); (71090, 71093); (71100, 71101); (71103, 71104);
    (71132, 71133); (71219, 71226); (71229, 71229); (71231, 71232);
    (71339, 71339); (71341, 71341); (71344, 71349); (71351, 71351);
    (71453, 71455); (71458, 71461); (71463, 71467); (71727, 71735);
    (71737, 71738); (71995, 71996); (71998, 71998); (72003, 72003);
    (72148, 72151); (72154, 72155); (72160, 72160); (72193, 72202);
    (72243, 72248); (72251, 72254); (72263, 72263); (72273, 72278);
    (72281, 72283); (72330, 72342); (72344, 72345); (72752, 72758);
    (72760, 72765); (72767, 72767); (72850, 72871); (72874, 72880);
    (72882, 72883); (72885, 72886); (73009, 73014); (73018, 73018);
    (73020, 73021); (73023, 73029); (73031, 73031); (73104, 73105);
    (73109, 73109); (73111, 73111); (73459, 73460); (78896, 78904);
    (92912, 92916); (92976, 92982); (92992, 92995); (94031, 94031);
    (94095, 94111); (94176, 94177); (94179, 94180); (110576, 110579);
    (110581, 110587); (110589, 110590); (113821, 113822); (113824, 113827);
    (118528, 118573); (118576, 118598); (119143, 119145); (119155, 119170);
    (119173, 119179); (119210, 119213); (119362, 119364); (121344, 121398);
    (121403, 121452); (121461, 121461); (121476, 121476); (121499, 121503);
    (121505, 121519); (122880, 122886); (122888, 122904); (122907, 122913);
    (122915, 122916); (122918, 122922); (123184, 123197); (123566, 123566);
    (123628, 123631); (125136, 125142); (125252, 125259); (127995, 127999);
    (917505, 917505); (917536, 917631); (917760, 917999)
  ]%N.

Fixpoint lookup (table : list (N * list N)) (p : N) : option (list N) :=
  match table with
  | [] => None
  | (q, mapped) :: table' => if (q =? p)%N then Some mapped else lookup table' p
  end.

Fixpoint in_ranges (ranges : list (N * N)) (p : N) : bool :=
  match ranges with
  | [] => false
  | (first, last) :: ranges' =>
      ((first <=? p) && (p <=? last))%N || in_ranges ranges' p
  end.

Definition is_upper (p : N) : bool := ((65 <=? p) && (p <=? 90))%N.
Definition is_lower (p : N) : bool := ((97 <=? p) && (p <=? 122))%N.

(** [_PyUnicode_IsCased] and [_PyUnicode_IsCaseIgnorable] *)
Definition is_cased (p : N) : bool :=
  if (p <? 128)%N then is_upper p || is_lower p else in_ranges cased_ranges p.

Definition is_case_ignorable (p : N) : bool :=
  in_ranges case_ignorable_ranges p.

(** [_PyUnicode_ToLowerFull] and [_PyUnicode_ToTitleFull]: one code point
    can become up to three. *)
Definition to_lower (p : N) : list N :=
  if (p <? 128)%N then [if is_upper p then (p + 32)%N else p]
  else match lookup lower_table p with
       | Some mapped => mapped
       | None => [p]
       end.

Definition to_title (p : N) : list N :=
  if (p <? 128)%N then [if is_lower p then (p - 32)%N else p]
  else match lookup title_table p with
       | Some mapped => mapped
       | None => [p]
       end.

(** The first code point of a list that is not case-ignorable. *)
Fixpoint skip_ignorable (l : list N) : option N :=
  match l with
  | [] => None
  | p :: l' => if is_case_ignorable p then skip_ignorable l' else Some p
  end.

(** [handle_capital_sigma]: a capital sigma becomes the final sigma when a
    cased letter comes before it and none after it, case-ignorable code
    points aside.  [before] are the code points before the sigma, the
    nearest first, and [after] those after it. *)
Definition handle_capital_sigma (before after : list N) : N :=
  match skip_ignorable before with
  | Some p =>
      if is_cased p
      then match skip_ignorable after with
           | Some q => if is_cased q then 963%N else 962%N
           | None => 962%N
           end
      else 963%N
  | None => 963%N
  end.

(** [lower_ucs4] *)
Definition lower_ucs4 (before : list N) (p : N) (after : list N) : list N :=
  if (p =? 931)%N then [handle_capital_sigma before after] else to_lower p.

(** [do_lower] *)
Fixpoint do_lower (before l : list N) : list N :=
  match l with
  | [] => []
  | p :: l' => (lower_ucs4 before p l' ++ do_lower (p :: before) l')%list
  end.

(** The loop of [do_title]: a code point that follows a cased one is
    lowercased, any other is titlecased; [previous_is_cased] is the loop's
    flag. *)
Fixpoint do_title (previous_is_cased : bool) (before l : list N) : list N :=
  match l with
  | [] => []
  | p :: l' =>
      ((if previous_is_cased then lower_ucs4 before p l' else to_title p)
       ++ do_title (is_cased p) (p :: before) l')%list
  end.

(** [s.lower()] *)
Definition lower (s : string) : string := encode (do_lower [] (decode s)).

(** [s.title()] *)
Definition title (s : string) : string :=
  encode (do_title false [] (decode s)).

End PyStr.

(* ===================================================================== *)
(** ** Python values and exceptions *)
(* ===================================================================== *)

(** The values a JSON body decodes to, which are also the values of the
    fields of a stored document.  A [dict] lists its items in order, each
    key once.  Floating-point numbers are not represented. *)
Inductive value : Type :=
  | VNone
  | VBool (b : bool)
  | VInt (n : Z)
  | VStr (s : string)
  | VList (l : list value)
  | VDict (d : list (string * value)).

(** [d[key]] when the key is present. *)
Fixpoint assoc {V : Type} (key : string) (d : list (string * V)) : option V :=
  match d with
  | [] => None
  | (k, v) :: d' => if String.eqb k key then Some v else assoc key d'
  end.

(** Equality of two values as the document store compares them. *)
Fixpoint value_eqb (a b : value) {struct a} : bool :=
  match a, b with
  | VNone, VNone => true
  | VBool x, VBool y => Bool.eqb x y
  | VInt x, VInt y => x =? y
  | VStr x, VStr y => String.eqb x y
  | VList xs, VList ys =>
      (fix go (xs ys : list value) {struct xs} : bool :=
         match xs, ys with
         | [], [] => true
         | x :: xs', y :: ys' => value_eqb x y && go xs' ys'
         | _, _ => false
         end) xs ys
  | VDict xs, VDict ys =>
      (fix go (xs ys : list (string * value)) {struct xs} : bool :=
         match xs, ys with
         | [], [] => true
         | (k, x) :: xs', (k', y) :: ys' =>
             String.eqb k k' && value_eqb x y && go xs' ys'
         | _, _ => false
         end) xs ys
  | _, _ => false
  end.

(** [bool(v)], the truth value tested by [x if v else y]. *)
Definition truthy (v : value) : bool :=
  match v with
  | VNone => false
  | VBool b => b
  | VInt n => negb (n =? 0)
  | VStr s => negb (String.eqb s "")
  | VList l => match l with [] => false | _ :: _ => true end
  | VDict d => match d with [] => false | _ :: _ => true end
  end.

Inductive exception : Type :=
  | AttributeError
  | TypeError
  | OverflowError.

Inductive result (A : Type) : Type :=
  | Ok (a : A)
  | Raise (e : exception).
Arguments Ok {A} a.
Arguments Raise {A} e.

#[global] Instance result_ret : MRet result := fun A a => Ok a.
#[global] Instance result_bind : MBind result := fun A B f m =>
  match m with
  | Ok a => f a
  | Raise e => Raise e
  end.

(** The body of [for x in xs: out.append(f(x))]: the first exception ends
    the loop. *)
Fixpoint for_each {A B : Type} (f : A -> result B) (xs : list A)
  : result (list B) :=
  match xs with
  | [] => Ok []
  | x :: xs' => y ← f x; ys ← for_each f xs'; Ok (y :: ys)
  end.

(** [v.get(key, default)]: only a [dict] has the method. *)
Definition dict_get (v : value) (key : string) (default : value)
  : result value :=
  match v with
  | VDict d => Ok (match assoc key d with Some x => x | None => default end)
  | _ => Raise AttributeError
  end.

(** [v.lower()]: only a [str] has the method. *)
Definition str_lower (v : value) : result string :=
  match v with
  | VStr s => Ok (PyStr.lower s)
  | _ => Raise AttributeError
  end.

(* ===================================================================== *)
(** ** [datetime] and [timedelta] *)
(* ===================================================================== *)

(** Naive datetimes and durations, after CPython's [datetime] module: a
    date is converted to its ordinal (1 January of year 1 is day 1), the
    arithmetic is done on days, seconds and microseconds, and the ordinal
    is converted back. *)
Module PyDatetime.

Record datetime : Type := mk_datetime {
  year : Z; month : Z; day : Z;
  hour : Z; minute : Z; second : Z; microsecond : Z
}.

(** A duration in normal form: [0 <= seconds < 86400] and
    [0 <= microseconds < 1000000]; [days] carries the sign. *)
Record timedelta : Type := mk_timedelta {
  days : Z; seconds : Z; microseconds : Z
}.

Definition MAXORDINAL : Z := 3652059.

Definition DAYS_IN_MONTH : list Z :=
  [-1; 31; 28; 31; 30; 31; 30; 31; 31; 30; 31; 30; 31].

Definition DAYS_BEFORE_MONTH : list Z :=
  [-1; 0; 31; 59; 90; 120; 151; 181; 212; 243; 273; 304; 334].

(** [table[i]] for an index within the table. *)
Definition index (table : list Z) (i : Z) : Z := nth (Z.to_nat i) table (-1).

(** A Python [bool] used as a number. *)
Definition int_of_bool (b : bool) : Z := if b then 1 else 0.

Definition is_leap (y : Z) : bool :=
  (y mod 4 =? 0) && (negb (y mod 100 =? 0) || (y mod 400 =? 0)).

Definition days_before_year (y : Z) : Z :=
  let y := y - 1 in y * 365 + y / 4 - y / 100 + y / 400.

Definition days_in_month (y m : Z) : Z :=
  if (m =? 2) && is_leap y then 29 else index DAYS_IN_MONTH m.

Definition days_before_month (y m : Z) : Z :=
  index DAYS_BEFORE_MONTH m + int_of_bool ((2 <? m) && is_leap y).

Definition ymd2ord (y m d : Z) : Z :=
  days_before_year y + days_before_month y m + d.

Definition DI400Y : Z := days_before_year 401.
Definition DI100Y : Z := days_before_year 101.
Definition DI4Y : Z := days_before_year 5.

Definition ord2ymd (n : Z) : Z * Z * Z :=
  let n := n - 1 in
  let n400 := n / DI400Y in let n := n mod DI400Y in
  let y := n400 * 400 + 1 in
  let n100 := n / DI100Y in let n := n mod DI100Y in
  let n4 := n / DI4Y in let n := n mod DI4Y in
  let n1 := n / 365 in let n := n mod 365 in
  let y := y + (n100 * 100 + n4 * 4 + n1) in
  if (n1 =? 4) || (n100 =? 4) then (y - 1, 12, 31)
  else
    let leapyear := (n1 =? 3) && (negb (n4 =? 24) || (n100 =? 3)) in
    let m := Z.shiftr (n + 50) 5 in
    let preceding :=
      index DAYS_BEFORE_MONTH m + int_of_bool ((2 <? m) && leapyear) in
    if n <? preceding then
      let m := m - 1 in
      let preceding :=
        preceding
        - (index DAYS_IN_MONTH m + int_of_bool ((m =? 2) && leapyear)) in
      (y, m, n - preceding + 1)
    else (y, m, n - preceding + 1).

Definition toordinal (d : datetime) : Z := ymd2ord (year d) (month d) (day d).

(** [timedelta(days, seconds, microseconds, minutes=.., hours=..)] on
    integers: the total is split into days, seconds and microseconds. *)
Definition timedelta_new (d s us mins hrs : Z) : timedelta :=
  let total := (((d * 24 + hrs) * 60 + mins) * 60 + s) * 1000000 + us in
  let rest := total mod 86400000000 in
  {| days := total / 86400000000;
     seconds := rest / 1000000;
     microseconds := rest mod 1000000 |}.

(** [a + b] on durations. *)
Definition timedelta_add (a b : timedelta) : timedelta :=
  timedelta_new (days a + days b) (seconds a + seconds b)
                (microseconds a + microseconds b) 0 0.

(** [-a] *)
Definition timedelta_neg (a : timedelta) : timedelta :=
  timedelta_new (- days a) (- seconds a) (- microseconds a) 0 0.

(** [self + other], [datetime.__add__]. *)
Definition datetime_add (self : datetime) (other : timedelta)
  : result datetime :=
  let delta :=
    timedelta_add
      (timedelta_new (toordinal self) (second self) (microsecond self)
                     (minute self) (hour self))
      other in
  let hr := seconds delta / 3600 in
  let rem := seconds delta mod 3600 in
  let mi := rem / 60 in
  let se := rem mod 60 in
  if (0 <? days delta) && (days delta <=? MAXORDINAL) then
    let '(y, m, d) := ord2ymd (days delta) in
    Ok {| year := y; month := m; day := d;
          hour := hr; minute := mi; second := se;
          microsecond := microseconds delta |}
  else Raise OverflowError.

(** [self - other] for a duration [other] is [self + -other]. *)
Definition datetime_sub (self : datetime) (other : timedelta)
  : result datetime :=
  datetime_add self (timedelta_neg other).

(** The tuple two naive datetimes are compared by. *)
Definition fields (d : datetime) : list Z :=
  [year d; month d; day d; hour d; minute d; second d; microsecond d].

(** Lexicographic [<] on tuples of integers. *)
Fixpoint lex_ltb (a b : list Z) : bool :=
  match a, b with
  | [], [] => false
  | [], _ :: _ => true
  | _ :: _, [] => false
  | x :: a', y :: b' => (x <? y) || ((x =? y) && lex_ltb a' b')
  end.

(** [a < b] on naive datetimes. *)
Definition datetime_ltb (a b : datetime) : bool :=
  lex_ltb (fields a) (fields b).

Definition digit_char (n : Z) : ascii := ascii_of_N (48 + Z.to_N n).

(** ["%0wd" % n] for [0 <= n < 10 ^ w], which is where the fields of a
    datetime lie for the widths [isoformat] uses. *)
Fixpoint zero_padded (w : nat) (n : Z) : string :=
  match w with
  | O => EmptyString
  | S w' =>
      String (digit_char ((n / 10 ^ Z.of_nat w') mod 10)) (zero_padded w' n)
  end.

(** [format_time(hh, mm, ss, us)] with [timespec='auto']: the
    microseconds are left out when they are zero. *)
Definition format_time (hh mm ss us : Z) : string :=
  (zero_padded 2 hh +:+ ":" +:+ zero_padded 2 mm +:+ ":" +:+ zero_padded 2 ss)
  +:+ (if us =? 0 then "" else "." +:+ zero_padded 6 us).

(** [d.isoformat()] of a naive datetime: no offset is appended. *)
Definition isoformat (d : datetime) : string :=
  (zero_padded 4 (year d) +:+ "-" +:+ zero_padded 2 (month d) +:+ "-"
   +:+ zero_padded 2 (day d) +:+ "T")
  +:+ format_time (hour d) (minute d) (second d) (microsecond d).

(** The class invariant of [datetime]. *)
Definition valid (d : datetime) : Prop :=
  1 <= year d <= 9999 /\ 1 <= month d <= 12 /\
  1 <= day d <= days_in_month (year d) (month d) /\
  0 <= hour d < 24 /\ 0 <= minute d < 60 /\ 0 <= second d < 60 /\
  0 <= microsecond d < 1000000.

End PyDatetime.
Import PyDatetime.

(* ===================================================================== *)
(** ** Time as a number *)
(* ===================================================================== *)

(** The microseconds from the start of day 0 of the calendar to a
    datetime, and the microseconds of a duration. *)
Definition total_micros (d : datetime) : Z :=
  (((toordinal d * 24 + hour d) * 60 + minute d) * 60 + second d) * 1000000
  + microsecond d.

Definition timedelta_micros (t : timedelta) : Z :=
  (days t * 86400 + seconds t) * 1000000 + microseconds t.

(** The month and the day of the month that [ord2ymd] derives from the day
    of the year [k], counted from 0, in a leap or a common year. *)
Definition month_day (leap : bool) (k : Z) : Z * Z :=
  let m := Z.shiftr (k + 50) 5 in
  let preceding := index DAYS_BEFORE_MONTH m + int_of_bool ((2 <? m) && leap) in
  if k <? preceding then
    let m := m - 1 in
    let preceding :=
      preceding
      - (index DAYS_IN_MONTH m + int_of_bool ((m =? 2) && leap)) in
    (m, k - preceding + 1)
  else (m, k - preceding + 1).

(** [month_day] is right at the day [k]. *)
Definition month_day_ok (leap : bool) (k : Z) : bool :=
  let '(m, d) := month_day leap k in
  (1 <=? m) && (m <=? 12) && (1 <=? d) &&
  (d <=? (if (m =? 2) && leap then 29 else index DAYS_IN_MONTH m)) &&
  (index DAYS_BEFORE_MONTH m + int_of_bool ((2 <? m) && leap) + d =? k + 1).


(* ===================================================================== *)
(** ** The application: configuration and data *)
(* ===================================================================== *)

Definition ACTIVITY_TIMEOUT_MINUTES : Z := 5.

(** An entry of the user table. *)
Record user : Type := mk_user {
  u_id : string; u_name : string; u_role : string; u_password : string
}.

(** The user table, keyed by login name, in insertion order. *)
Definition MOCK_USERS : list (string * user) :=
  [ ("Leni", mk_user "MCA-428" "Leni E" "student" "123");
    ("teacher", mk_user "tch-99b3" "Professor Jenifer Jose" "teacher" "admin");
    ("Soni", mk_user "MCA-112" "Soni Priya" "student" "123") ].

(** The [_id] of a document: the [ObjectId] that [insert_one] gives a
    document without the key, the value a client sent under the key, or the
    string the report handler replaces an [ObjectId] with. *)
Inductive doc_id : Type :=
  | ObjectId (hex : string)
  | IdStr (s : string)
  | IdValue (v : value).

(** A document of the [events] collection: its [_id] and the four fields
    the handlers read.  [track_attendance] and [logout_attendance] store
    nothing without the four fields, and [server_timestamp] is always the
    server's clock reading.  [track_attendance] stores the other keys of
    a body with them; no handler reads them. *)
Record event : Type := mk_event {
  _id : doc_id;
  user_id : value;
  event_type : value;
  metadata : value;
  server_timestamp : datetime
}.

(** A row of the dashboard report. *)
Record row : Type := mk_row {
  row_id : string;
  row_name : string;
  status : string;
  focus : string;
  last_event : value;
  timestamp : string
}.

(** What a handler answers: [jsonify] of a success body, or a failure with
    its HTTP status and message. *)
Inductive response (A : Type) : Type :=
  | Success (data : A)
  | Failure (code : Z) (message : string).
Arguments Success {A} data.
Arguments Failure {A} code message.

(** A [datetime] as the collection keeps it: BSON dates count
    milliseconds. *)
Definition bson_datetime (d : datetime) : datetime :=
  {| year := year d; month := month d; day := day d;
     hour := hour d; minute := minute d; second := second d;
     microsecond := microsecond d / 1000 * 1000 |}.

(* ===================================================================== *)
(** ** The collection: [insert_one] *)
(* ===================================================================== *)

Fixpoint has_nul (s : string) : bool :=
  match s with
  | EmptyString => false
  | String c s' => Ascii.eqb c zero || has_nul s'
  end.

(** The values the BSON encoder of [insert_one] takes: it raises on an
    [int] outside the signed 64-bit range and on a key that holds the NUL
    character, wherever in the document they are. *)
Fixpoint bson_encodable (v : value) : bool :=
  match v with
  | VInt n => (- 2 ^ 63 <=? n) && (n <? 2 ^ 63)
  | VList l => forallb bson_encodable l
  | VDict d =>
      forallb (fun kv => negb (has_nul (fst kv)) && bson_encodable (snd kv)) d
  | _ => true
  end.

(** Two [_id]s that the unique index of the collection takes for one. *)
Definition doc_id_eqb (a b : doc_id) : bool :=
  match a, b with
  | ObjectId x, ObjectId y => String.eqb x y
  | IdStr x, IdStr y => String.eqb x y
  | IdStr x, IdValue w => value_eqb (VStr x) w
  | IdValue v, IdStr y => value_eqb v (VStr y)
  | IdValue v, IdValue w => value_eqb v w
  | _, _ => false
  end.

(** An array cannot be an [_id]. *)
Definition storable_id (i : doc_id) : bool :=
  match i with
  | IdValue (VList _) => false
  | _ => true
  end.

(** A stored document has this [_id]. *)
Definition id_taken (i : doc_id) (events : list event) : bool :=
  existsb (doc_id_eqb i) (map _id events).

(** [events_collection.insert_one(document)]: [fields] are the JSON values
    of the document and [doc] is the document as the collection will hold
    it.  The call raises, and stores nothing, when a value cannot be
    encoded, when the [_id] is an array or is taken, and whenever the
    server does not acknowledge the write for a cause that is not followed
    here (the server is lost; the document is larger or nested deeper than
    the server takes; a field name is one the server's version forbids):
    [acknowledged] is false in these cases.  [None] stands for the
    exception. *)
Definition insert_one (acknowledged : bool) (fields : list (string * value))
    (doc : event) (events : list event) : option (list event) :=
  if bson_encodable (VDict fields)
     && storable_id (_id doc)
     && negb (id_taken (_id doc) events)
     && acknowledged
  then Some (events ++ [doc])
  else None.

(* ===================================================================== *)
(** ** Ingestion: [track_attendance] *)
(* ===================================================================== *)




(* ===================================================================== *)
(** ** The dashboard report: [get_student_data] *)
(* ===================================================================== *)

(** [d[k] = v] on a [dict], which keeps the position of a key it already
    has. *)
Fixpoint dict_set {V : Type} (k : string) (v : V) (d : list (string * V))
  : list (string * V) :=
  match d with
  | [] => [(k, v)]
  | (k', v') :: d' =>
      if String.eqb k' k then (k, v) :: d' else (k', v') :: dict_set k v d'
  end.

(** [{user_data['id']: user_data['name'] for user_data in
    MOCK_USERS.values() if user_data['role'] == 'student'}] *)
Definition all_students (users : list (string * user)) : list (string * string) :=
  fold_left
    (fun d user_data =>
       if String.eqb (u_role user_data) "student"
       then dict_set (u_id user_data) (u_name user_data) d
       else d)
    (map snd users) [].

(** [{'user_id': {'$in': student_ids}}]: a field matches when it is one of
    the ids, or an array with one of the ids among its elements. *)
Definition is_student_id (ids : list string) (v : value) : bool :=
  match v with
  | VStr s => existsb (String.eqb s) ids
  | _ => false
  end.

Definition match_in (ids : list string) (v : value) : bool :=
  match v with
  | VList l => existsb (is_student_id ids) l
  | _ => is_student_id ids v
  end.

(** [a] does not come after [b] under [{'$sort': {'server_timestamp': -1}}]. *)
Definition newest_first (a b : event) : Prop :=
  datetime_ltb (server_timestamp a) (server_timestamp b) = false.

(** [{'$group': {'_id': '$user_id', 'latest_event': {'$first': '$$ROOT'}}}]:
    one group per distinct [user_id], holding the first document of the
    input that has it; [seen] are the keys met so far. *)
Fixpoint group_first (seen : list value) (docs : list event)
  : list (value * event) :=
  match docs with
  | [] => []
  | d :: docs' =>
      if existsb (value_eqb (user_id d)) seen then group_first seen docs'
      else (user_id d, d) :: group_first (user_id d :: seen) docs'
  end.

(** [event['_id'] = str(event['_id'])] when the [_id] is an [ObjectId]. *)
Definition stringify_id (e : event) : event :=
  match _id e with
  | ObjectId hex =>
      {| _id := IdStr hex; user_id := user_id e; event_type := event_type e;
         metadata := metadata e; server_timestamp := server_timestamp e |}
  | IdStr _ | IdValue _ => e
  end.

(** The loop that fills [latest_events_map].  A [list] or a [dict] cannot
    be a key of a [dict]; an entry under a key that is not a string is never
    read, the map is only asked for student ids. *)
Fixpoint latest_events_map (groups : list (value * event))
    (acc : gmap string event) : result (gmap string event) :=
  match groups with
  | [] => Ok acc
  | (key, ev) :: groups' =>
      match key with
      | VStr uid => latest_events_map groups' (<[uid := stringify_id ev]> acc)
      | VList _ | VDict _ => Raise TypeError
      | _ => latest_events_map groups' acc
      end
  end.

Definition IST_OFFSET : timedelta := timedelta_new 0 0 0 30 5.

(** The chain of tests that determines [status] and [focus]. *)
Definition determine_status (client_status : string) (tab_focused : value)
    (server_timestamp timeout_threshold : datetime) : string * string :=
  if String.eqb client_status "logged_out" then ("Logged Out", "N/A")
  else if datetime_ltb server_timestamp timeout_threshold
  then ("Offline (Inactive)", "N/A")
  else if String.eqb client_status "active"
  then ("Active", if truthy tab_focused then "Focused" else "Blurred")
  else if String.eqb client_status "idle"
  then ("Idle", if truthy tab_focused then "Focused" else "Blurred")
  else ("Unknown (" +:+ PyStr.title client_status +:+ ")", "N/A").

(** The body of the loop over [all_students.items()]: the row of one
    student, given the student's entry of [latest_events_map]. *)
Definition student_row (timeout_threshold : datetime) (uid name : string)
    (latest : option event) : result row :=
  match latest with
  | None =>
      Ok {| row_id := uid; row_name := name; status := "Never Logged In";
            focus := "N/A"; last_event := VStr "None"; timestamp := "N/A" |}
  | Some ev =>
      cs ← dict_get (metadata ev) "client_status" (VStr "N/A");
      client_status ← str_lower cs;
      tab_focused ← dict_get (metadata ev) "tab_focused" (VBool false);
      let '(st, fo) :=
        determine_status client_status tab_focused
                         (server_timestamp ev) timeout_threshold in
      ist_timestamp ← datetime_add (server_timestamp ev) IST_OFFSET;
      Ok {| row_id := uid; row_name := name; status := st; focus := fo;
            last_event := event_type ev;
            timestamp := isoformat ist_timestamp |}
  end.

Section Report.

(** The [$sort] stage.  The order of documents with equal timestamps is
    the store's choice, so the stage is any function that returns its
    input rearranged, newest first. *)
Variable mongo_sort : list event -> list event.
Hypothesis mongo_sort_perm : forall l, Permutation (mongo_sort l) l.
Hypothesis mongo_sort_sorted : forall l, Sorted newest_first (mongo_sort l).

(** [events_collection.aggregate(pipeline)] *)
Definition aggregate (student_ids : list string) (events : list event)
  : list (value * event) :=
  group_first []
    (mongo_sort
       (List.filter (fun e => match_in student_ids (user_id e)) events)).

(** The [try] block of [get_student_data]. *)
Definition build_report (users : list (string * user))
    (events : list event) (now : datetime) : result (list row) :=
  let students := all_students users in
  let student_ids := map fst students in
  latest ← latest_events_map (aggregate student_ids events) ∅;
  timeout_threshold ←
    datetime_sub now (timedelta_new 0 0 0 ACTIVITY_TIMEOUT_MINUTES 0);
  for_each
    (fun '(uid, name) =>
       student_row timeout_threshold uid name (latest !! uid))
    students.

(** [get_student_data]: [users] is the user table, [events] the state of
    the collection and [now] the reading of [datetime.utcnow()]. *)
Definition get_student_data (connected : bool)
    (users : list (string * user)) (events : list event) (now : datetime)
  : response (list row) :=
  if negb connected then Failure 503 "Database connection failed."
  else
    match build_report users events now with
    | Ok status_report => Success status_report
    | Raise _ => Failure 500 "Failed to retrieve student data."
    end.

End Report.

(* ===================================================================== *)
(** ** The directory and the events the report is stated over *)
(* ===================================================================== *)

(** The entries of the user table with the role "student", in the order of
    the table. *)
Definition student_entries (users : list (string * user)) : list user :=
  List.filter (fun u => String.eqb (u_role u) "student") (map snd users).

(** A document as the handlers mean it to be: [user_id] is a string,
    [metadata] is an object whose [client_status], when present, is a
    string, and the timestamp can be shifted by the display offset. *)
Definition conforms (e : event) : Prop :=
  (exists uid, user_id e = VStr uid) /\
  (exists d, metadata e = VDict d /\
     forall v, assoc "client_status" d = Some v -> exists raw, v = VStr raw) /\
  (exists ist, datetime_add (server_timestamp e) IST_OFFSET = Ok ist).


Fixpoint string_forallb (f : ascii -> bool) (s : string) : bool :=
  match s with
  | EmptyString => true
  | String c s' => f c && string_forallb f s'
  end.

(** A text of ASCII characters. *)
Definition is_ascii (s : string) : bool :=
  string_forallb (fun c => (N_of_ascii c <? 128)%N) s.

(** The first document of a list that belongs to [uid]. *)
Definition first_of (uid : string) (docs : list event) : option event :=
  List.find (fun e => value_eqb (user_id e) (VStr uid)) docs.

(* ===================================================================== *)
(** ** A sort stage and sample data *)
(* ===================================================================== *)

(** One admissible [$sort] stage: insertion sort, newest first. *)
Fixpoint insert_newest_first (e : event) (l : list event) : list event :=
  match l with
  | [] => [e]
  | x :: l' =>
      if datetime_ltb (server_timestamp e) (server_timestamp x)
      then x :: insert_newest_first e l'
      else e :: l
  end.

Fixpoint sort_newest_first (l : list event) : list event :=
  match l with
  | [] => []
  | e :: l' => insert_newest_first e (sort_newest_first l')
  end.

(** A heartbeat document with the given status, focus flag and time. *)
Definition heartbeat (uid cs : string) (tab : bool) (ts : datetime) : event :=
  {| _id := ObjectId "65920000a1b2c3d4e5f60718";
     user_id := VStr uid;
     event_type := VStr "heartbeat";
     metadata := VDict [("client_status", VStr cs); ("tab_focused", VBool tab)];
     server_timestamp := ts |}.

(** A document whose metadata has no [client_status]. *)
Definition bare_event (uid : string) (ts : datetime) : event :=
  {| _id := ObjectId "65920000a1b2c3d4e5f60719";
     user_id := VStr uid;
     event_type := VStr "heartbeat";
     metadata := VDict [("tab_focused", VBool true)];
     server_timestamp := ts |}.

Definition noon : datetime := mk_datetime 2024 1 1 12 0 0 0.
Definition noon_threshold : datetime := mk_datetime 2024 1 1 11 55 0 0.

(** A collection with two events of one student and one of the teacher. *)
Definition sample_events : list event :=
  [ heartbeat "MCA-428" "active" true (mk_datetime 2024 1 1 11 50 0 0);
    heartbeat "MCA-428" "idle" false (mk_datetime 2024 1 1 11 58 0 0);
    heartbeat "tch-99b3" "active" true (mk_datetime 2024 1 1 11 59 0 0) ].

(** The status text "Istanbul" written with the capital dotted I of
    Turkish (code point 304) as its first letter, and a heartbeat that
    carries it. *)
Definition dotted_status : string :=
  PyStr.encode [304; 115; 116; 97; 110; 98; 117; 108]%N.

Definition dotted_event : event :=
  {| _id := ObjectId "65920000a1b2c3d4e5f6071a";
     user_id := VStr "MCA-428";
     event_type := VStr "heartbeat";
     metadata := VDict [("client_status", VStr dotted_status);
                        ("tab_focused", VBool true)];
     server_timestamp := mk_datetime 2024 1 1 11 59 30 0 |}.




(* ===================================================================== *)
(** ** The other handlers *)
(* ===================================================================== *)

(** The [data] object of a successful authentication. *)
Record identity : Type := mk_identity {
  i_id : string; i_name : string; i_role : string
}.

(** [MOCK_USERS.get(username)]: a [list] or a [dict] cannot be looked up,
    and no key of the table equals a value that is not a string. *)
Definition users_get (users : list (string * user)) (username : value)
  : result (option user) :=
  match username with
  | VStr s => Ok (assoc s users)
  | VList _ | VDict _ => Raise TypeError
  | _ => Ok None
  end.

(** [authenticate]: [data] is the decoded body of the request.  The handler
    has no [try] block, an exception leaves it. *)
Definition authenticate (connected : bool) (users : list (string * user))
    (data : value) : result (response identity) :=
  if negb connected then Ok (Failure 503 "Database connection failed.")
  else
    username ← dict_get data "username" VNone;
    password ← dict_get data "password" VNone;
    found ← users_get users username;
    match found with
    | Some u =>
        if value_eqb (VStr (u_password u)) password
        then Ok (Success {| i_id := u_id u; i_name := u_name u;
                            i_role := u_role u |})
        else Ok (Failure 401 "Invalid username or password.")
    | None => Ok (Failure 401 "Invalid username or password.")
    end.

(** The HTTP status of what a handler does: a [jsonify] body without a
    status is sent with 200, and the framework answers 500 when an
    exception leaves a handler. *)
Definition http_status {A : Type} (r : result (response A)) : Z :=
  match r with
  | Ok (Success _) => 200
  | Ok (Failure code _) => code
  | Raise _ => 500
  end.



(** The [metadata] of the document that [logout_attendance] builds. *)
Definition logout_metadata (client_now : datetime) : value :=
  VDict [ ("client_status", VStr "logged_out");
          ("tab_focused", VBool false);
          ("client_timestamp", VStr (isoformat client_now)) ].

(** [logout_attendance]: [client_now] and [server_now] are the two readings
    of the clock, for [client_timestamp] and for [server_timestamp]; [oid]
    and [acknowledged] are as in [track_attendance].  The document is built
    by the handler, its only value from the body is [user_id]. *)
Definition logout_attendance (connected : bool) (data : value)
    (client_now server_now : datetime) (oid : string) (acknowledged : bool)
    (events : list event)
  : response string * list event :=
  let failed :=
    (Failure 500 "Internal server error during logout event storage.",
     events) in
  if negb connected then (Failure 503 "Database connection failed.", events)
  else
    match dict_get data "user_id" VNone with
    | Raise _ => failed
    | Ok uid =>
        if negb (truthy uid)
        then (Failure 400 "Missing user_id for logout event.", events)
        else
          match
            insert_one acknowledged
              [ ("user_id", uid); ("event_type", VStr "logout");
                ("metadata", logout_metadata client_now) ]
              {| _id := ObjectId oid;
                 user_id := uid;
                 event_type := VStr "logout";
                 metadata := logout_metadata client_now;
                 server_timestamp := bson_datetime server_now |}
              events
          with
          | Some stored => (Success "Logout event recorded.", stored)
          | None => failed
          end
    end.

(** [str(n)] for a count. *)
Definition str_of_count (n : nat) : string :=
  NilZero.string_of_uint (Nat.to_uint n).

(** [clear_all_events]: [delete_many({})] removes every document and
    reports how many there were. *)
Definition clear_all_events (connected : bool) (events : list event)
  : response string * list event :=
  if negb connected then (Failure 503 "Database connection failed.", events)
  else
    (Success ("Cleared " +:+ str_of_count (length events)
              +:+ " attendance records."),
     []).

(** A document whose metadata is a string, one whose [user_id] is an
    array, and a user table with two student entries under one id. *)
Definition unreadable_event : event :=
  {| _id := ObjectId "65920000a1b2c3d4e5f6071e";
     user_id := VStr "MCA-428";
     event_type := VStr "heartbeat";
     metadata := VStr "active";
     server_timestamp := mk_datetime 2024 1 1 11 59 30 0 |}.

Definition array_event : event :=
  {| _id := ObjectId "65920000a1b2c3d4e5f6071f";
     user_id := VList [VStr "nobody"; VStr "MCA-112"];
     event_type := VStr "heartbeat";
     metadata := VDict [("client_status", VStr "active")];
     server_timestamp := mk_datetime 2024 1 1 11 40 0 0 |}.

Definition twin_users : list (string * user) :=
  [ ("ann", mk_user "S-1" "Ann" "student" "a");
    ("tutor", mk_user "T-1" "Tutor" "teacher" "t");
    ("bob", mk_user "S-1" "Bob" "student" "b") ].

(* ===================================================================== *)
(** ** The calendar *)
(* ===================================================================== *)

Ltac div_lia := Z.to_euclidean_division_equations; lia.

Lemma year_decomposition n0 :
  0 <= n0 ->
  let a := n0 / 146097 in let r := n0 mod 146097 in
  let b := r / 36524 in let r := r mod 36524 in
  let c := r / 1461 in let r := r mod 1461 in
  let e := r / 365 in let k := r mod 365 in
  n0 = 146097 * a + 36524 * b + 1461 * c + 365 * e + k /\
  0 <= a /\ 0 <= b <= 4 /\ 0 <= c <= 24 /\ 0 <= e <= 4 /\ 0 <= k < 365 /\
  (b = 4 -> c = 0 /\ e = 0 /\ k = 0) /\ (e = 4 -> k = 0) /\
  (c = 24 -> e = 4 -> b = 3).
Proof. intros Hn. cbv zeta. div_lia. Qed.

Lemma days_before_year_cycles a b c e :
  0 <= a -> 0 <= b <= 3 -> 0 <= c <= 24 -> 0 <= e <= 3 ->
  days_before_year (400 * a + 100 * b + 4 * c + e + 1) =
    146097 * a + 36524 * b + 1461 * c + 365 * e.
Proof. intros. unfold days_before_year. cbv zeta. div_lia. Qed.

Lemma is_leap_cycles a b c e :
  0 <= a -> 0 <= b <= 3 -> 0 <= c <= 24 -> 0 <= e <= 3 ->
  is_leap (400 * a + 100 * b + 4 * c + e + 1) =
    (e =? 3) && (negb (c =? 24) || (b =? 3)).
Proof.
  intros. unfold is_leap.
  repeat match goal with
         | |- context [?x =? ?y] => destruct (Z.eqb_spec x y)
         end; cbn [andb orb negb]; try reflexivity; exfalso; div_lia.
Qed.

Lemma month_day_ok_all (leap : bool) :
  forallb (fun i => month_day_ok leap (Z.of_nat i))
          (seq 0 (if leap then 366 else 365)) = true.
Proof. destruct leap; vm_compute; reflexivity. Qed.

Lemma month_day_spec (leap : bool) (k : Z) :
  0 <= k < 365 + int_of_bool leap ->
  let '(m, d) := month_day leap k in
  1 <= m <= 12 /\
  1 <= d <= (if (m =? 2) && leap then 29 else index DAYS_IN_MONTH m) /\
  index DAYS_BEFORE_MONTH m + int_of_bool ((2 <? m) && leap) + d = k + 1.
Proof.
  intros Hk.
  pose proof (month_day_ok_all leap) as Hall.
  rewrite forallb_forall in Hall.
  specialize (Hall (Z.to_nat k)).
  rewrite Z2Nat.id in Hall by lia.
  assert (Hin : In (Z.to_nat k) (seq 0 (if leap then 366 else 365))).
  { apply in_seq. destruct leap; cbn [int_of_bool] in Hk; lia. }
  specialize (Hall Hin). unfold month_day_ok in Hall.
  destruct (month_day leap k) as [m d].
  repeat match goal with
         | H : _ && _ = true |- _ => apply andb_true_iff in H as [? ?]
         end.
  repeat match goal with
         | H : (_ <=? _) = true |- _ => apply Z.leb_le in H
         | H : (_ =? _) = true |- _ => apply Z.eqb_eq in H
         end.
  repeat split; assumption.
Qed.

Lemma ord2ymd_month_day n :
  ord2ymd n =
    (let n0 := n - 1 in
     let a := n0 / 146097 in let r := n0 mod 146097 in
     let b := r / 36524 in let r := r mod 36524 in
     let c := r / 1461 in let r := r mod 1461 in
     let e := r / 365 in let k := r mod 365 in
     let y := a * 400 + 1 + (b * 100 + c * 4 + e) in
     if (e =? 4) || (b =? 4) then (y - 1, 12, 31)
     else
       let '(m, d) :=
         month_day ((e =? 3) && (negb (c =? 24) || (b =? 3))) k in
       (y, m, d)).
Proof.
  unfold ord2ymd, month_day.
  change DI400Y with 146097. change DI100Y with 36524. change DI4Y with 1461.
  cbv zeta.
  destruct ((_ =? 4) || (_ =? 4)); [reflexivity|].
  match goal with |- context [if ?c then _ else _] => destruct c end;
    reflexivity.
Qed.

(** [ord2ymd] inverts [ymd2ord] on the ordinals of the years 1 to 9999,
    and gives a date of the calendar. *)
Lemma ord2ymd_spec n :
  1 <= n <= MAXORDINAL ->
  let '(y, m, d) := ord2ymd n in
  1 <= y <= 9999 /\ 1 <= m <= 12 /\ 1 <= d <= days_in_month y m /\
  ymd2ord y m d = n.
Proof.
  unfold MAXORDINAL. intros Hn. rewrite ord2ymd_month_day. cbv zeta.
  pose proof (year_decomposition (n - 1) ltac:(lia)) as H. cbv zeta in H.
  set (a := (n - 1) / 146097) in *.
  set (r400 := (n - 1) mod 146097) in *.
  set (b := r400 / 36524) in *. set (r100 := r400 mod 36524) in *.
  set (c := r100 / 1461) in *. set (r4 := r100 mod 1461) in *.
  set (e := r4 / 365) in *. set (k := r4 mod 365) in *.
  clearbody a b c e k. clear r400 r100 r4.
  destruct H as (Hn0 & Ha & Hb & Hc & He & Hk & Hb4 & He4 & Hc24).
  destruct ((e =? 4) || (b =? 4)) eqn:Hspecial.
  - (* the last day of a leap year *)
    assert (exists b' c',
               0 <= b' <= 3 /\ 0 <= c' <= 24 /\
               a * 400 + 1 + (b * 100 + c * 4 + e) - 1 =
                 400 * a + 100 * b' + 4 * c' + 3 + 1 /\
               n - 1 = 146097 * a + 36524 * b' + 1461 * c' + 365 * 3 + 365 /\
               (c' = 24 -> b' = 3)) as (b' & c' & Hb' & Hc' & Hy & Hn' & Hl).
    { apply orb_true_iff in Hspecial as [H4|H4]; apply Z.eqb_eq in H4.
      - exists b, c. repeat split; try lia.
      - exists 3, 24. destruct (Hb4 H4) as (-> & -> & ->).
        repeat split; try lia. }
    rewrite Hy. unfold days_in_month, ymd2ord, days_before_month.
    rewrite days_before_year_cycles, is_leap_cycles by lia.
    assert (Hleap : (3 =? 3) && (negb (c' =? 24) || (b' =? 3)) = true).
    { destruct (Z.eqb_spec c' 24) as [H24|]; [|reflexivity].
      rewrite (Hl H24). reflexivity. }
    rewrite Hleap.
    change (index DAYS_IN_MONTH 12) with 31.
    change (index DAYS_BEFORE_MONTH 12) with 334.
    change (int_of_bool ((2 <? 12) && true)) with 1.
    change ((12 =? 2) && true) with false. cbv iota.
    lia.
  - apply orb_false_iff in Hspecial as [He' Hb'].
    apply Z.eqb_neq in He', Hb'.
    replace (a * 400 + 1 + (b * 100 + c * 4 + e))
      with (400 * a + 100 * b + 4 * c + e + 1) by lia.
    rewrite <- (is_leap_cycles a b c e) by lia.
    set (y := 400 * a + 100 * b + 4 * c + e + 1).
    pose proof (month_day_spec (is_leap y) k) as Hmd.
    destruct (month_day (is_leap y) k) as [m d].
    destruct Hmd as (Hm & Hd & Hsum);
      [destruct (is_leap y); cbn [int_of_bool]; lia|].
    unfold days_in_month, ymd2ord, days_before_month.
    subst y. rewrite days_before_year_cycles by lia.
    repeat split; try lia.
Qed.

(** A new duration is in normal form and lasts what its arguments say. *)
Lemma timedelta_new_spec d s us mins hrs :
  let t := timedelta_new d s us mins hrs in
  timedelta_micros t =
    (((d * 24 + hrs) * 60 + mins) * 60 + s) * 1000000 + us /\
  0 <= seconds t < 86400 /\ 0 <= microseconds t < 1000000.
Proof.
  unfold timedelta_new, timedelta_micros. cbv zeta. cbn [days seconds microseconds].
  generalize ((((d * 24 + hrs) * 60 + mins) * 60 + s) * 1000000 + us).
  intros total. div_lia.
Qed.

Lemma timedelta_add_micros a b :
  timedelta_micros (timedelta_add a b) = timedelta_micros a + timedelta_micros b.
Proof.
  unfold timedelta_add.
  destruct (timedelta_new_spec (days a + days b) (seconds a + seconds b)
              (microseconds a + microseconds b) 0 0) as [-> _].
  unfold timedelta_micros. lia.
Qed.

Lemma timedelta_neg_micros a :
  timedelta_micros (timedelta_neg a) = - timedelta_micros a.
Proof.
  unfold timedelta_neg.
  destruct (timedelta_new_spec (- days a) (- seconds a) (- microseconds a) 0 0)
    as [-> _].
  unfold timedelta_micros. lia.
Qed.

(** [self + other] is a datetime of the calendar, later than [self] by the
    length of [other]. *)
Lemma datetime_add_spec self other r :
  datetime_add self other = Ok r ->
  valid r /\ total_micros r = total_micros self + timedelta_micros other.
Proof.
  unfold datetime_add.
  set (delta := timedelta_add _ other).
  assert (Hmicros : timedelta_micros delta =
                    total_micros self + timedelta_micros other).
  { unfold delta. rewrite timedelta_add_micros.
    destruct (timedelta_new_spec (toordinal self) (second self)
                (microsecond self) (minute self) (hour self)) as [-> _].
    reflexivity. }
  assert (Hnorm : 0 <= seconds delta < 86400 /\
                  0 <= microseconds delta < 1000000).
  { unfold delta, timedelta_add. apply timedelta_new_spec. }
  clearbody delta. cbv zeta.
  destruct ((0 <? days delta) && (days delta <=? MAXORDINAL)) eqn:Hrange;
    [|discriminate].
  apply andb_true_iff in Hrange as [Hlo Hhi].
  apply Z.ltb_lt in Hlo. apply Z.leb_le in Hhi.
  pose proof (ord2ymd_spec (days delta) ltac:(lia)) as Hymd.
  destruct (ord2ymd (days delta)) as [[y m] d].
  destruct Hymd as (Hy & Hm & Hd & Hord).
  intros [= <-].
  destruct Hnorm as [Hs Hus]. split.
  - unfold valid. cbn [year month day hour minute second microsecond].
    repeat split; try lia; div_lia.
  - rewrite <- Hmicros. unfold total_micros, toordinal, timedelta_micros.
    cbn [year month day hour minute second microsecond].
    rewrite Hord. div_lia.
Qed.

Lemma datetime_sub_spec self other r :
  datetime_sub self other = Ok r ->
  valid r /\ total_micros r = total_micros self - timedelta_micros other.
Proof.
  unfold datetime_sub. intros H. apply datetime_add_spec in H as [Hv ->].
  rewrite timedelta_neg_micros. split; [assumption|lia].
Qed.

(** Evaluates the closed table look-ups and tests of the goal and of the
    hypotheses. *)
Ltac eval_closed :=
  repeat match goal with
         | |- context [index ?t ?i] =>
             let v := eval vm_compute in (index t i) in
             change (index t i) with v
         | H : context [index ?t ?i] |- _ =>
             let v := eval vm_compute in (index t i) in
             change (index t i) with v in H
         | |- context [int_of_bool ?c] =>
             let v := eval vm_compute in (int_of_bool c) in
             change (int_of_bool c) with v
         | H : context [int_of_bool ?c] |- _ =>
             let v := eval vm_compute in (int_of_bool c) in
             change (int_of_bool c) with v in H
         | H : context [if ?c then ?x else ?y] |- _ =>
             let v := eval vm_compute in (if c then x else y) in
             change (if c then x else y) with v in H
         end.

Lemma month_cases m :
  1 <= m <= 12 ->
  m = 1 \/ m = 2 \/ m = 3 \/ m = 4 \/ m = 5 \/ m = 6 \/
  m = 7 \/ m = 8 \/ m = 9 \/ m = 10 \/ m = 11 \/ m = 12.
Proof. lia. Qed.

Lemma days_before_year_succ y :
  days_before_year (y + 1) = days_before_year y + 365 + int_of_bool (is_leap y).
Proof.
  unfold days_before_year, is_leap. cbv zeta.
  repeat match goal with
         | |- context [?x =? ?y] => destruct (Z.eqb_spec x y)
         end; cbn [andb orb negb int_of_bool]; div_lia.
Qed.

Lemma days_before_year_mono y1 y2 :
  y1 <= y2 -> days_before_year y1 <= days_before_year y2.
Proof. unfold days_before_year. cbv zeta. intros. div_lia. Qed.

(** The day of the year of a date of the calendar. *)
Lemma day_of_year_bounds y m d :
  1 <= m <= 12 -> 1 <= d <= days_in_month y m ->
  1 <= days_before_month y m + d <= 365 + int_of_bool (is_leap y).
Proof.
  intros Hm Hd. unfold days_in_month in Hd. unfold days_before_month.
  destruct (is_leap y);
    destruct (month_cases m Hm) as
      [-> | [-> | [-> | [-> | [-> | [-> | [-> | [-> | [-> | [-> | [-> | ->]]]]]]]]]]];
    eval_closed; lia.
Qed.

Lemma day_of_year_mono y m1 d1 m2 d2 :
  1 <= m1 <= 12 -> 1 <= d1 <= days_in_month y m1 ->
  1 <= m2 <= 12 -> 1 <= d2 <= days_in_month y m2 ->
  m1 < m2 ->
  days_before_month y m1 + d1 < days_before_month y m2 + d2.
Proof.
  intros Hm1 Hd1 Hm2 Hd2 Hlt.
  unfold days_in_month in Hd1, Hd2. unfold days_before_month.
  destruct (is_leap y);
    destruct (month_cases m1 Hm1) as
      [-> | [-> | [-> | [-> | [-> | [-> | [-> | [-> | [-> | [-> | [-> | ->]]]]]]]]]]];
    destruct (month_cases m2 Hm2) as
      [-> | [-> | [-> | [-> | [-> | [-> | [-> | [-> | [-> | [-> | [-> | ->]]]]]]]]]]];
    try lia; eval_closed; lia.
Qed.

(** Ordinals grow with the date. *)
Lemma ymd2ord_mono y1 m1 d1 y2 m2 d2 :
  1 <= m1 <= 12 -> 1 <= d1 <= days_in_month y1 m1 ->
  1 <= m2 <= 12 -> 1 <= d2 <= days_in_month y2 m2 ->
  y1 < y2 \/ (y1 = y2 /\ (m1 < m2 \/ (m1 = m2 /\ d1 < d2))) ->
  ymd2ord y1 m1 d1 < ymd2ord y2 m2 d2.
Proof.
  intros Hm1 Hd1 Hm2 Hd2 Hlt. unfold ymd2ord.
  destruct Hlt as [Hy | [<- [Hm | [<- Hd]]]].
  - pose proof (day_of_year_bounds y1 m1 d1 Hm1 Hd1).
    pose proof (day_of_year_bounds y2 m2 d2 Hm2 Hd2).
    pose proof (days_before_year_succ y1).
    pose proof (days_before_year_mono (y1 + 1) y2 ltac:(lia)).
    lia.
  - pose proof (day_of_year_mono y1 m1 d1 m2 d2 Hm1 Hd1 Hm2 Hd2 Hm). lia.
  - lia.
Qed.

Lemma lex_ltb_cons x a y b :
  lex_ltb (x :: a) (y :: b) = true <-> x < y \/ (x = y /\ lex_ltb a b = true).
Proof.
  cbn [lex_ltb]. rewrite orb_true_iff, andb_true_iff, Z.ltb_lt, Z.eqb_eq.
  reflexivity.
Qed.

(** On datetimes of the calendar, [<] is the order of time. *)
Lemma datetime_ltb_earlier a b :
  valid a -> valid b ->
  datetime_ltb a b = true -> total_micros a < total_micros b.
Proof.
  intros (Hya & Hma & Hda & Hha & Hmia & Hsa & Husa)
         (Hyb & Hmb & Hdb & Hhb & Hmib & Hsb & Husb).
  unfold datetime_ltb, fields, total_micros, toordinal.
  rewrite !lex_ltb_cons. cbn [lex_ltb].
  intros Hlt.
  assert (Hdate :
            ymd2ord (year a) (month a) (day a) < ymd2ord (year b) (month b) (day b)
            \/ (ymd2ord (year a) (month a) (day a) =
                ymd2ord (year b) (month b) (day b) /\
                (hour a < hour b \/
                 (hour a = hour b /\
                  (minute a < minute b \/
                   (minute a = minute b /\
                    (second a < second b \/
                     (second a = second b /\ microsecond a < microsecond b)))))))).
  { destruct Hlt as [Hy | [Hy [Hm | [Hm [Hd | [Hd Hrest]]]]]].
    - left. apply ymd2ord_mono; auto.
    - left. apply ymd2ord_mono; auto.
    - left. apply ymd2ord_mono; auto.
    - right. rewrite Hy, Hm, Hd. split; [reflexivity|].
      destruct Hrest as [H | [H [H' | [H' [H'' | [H'' [H3 | [_ H3]]]]]]]];
        try discriminate; lia. }
  generalize dependent (ymd2ord (year a) (month a) (day a)).
  generalize dependent (ymd2ord (year b) (month b) (day b)).
  intros ob oa Hdate. lia.
Qed.

Lemma lex_ltb_total a : forall b,
  length a = length b ->
  lex_ltb a b = false -> a = b \/ lex_ltb b a = true.
Proof.
  induction a as [|x a IH]; intros [|y b]; cbn [length lex_ltb];
    try discriminate; [now left|].
  intros [= Hlen] H. apply orb_false_iff in H as [Hxy H].
  apply Z.ltb_ge in Hxy.
  destruct (Z.eqb_spec x y) as [->|Hne].
  - cbn [andb] in H. destruct (IH b Hlen H) as [-> | Hba]; [now left|].
    right. now rewrite Z.eqb_refl, Hba, orb_true_r.
  - right. apply orb_true_iff. left. apply Z.ltb_lt. lia.
Qed.

Lemma datetime_ltb_iff a b :
  valid a -> valid b ->
  datetime_ltb a b = true <-> total_micros a < total_micros b.
Proof.
  intros Ha Hb. split; [now apply datetime_ltb_earlier|].
  intros Hlt. destruct (datetime_ltb a b) eqn:Hab; [reflexivity|].
  exfalso. unfold datetime_ltb in Hab.
  apply lex_ltb_total in Hab as [Heq | Hba]; [| |reflexivity].
  - assert (a = b) as ->
        by (destruct a, b; unfold fields in Heq; cbn in Heq; congruence).
    lia.
  - pose proof (datetime_ltb_earlier b a Hb Ha Hba). lia.
Qed.

(* ===================================================================== *)
(** ** Strings: case mappings *)
(* ===================================================================== *)

(** On the ASCII code points the case mappings are those of the letters:
    the lowercase form is one ASCII code point, which lowercasing leaves
    alone and which has the title case and the casedness of the original. *)
Lemma lower_ascii_point p :
  (p <? 128)%N = true ->
  exists q,
    (q <? 128)%N = true /\
    (forall before after, PyStr.lower_ucs4 before p after = [q]) /\
    (forall before after, PyStr.lower_ucs4 before q after = [q]) /\
    PyStr.to_title q = PyStr.to_title p /\
    PyStr.is_cased q = PyStr.is_cased p.
Proof.
  intros Hp.
  assert (Hc : p = N_of_ascii (ascii_of_N p)).
  { symmetry. apply N_ascii_embedding. apply N.ltb_lt in Hp. lia. }
  revert Hp. rewrite Hc. clear Hc.
  destruct (ascii_of_N p) as [[] [] [] [] [] [] [] []]; intros Hp;
    try discriminate Hp;
    (eexists; split; [|split; [intros; vm_compute; reflexivity|]];
     [reflexivity|split; [intros; reflexivity|split; reflexivity]]).
Qed.

Lemma decode_ascii_cons c s :
  (N_of_ascii c <? 128)%N = true ->
  PyStr.decode (String c s) = N_of_ascii c :: PyStr.decode s.
Proof.
  destruct c as [[] [] [] [] [] [] [] []]; intros Hc;
    try discriminate Hc; reflexivity.
Qed.

Lemma encode_ascii_cons p l :
  (p <? 128)%N = true ->
  PyStr.encode (p :: l) = String (ascii_of_N p) (PyStr.encode l).
Proof.
  intros Hp. cbn [PyStr.encode]. unfold PyStr.encode_point. rewrite Hp.
  reflexivity.
Qed.

(** An ASCII text is the text of its code points, all below 128. *)
Lemma decode_ascii s :
  is_ascii s = true -> forallb (fun p => (p <? 128)%N) (PyStr.decode s) = true.
Proof.
  induction s as [|c s IH]; [reflexivity|].
  unfold is_ascii. cbn [string_forallb]. intros H.
  apply andb_prop in H as [Hc Hs].
  rewrite decode_ascii_cons by exact Hc. cbn [forallb].
  rewrite Hc. exact (IH Hs).
Qed.

Lemma decode_encode_ascii l :
  forallb (fun p => (p <? 128)%N) l = true ->
  PyStr.decode (PyStr.encode l) = l.
Proof.
  induction l as [|p l IH]; [reflexivity|].
  cbn [forallb]. intros H. apply andb_prop in H as [Hp Hl].
  rewrite encode_ascii_cons by exact Hp.
  assert (Hb : N_of_ascii (ascii_of_N p) = p).
  { apply N_ascii_embedding. apply N.ltb_lt in Hp. lia. }
  rewrite decode_ascii_cons by (rewrite Hb; exact Hp).
  now rewrite Hb, IH.
Qed.

Lemma do_lower_ascii l : forall before,
  forallb (fun p => (p <? 128)%N) l = true ->
  forallb (fun p => (p <? 128)%N) (PyStr.do_lower before l) = true.
Proof.
  induction l as [|p l IH]; intros before; [reflexivity|].
  cbn [forallb PyStr.do_lower]. intros H. apply andb_prop in H as [Hp Hl].
  destruct (lower_ascii_point p Hp) as (q & Hq & Hlow & _).
  rewrite Hlow. cbn [app forallb]. rewrite Hq. now apply IH.
Qed.

(** Title-casing does not see the case of an ASCII text. *)
Lemma do_title_do_lower l : forall b before1 before2 before3,
  forallb (fun p => (p <? 128)%N) l = true ->
  PyStr.do_title b before1 (PyStr.do_lower before2 l) =
  PyStr.do_title b before3 l.
Proof.
  induction l as [|p l IH]; intros b before1 before2 before3; [reflexivity|].
  cbn [forallb]. intros H. apply andb_prop in H as [Hp Hl].
  destruct (lower_ascii_point p Hp) as (q & Hq & Hlow & Hidem & Htitle & Hcased).
  cbn [PyStr.do_lower]. rewrite Hlow. cbn [app PyStr.do_title].
  rewrite Hidem, Htitle, Hcased, Hlow.
  now rewrite (IH _ (q :: before1) (p :: before2) (p :: before3)).
Qed.

Lemma title_lower_ascii s :
  is_ascii s = true -> PyStr.title (PyStr.lower s) = PyStr.title s.
Proof.
  intros Hs. apply decode_ascii in Hs. unfold PyStr.title, PyStr.lower.
  rewrite decode_encode_ascii by now apply do_lower_ascii.
  now rewrite (do_title_do_lower _ false [] [] []).
Qed.

(* ===================================================================== *)
(** ** The row of one student *)
(* ===================================================================== *)

(** One step of the error monad: a bind whose first computation is known. *)
Ltac run_bind := unfold mbind, result_bind; cbv beta iota.

Lemma eqb_neq_false (a b : string) : a <> b -> String.eqb a b = false.
Proof. intros H. now apply String.eqb_neq. Qed.

(** The row of a student whose latest event has a [dict] as metadata and a
    string (or nothing) as [client_status]. *)
Lemma student_row_dict th uid name ev d :
  metadata ev = VDict d ->
  forall raw,
    match assoc "client_status" d with Some v => v | None => VStr "N/A" end
      = VStr raw ->
    student_row th uid name (Some ev) =
      (let '(st, fo) :=
         determine_status (PyStr.lower raw)
           (match assoc "tab_focused" d with Some v => v | None => VBool false end)
           (server_timestamp ev) th in
       ist ← datetime_add (server_timestamp ev) IST_OFFSET;
       Ok {| row_id := uid; row_name := name; status := st; focus := fo;
             last_event := event_type ev; timestamp := isoformat ist |}).
Proof.
  intros Hm raw Hcs. unfold student_row, dict_get. rewrite Hm.
  run_bind. rewrite Hcs. unfold str_lower. run_bind. reflexivity.
Qed.

(** C3.  A student without any stored event gets the row "Never Logged In"
    with focus "N/A", last event "None" and timestamp "N/A".  The threshold
    is the only place the clock enters the loop, and the row is the same
    for every threshold, hence for every reading of the clock. *)
Theorem no_event_never_logged_in :
  forall (timeout_threshold : datetime) (uid name : string),
    student_row timeout_threshold uid name None =
      Ok {| row_id := uid; row_name := name; status := "Never Logged In";
            focus := "N/A"; last_event := VStr "None"; timestamp := "N/A" |}.
Proof. reflexivity. Qed.

(** C1.  When the latest event's [client_status], lowercased, is
    "logged_out", the row has status "Logged Out" and focus "N/A" for every
    threshold, however old the event is: the logout test comes before the
    staleness test. *)
Theorem logout_wins_over_staleness :
  forall (timeout_threshold : datetime) (uid name : string) (ev : event)
         (raw : string) (ist : datetime),
    dict_get (metadata ev) "client_status" (VStr "N/A") = Ok (VStr raw) ->
    PyStr.lower raw = "logged_out" ->
    datetime_add (server_timestamp ev) IST_OFFSET = Ok ist ->
    student_row timeout_threshold uid name (Some ev) =
      Ok {| row_id := uid; row_name := name; status := "Logged Out";
            focus := "N/A"; last_event := event_type ev;
            timestamp := isoformat ist |}.
Proof.
  intros th uid name ev raw ist Hget Hlow Hadd.
  unfold dict_get in Hget. destruct (metadata ev) as [| | | | |d] eqn:Hm;
    try discriminate.
  injection Hget as Hget.
  rewrite (student_row_dict th uid name ev d Hm raw Hget).
  unfold determine_status. rewrite Hlow.
  change (String.eqb "logged_out" "logged_out") with true. cbv beta iota.
  rewrite Hadd. reflexivity.
Qed.

Lemma logout_wins_over_staleness_witness :
  student_row noon_threshold "MCA-428" "Leni E"
    (Some (heartbeat "MCA-428" "Logged_OUT" true (mk_datetime 1999 12 31 23 0 0 0)))
  = Ok {| row_id := "MCA-428"; row_name := "Leni E"; status := "Logged Out";
          focus := "N/A"; last_event := VStr "heartbeat";
          timestamp := "2000-01-01T04:30:00" |}.
Proof.
  apply (logout_wins_over_staleness noon_threshold "MCA-428" "Leni E"
           (heartbeat "MCA-428" "Logged_OUT" true (mk_datetime 1999 12 31 23 0 0 0))
           "Logged_OUT" (mk_datetime 2000 1 1 4 30 0 0));
    vm_compute; reflexivity.
Defined.

(** The chain of tests, one lemma per way through it. *)
Lemma determine_status_stale cs tab ts th :
  cs <> "logged_out" -> datetime_ltb ts th = true ->
  determine_status cs tab ts th = ("Offline (Inactive)", "N/A").
Proof.
  intros Hcs Hlt. unfold determine_status.
  rewrite (eqb_neq_false _ _ Hcs), Hlt. reflexivity.
Qed.

Lemma determine_status_active tab ts th :
  datetime_ltb ts th = false ->
  determine_status "active" tab ts th =
    ("Active", if truthy tab then "Focused" else "Blurred").
Proof. intros Hlt. unfold determine_status. rewrite Hlt. reflexivity. Qed.

Lemma determine_status_idle tab ts th :
  datetime_ltb ts th = false ->
  determine_status "idle" tab ts th =
    ("Idle", if truthy tab then "Focused" else "Blurred").
Proof. intros Hlt. unfold determine_status. rewrite Hlt. reflexivity. Qed.

Lemma determine_status_unknown cs tab ts th :
  cs <> "logged_out" -> cs <> "active" -> cs <> "idle" ->
  datetime_ltb ts th = false ->
  determine_status cs tab ts th =
    ("Unknown (" +:+ PyStr.title cs +:+ ")", "N/A").
Proof.
  intros H1 H2 H3 Hlt. unfold determine_status.
  rewrite (eqb_neq_false _ _ H1), (eqb_neq_false _ _ H2),
    (eqb_neq_false _ _ H3), Hlt. reflexivity.
Qed.

(** A successful [get] shows that the metadata is a [dict]. *)
Lemma dict_get_Ok v key default x :
  dict_get v key default = Ok x ->
  exists d, v = VDict d /\
    match assoc key d with Some y => y | None => default end = x.
Proof.
  unfold dict_get. destruct v; try discriminate.
  intros [= <-]. eauto.
Qed.

(** The staleness test in terms of time: an event is stale when its
    timestamp lies more than [ACTIVITY_TIMEOUT_MINUTES] minutes before the
    clock reading. *)
Lemma stale_iff_elapsed now th ts :
  valid ts ->
  datetime_sub now (timedelta_new 0 0 0 ACTIVITY_TIMEOUT_MINUTES 0) = Ok th ->
  datetime_ltb ts th = true <->
  total_micros ts < total_micros now - ACTIVITY_TIMEOUT_MINUTES * 60 * 1000000.
Proof.
  intros Hts Hth. apply datetime_sub_spec in Hth as [Hv Hmicros].
  rewrite (datetime_ltb_iff ts th Hts Hv), Hmicros.
  change (timedelta_micros (timedelta_new 0 0 0 ACTIVITY_TIMEOUT_MINUTES 0))
    with (ACTIVITY_TIMEOUT_MINUTES * 60 * 1000000).
  reflexivity.
Qed.

(** C2.  When the latest event's [client_status], lowercased, is not
    "logged_out" and its [server_timestamp] lies more than
    [ACTIVITY_TIMEOUT_MINUTES] minutes before the clock reading, the row
    has status "Offline (Inactive)" and focus "N/A", whatever the
    [client_status]. *)
Theorem stale_event_is_offline :
  forall (now timeout_threshold : datetime) (uid name : string) (ev : event)
         (raw : string) (ist : datetime),
    valid (server_timestamp ev) ->
    datetime_sub now (timedelta_new 0 0 0 ACTIVITY_TIMEOUT_MINUTES 0)
      = Ok timeout_threshold ->
    dict_get (metadata ev) "client_status" (VStr "N/A") = Ok (VStr raw) ->
    PyStr.lower raw <> "logged_out" ->
    total_micros (server_timestamp ev)
      < total_micros now - ACTIVITY_TIMEOUT_MINUTES * 60 * 1000000 ->
    datetime_add (server_timestamp ev) IST_OFFSET = Ok ist ->
    student_row timeout_threshold uid name (Some ev) =
      Ok {| row_id := uid; row_name := name; status := "Offline (Inactive)";
            focus := "N/A"; last_event := event_type ev;
            timestamp := isoformat ist |}.
Proof.
  intros now th uid name ev raw ist Hvalid Hth Hget Hlow Hstale Hadd.
  apply (stale_iff_elapsed now th _ Hvalid Hth) in Hstale.
  destruct (dict_get_Ok _ _ _ _ Hget) as (d & Hm & Hd).
  rewrite (student_row_dict th uid name ev d Hm raw Hd).
  rewrite (determine_status_stale _ _ _ _ Hlow Hstale).
  rewrite Hadd. reflexivity.
Qed.

Lemma stale_event_is_offline_witness :
  student_row noon_threshold "MCA-428" "Leni E"
    (Some (heartbeat "MCA-428" "active" true (mk_datetime 2024 1 1 11 54 0 0)))
  = Ok {| row_id := "MCA-428"; row_name := "Leni E";
          status := "Offline (Inactive)"; focus := "N/A";
          last_event := VStr "heartbeat"; timestamp := "2024-01-01T17:24:00" |}.
Proof.
  apply (stale_event_is_offline noon noon_threshold "MCA-428" "Leni E"
           (heartbeat "MCA-428" "active" true (mk_datetime 2024 1 1 11 54 0 0))
           "active" (mk_datetime 2024 1 1 17 24 0 0)).
  - repeat split; vm_compute; (reflexivity || discriminate).
  - vm_compute; reflexivity.
  - vm_compute; reflexivity.
  - vm_compute; discriminate.
  - vm_compute; reflexivity.
  - vm_compute; reflexivity.
Defined.

(** C7.  When the latest event is not stale and its [client_status],
    lowercased, is "active" (or "idle"), the row has status "Active" (or
    "Idle"), and its focus is "Focused" when [tab_focused] holds and
    "Blurred" otherwise; a missing [tab_focused] counts as [False]. *)
Theorem fresh_active_or_idle :
  forall (timeout_threshold : datetime) (uid name : string) (ev : event)
         (d : list (string * value)) (raw st : string) (ist : datetime),
    metadata ev = VDict d ->
    match assoc "client_status" d with Some v => v | None => VStr "N/A" end
      = VStr raw ->
    (PyStr.lower raw = "active" /\ st = "Active") \/
    (PyStr.lower raw = "idle" /\ st = "Idle") ->
    datetime_ltb (server_timestamp ev) timeout_threshold = false ->
    datetime_add (server_timestamp ev) IST_OFFSET = Ok ist ->
    exists r : row,
      student_row timeout_threshold uid name (Some ev) = Ok r /\
      status r = st /\
      focus r =
        (if truthy (match assoc "tab_focused" d with
                    | Some v => v
                    | None => VBool false
                    end)
         then "Focused" else "Blurred") /\
      (assoc "tab_focused" d = Some (VBool true) -> focus r = "Focused") /\
      (assoc "tab_focused" d = Some (VBool false) \/
       assoc "tab_focused" d = None -> focus r = "Blurred").
Proof.
  intros th uid name ev d raw st ist Hm Hd Hcs Hlt Hadd.
  rewrite (student_row_dict th uid name ev d Hm raw Hd).
  destruct Hcs as [[-> ->] | [-> ->]];
    [rewrite (determine_status_active _ _ _ Hlt)
    | rewrite (determine_status_idle _ _ _ Hlt)];
    rewrite Hadd; run_bind;
    (eexists; split; [reflexivity|]);
    cbn [status focus]; (repeat split; try reflexivity);
    try (intros ->; reflexivity);
    intros [-> | ->]; reflexivity.
Qed.

Lemma fresh_active_or_idle_witness :
  exists r : row,
    student_row noon_threshold "MCA-112" "Soni Priya"
      (Some (heartbeat "MCA-112" "Idle" false (mk_datetime 2024 1 1 11 58 0 0)))
      = Ok r /\
    status r = "Idle" /\ focus r = "Blurred".
Proof.
  destruct (fresh_active_or_idle noon_threshold "MCA-112" "Soni Priya"
              (heartbeat "MCA-112" "Idle" false (mk_datetime 2024 1 1 11 58 0 0))
              [("client_status", VStr "Idle"); ("tab_focused", VBool false)]
              "Idle" "Idle" (mk_datetime 2024 1 1 17 28 0 0)
              eq_refl eq_refl (or_intror (conj eq_refl eq_refl))
              eq_refl eq_refl)
    as (r & Hr & Hst & _ & _ & Hfo).
  exists r. split; [exact Hr|]. split; [exact Hst|].
  apply Hfo. left. reflexivity.
Defined.

(** C8, amended.  When the latest event is not stale and its
    [client_status], lowercased, is none of "logged_out", "active" and
    "idle", the row has status "Unknown (...)" with the lowercased
    [client_status] in title case between the brackets, and focus "N/A".
    For a [client_status] of ASCII characters that text is the raw
    [client_status] in title case; "away" gives "Unknown (Away)". *)
Theorem fresh_unknown_status :
  forall (timeout_threshold : datetime) (uid name : string) (ev : event)
         (raw : string) (ist : datetime),
    dict_get (metadata ev) "client_status" (VStr "N/A") = Ok (VStr raw) ->
    PyStr.lower raw <> "logged_out" ->
    PyStr.lower raw <> "active" ->
    PyStr.lower raw <> "idle" ->
    datetime_ltb (server_timestamp ev) timeout_threshold = false ->
    datetime_add (server_timestamp ev) IST_OFFSET = Ok ist ->
    student_row timeout_threshold uid name (Some ev) =
      Ok {| row_id := uid; row_name := name;
            status := "Unknown (" +:+ PyStr.title (PyStr.lower raw) +:+ ")";
            focus := "N/A"; last_event := event_type ev;
            timestamp := isoformat ist |} /\
    (is_ascii raw = true -> PyStr.title (PyStr.lower raw) = PyStr.title raw).
Proof.
  intros th uid name ev raw ist Hget H1 H2 H3 Hlt Hadd.
  split; [|apply title_lower_ascii].
  destruct (dict_get_Ok _ _ _ _ Hget) as (d & Hm & Hd).
  rewrite (student_row_dict th uid name ev d Hm raw Hd).
  rewrite (determine_status_unknown _ _ _ _ H1 H2 H3 Hlt).
  rewrite Hadd. reflexivity.
Qed.

Lemma fresh_unknown_status_witness :
  student_row noon_threshold "MCA-428" "Leni E"
    (Some (heartbeat "MCA-428" "away" true (mk_datetime 2024 1 1 11 59 30 0)))
  = Ok {| row_id := "MCA-428"; row_name := "Leni E";
          status := "Unknown (Away)"; focus := "N/A";
          last_event := VStr "heartbeat"; timestamp := "2024-01-01T17:29:30" |}
  /\ PyStr.title (PyStr.lower "away") = PyStr.title "away".
Proof.
  destruct (fresh_unknown_status noon_threshold "MCA-428" "Leni E"
              (heartbeat "MCA-428" "away" true (mk_datetime 2024 1 1 11 59 30 0))
              "away" (mk_datetime 2024 1 1 17 29 30 0))
    as [Hrow Hascii];
    try solve [vm_compute; reflexivity | vm_compute; discriminate].
  split; [exact Hrow|]. apply Hascii. reflexivity.
Defined.

(** C8 as it is stated, with the raw [client_status] in title case,
    fails on a status that lowercasing takes apart.  The
    dotted capital I lowercases to an "i" and a combining dot; the dot is
    not cased, so the "s" after it starts a word for [title]: the report
    shows "I", the dot and "Stanbul", and the raw text in title case is
    the raw text. *)
Lemma fresh_unknown_status_counterexample :
  dict_get (metadata dotted_event) "client_status" (VStr "N/A")
    = Ok (VStr dotted_status) /\
  PyStr.lower dotted_status <> "logged_out" /\
  PyStr.lower dotted_status <> "active" /\
  PyStr.lower dotted_status <> "idle" /\
  datetime_ltb (server_timestamp dotted_event) noon_threshold = false /\
  PyStr.title dotted_status = dotted_status /\
  exists r,
    student_row noon_threshold "MCA-428" "Leni E" (Some dotted_event) = Ok r /\
    status r =
      "Unknown (" +:+ PyStr.encode [73; 775; 83; 116; 97; 110; 98; 117; 108]%N
                  +:+ ")" /\
    status r <> "Unknown (" +:+ PyStr.title dotted_status +:+ ")".
Proof.
  split; [reflexivity|].
  split; [vm_compute; discriminate|].
  split; [vm_compute; discriminate|].
  split; [vm_compute; discriminate|].
  split; [reflexivity|].
  split; [vm_compute; reflexivity|].
  eexists. split; [vm_compute; reflexivity|].
  split; [vm_compute; reflexivity|].
  vm_compute. discriminate.
Qed.

(** C9.  When the metadata of the latest event has no [client_status] key,
    the row is produced, its status is neither "Active" nor "Idle", and for
    an event that is not stale the status is "Unknown (N/A)" with focus
    "N/A": the default "N/A" goes through the chain of tests like any
    other unrecognized value. *)
Theorem missing_client_status :
  forall (timeout_threshold : datetime) (uid name : string) (ev : event)
         (d : list (string * value)) (ist : datetime),
    metadata ev = VDict d ->
    assoc "client_status" d = None ->
    datetime_add (server_timestamp ev) IST_OFFSET = Ok ist ->
    (exists r : row,
       student_row timeout_threshold uid name (Some ev) = Ok r /\
       status r <> "Active" /\ status r <> "Idle") /\
    (datetime_ltb (server_timestamp ev) timeout_threshold = false ->
     student_row timeout_threshold uid name (Some ev) =
       Ok {| row_id := uid; row_name := name; status := "Unknown (N/A)";
             focus := "N/A"; last_event := event_type ev;
             timestamp := isoformat ist |}).
Proof.
  intros th uid name ev d ist Hm Hd Hadd.
  assert (Hraw : match assoc "client_status" d with
                 | Some v => v
                 | None => VStr "N/A"
                 end = VStr "N/A") by (rewrite Hd; reflexivity).
  rewrite (student_row_dict th uid name ev d Hm "N/A" Hraw).
  change (PyStr.lower "N/A") with "n/a".
  destruct (datetime_ltb (server_timestamp ev) th) eqn:Hlt.
  - rewrite determine_status_stale by (assumption || discriminate).
    rewrite Hadd. run_bind. split; [|discriminate].
    eexists; split; [reflexivity|]. cbn [status]. split; discriminate.
  - rewrite determine_status_unknown by (assumption || discriminate).
    change ("Unknown (" +:+ PyStr.title "n/a" +:+ ")") with "Unknown (N/A)".
    rewrite Hadd. run_bind. split; [|reflexivity].
    eexists; split; [reflexivity|]. cbn [status]. split; discriminate.
Qed.

Lemma missing_client_status_witness :
  student_row noon_threshold "MCA-112" "Soni Priya"
    (Some (bare_event "MCA-112" (mk_datetime 2024 1 1 11 57 0 0)))
  = Ok {| row_id := "MCA-112"; row_name := "Soni Priya";
          status := "Unknown (N/A)"; focus := "N/A";
          last_event := VStr "heartbeat"; timestamp := "2024-01-01T17:27:00" |}.
Proof.
  apply (missing_client_status noon_threshold "MCA-112" "Soni Priya"
           (bare_event "MCA-112" (mk_datetime 2024 1 1 11 57 0 0))
           [("tab_focused", VBool true)] (mk_datetime 2024 1 1 17 27 0 0)
           eq_refl eq_refl eq_refl).
  reflexivity.
Defined.

(** C10.  Two latest events that agree on [metadata] and
    [server_timestamp] give rows with the same status, the same focus and
    the same timestamp, or fail with the same exception; [event_type] only
    shows in the [last_event] field. *)
Theorem event_type_only_in_last_event :
  forall (timeout_threshold : datetime) (uid name : string) (ev1 ev2 : event),
    metadata ev1 = metadata ev2 ->
    server_timestamp ev1 = server_timestamp ev2 ->
    match student_row timeout_threshold uid name (Some ev1),
          student_row timeout_threshold uid name (Some ev2) with
    | Ok r1, Ok r2 =>
        status r1 = status r2 /\ focus r1 = focus r2 /\
        timestamp r1 = timestamp r2 /\
        last_event r1 = event_type ev1 /\ last_event r2 = event_type ev2
    | Raise e1, Raise e2 => e1 = e2
    | _, _ => False
    end.
Proof.
  intros th uid name ev1 ev2 Hm Hts.
  unfold student_row. rewrite <- Hm, <- Hts.
  destruct (dict_get (metadata ev1) "client_status" (VStr "N/A")) as [cs|e];
    run_bind; [|reflexivity].
  destruct (str_lower cs) as [client_status|e]; run_bind; [|reflexivity].
  destruct (dict_get (metadata ev1) "tab_focused" (VBool false)) as [tab|e];
    run_bind; [|reflexivity].
  destruct (determine_status client_status tab (server_timestamp ev1) th)
    as [st fo].
  destruct (datetime_add (server_timestamp ev1) IST_OFFSET) as [ist|e];
    run_bind; [|reflexivity].
  cbn [status focus timestamp last_event]. repeat split; reflexivity.
Qed.

Lemma event_type_only_in_last_event_witness :
  match student_row noon_threshold "MCA-428" "Leni E"
          (Some (heartbeat "MCA-428" "active" true (mk_datetime 2024 1 1 11 58 0 0))),
        student_row noon_threshold "MCA-428" "Leni E"
          (Some {| _id := ObjectId "65920000a1b2c3d4e5f6071a";
                   user_id := VStr "MCA-428";
                   event_type := VStr "logout";
                   metadata := VDict [("client_status", VStr "active");
                                      ("tab_focused", VBool true)];
                   server_timestamp := mk_datetime 2024 1 1 11 58 0 0 |}) with
  | Ok r1, Ok r2 =>
      status r1 = status r2 /\ focus r1 = focus r2 /\
      timestamp r1 = timestamp r2 /\
      last_event r1 = VStr "heartbeat" /\ last_event r2 = VStr "logout"
  | Raise e1, Raise e2 => e1 = e2
  | _, _ => False
  end.
Proof.
  apply (event_type_only_in_last_event noon_threshold "MCA-428" "Leni E"
           (heartbeat "MCA-428" "active" true (mk_datetime 2024 1 1 11 58 0 0)));
    reflexivity.
Defined.

(* ===================================================================== *)
(** ** The displayed timestamp *)
(* ===================================================================== *)









(* ===================================================================== *)
(** ** The order of timestamps *)
(* ===================================================================== *)

Lemma lex_ltb_irrefl a : lex_ltb a a = false.
Proof.
  induction a as [|x a IH]; simpl; [reflexivity|].
  rewrite Z.ltb_irrefl, Z.eqb_refl, IH. reflexivity.
Qed.

(** "Not earlier than" is transitive. *)
Lemma lex_ltb_false_trans a : forall b c,
  lex_ltb a b = false -> lex_ltb b c = false -> lex_ltb a c = false.
Proof.
  induction a as [|x a IH]; intros [|y b] [|z c]; simpl;
    try reflexivity; try discriminate.
  intros Hab Hbc.
  apply orb_false_iff in Hab as [Hxy Hab'], Hbc as [Hyz Hbc'].
  apply Z.ltb_ge in Hxy, Hyz.
  apply orb_false_iff. split; [apply Z.ltb_ge; lia|].
  destruct (Z.eqb_spec x z) as [->|Hne]; [|reflexivity]. simpl.
  assert (y = z) as -> by lia.
  rewrite Z.eqb_refl in Hab', Hbc'. simpl in Hab', Hbc'.
  now apply (IH b c).
Qed.

Lemma lex_ltb_antisym a : forall b,
  lex_ltb a b = false -> lex_ltb b a = false -> a = b.
Proof.
  induction a as [|x a IH]; intros [|y b]; simpl;
    try reflexivity; try discriminate.
  intros Hab Hba.
  apply orb_false_iff in Hab as [Hxy Hab'], Hba as [Hyx Hba'].
  apply Z.ltb_ge in Hxy, Hyx.
  assert (x = y) as -> by lia.
  rewrite Z.eqb_refl in Hab', Hba'. simpl in Hab', Hba'.
  f_equal. now apply IH.
Qed.

Lemma datetime_ltb_irrefl a : datetime_ltb a a = false.
Proof. apply lex_ltb_irrefl. Qed.

Lemma datetime_ltb_antisym a b :
  datetime_ltb a b = false -> datetime_ltb b a = false -> a = b.
Proof.
  unfold datetime_ltb. intros Hab Hba.
  pose proof (lex_ltb_antisym _ _ Hab Hba) as H.
  destruct a, b. unfold fields in H. cbn in H. congruence.
Qed.

#[local] Instance newest_first_trans : Transitive newest_first.
Proof.
  intros a b c Hab Hbc. unfold newest_first, datetime_ltb in *.
  eapply lex_ltb_false_trans; eassumption.
Qed.

(** The sample sort stage rearranges its input, newest first. *)
Lemma insert_newest_first_perm e l :
  Permutation (insert_newest_first e l) (e :: l).
Proof.
  induction l as [|x l IH]; simpl; [reflexivity|].
  destruct (datetime_ltb (server_timestamp e) (server_timestamp x));
    [|reflexivity].
  rewrite IH. apply perm_swap.
Qed.

Lemma sort_newest_first_perm l : Permutation (sort_newest_first l) l.
Proof.
  induction l as [|e l IH]; simpl; [reflexivity|].
  rewrite insert_newest_first_perm. now constructor.
Qed.

Lemma lex_ltb_asym a : forall b, lex_ltb a b = true -> lex_ltb b a = false.
Proof.
  induction a as [|x a IH]; intros [|y b]; simpl;
    try reflexivity; try discriminate.
  intros H. apply orb_false_iff.
  apply orb_true_iff in H as [H|H].
  - apply Z.ltb_lt in H. split; [apply Z.ltb_ge; lia|].
    destruct (Z.eqb_spec y x); [lia|reflexivity].
  - apply andb_true_iff in H as [Hxy H]. apply Z.eqb_eq in Hxy as ->.
    rewrite Z.ltb_irrefl, Z.eqb_refl. split; [reflexivity|]. now apply IH.
Qed.

Lemma newest_first_of_ltb a b :
  datetime_ltb (server_timestamp a) (server_timestamp b) = true ->
  newest_first b a.
Proof. apply lex_ltb_asym. Qed.

Lemma insert_newest_first_sorted e l :
  Sorted newest_first l -> Sorted newest_first (insert_newest_first e l).
Proof.
  induction l as [|x l IH]; simpl; intros Hs.
  - repeat constructor.
  - destruct (datetime_ltb (server_timestamp e) (server_timestamp x)) eqn:Hlt.
    + apply Sorted_inv in Hs as [Hs Hhd]. constructor; [now apply IH|].
      destruct l as [|y l]; simpl.
      * constructor. now apply newest_first_of_ltb.
      * destruct (datetime_ltb (server_timestamp e) (server_timestamp y));
          constructor.
        -- now apply HdRel_inv in Hhd.
        -- now apply newest_first_of_ltb.
    + constructor; [assumption|]. constructor. exact Hlt.
Qed.

Lemma sort_newest_first_sorted l : Sorted newest_first (sort_newest_first l).
Proof.
  induction l as [|e l IH]; simpl; [constructor|].
  now apply insert_newest_first_sorted.
Qed.

(* ===================================================================== *)
(** ** Loops, the student table and the aggregation *)
(* ===================================================================== *)

Lemma for_each_Ok {A B} (f : A -> result B) xs ys :
  for_each f xs = Ok ys -> Forall2 (fun x y => f x = Ok y) xs ys.
Proof.
  revert ys; induction xs as [|x xs IH]; intros ys; simpl.
  - intros [= <-]. constructor.
  - destruct (f x) as [y|e] eqn:Hx; run_bind; [|discriminate].
    destruct (for_each f xs) as [ys'|e]; run_bind; [|discriminate].
    intros [= <-]. constructor; [assumption|]. now apply IH.
Qed.

Lemma Forall2_In_r {A B} (P : A -> B -> Prop) xs ys y :
  Forall2 P xs ys -> In y ys -> exists x, In x xs /\ P x y.
Proof.
  induction 1 as [|x y' xs ys Hp _ IH]; intros Hin; [destruct Hin|].
  destruct Hin as [<-|Hin].
  - exists x. split; [now left|assumption].
  - destruct (IH Hin) as (x' & Hx' & Hp'). exists x'. split; [now right|assumption].
Qed.

Lemma Forall2_In_l {A B} (P : A -> B -> Prop) xs ys x :
  Forall2 P xs ys -> In x xs -> exists y, In y ys /\ P x y.
Proof.
  induction 1 as [|x' y xs ys Hp _ IH]; intros Hin; [destruct Hin|].
  destruct Hin as [<-|Hin].
  - exists y. split; [now left|assumption].
  - destruct (IH Hin) as (y' & Hy' & Hp'). exists y'.
    split; [now right|assumption].
Qed.

Lemma for_each_total {A B} (f : A -> result B) xs :
  (forall x, In x xs -> exists y, f x = Ok y) ->
  exists ys, for_each f xs = Ok ys.
Proof.
  induction xs as [|x xs IH]; intros H; simpl; [eauto|].
  destruct (H x (or_introl eq_refl)) as [y ->]. run_bind.
  destruct IH as [ys ->]; [intros; apply H; now right|].
  run_bind. eauto.
Qed.

(** Assigning under a key the [dict] does not have appends the item. *)
Lemma dict_set_fresh {V} k (v : V) d :
  ~ In k (map fst d) -> dict_set k v d = d ++ [(k, v)].
Proof.
  induction d as [|[k' v'] d IH]; simpl; intros Hk; [reflexivity|].
  destruct (String.eqb_spec k' k) as [->|Hne]; [tauto|].
  rewrite IH by tauto. reflexivity.
Qed.

Lemma all_students_from acc us :
  List.NoDup (map fst acc ++
         map u_id (List.filter (fun u => String.eqb (u_role u) "student") us)) ->
  fold_left
    (fun d user_data =>
       if String.eqb (u_role user_data) "student"
       then dict_set (u_id user_data) (u_name user_data) d
       else d)
    us acc
  = acc ++ map (fun u => (u_id u, u_name u))
             (List.filter (fun u => String.eqb (u_role u) "student") us).
Proof.
  revert acc; induction us as [|u us IH]; intros acc Hnd; simpl.
  - now rewrite app_nil_r.
  - simpl in Hnd. destruct (String.eqb (u_role u) "student") eqn:Hrole.
    + simpl in Hnd. pose proof Hnd as Hnd'.
      apply NoDup_remove in Hnd' as [_ Hfresh].
      rewrite dict_set_fresh
        by (intros Hin; apply Hfresh, in_or_app; now left).
      rewrite IH.
      * simpl. now rewrite <- app_assoc.
      * rewrite map_app, <- app_assoc. exact Hnd.
    + now apply IH.
Qed.

(** With distinct student ids the student table lists the student entries
    of the user table, in order. *)
Lemma all_students_entries users :
  List.NoDup (map u_id (student_entries users)) ->
  all_students users =
    map (fun u => (u_id u, u_name u)) (student_entries users).
Proof.
  intros Hnd. unfold all_students. now rewrite all_students_from.
Qed.

Lemma value_eqb_VStr v uid : value_eqb v (VStr uid) = true <-> v = VStr uid.
Proof.
  destruct v; simpl; split; try discriminate.
  - intros H. apply String.eqb_eq in H. now subst.
  - intros [= ->]. apply String.eqb_refl.
Qed.

Lemma first_of_cons uid d docs :
  first_of uid (d :: docs) =
    if value_eqb (user_id d) (VStr uid) then Some d else first_of uid docs.
Proof. reflexivity. Qed.

(** What the map holds after the loop over the groups: under each string
    key that was not met before, the first document of that key. *)
Lemma latest_events_map_lookup docs : forall seen acc m,
  latest_events_map (group_first seen docs) acc = Ok m ->
  forall uid,
    m !! uid =
      if existsb (value_eqb (VStr uid)) seen then acc !! uid
      else match first_of uid docs with
           | Some e => Some (stringify_id e)
           | None => acc !! uid
           end.
Proof.
  induction docs as [|d docs IH]; intros seen acc m Hm uid.
  - cbn [group_first latest_events_map] in Hm. injection Hm as <-.
    now destruct (existsb (value_eqb (VStr uid)) seen).
  - rewrite first_of_cons. cbn [group_first] in Hm.
    destruct (existsb (value_eqb (user_id d)) seen) eqn:Hseen.
    + rewrite (IH _ _ _ Hm uid).
      destruct (value_eqb (user_id d) (VStr uid)) eqn:Hd; [|reflexivity].
      apply value_eqb_VStr in Hd. rewrite Hd in Hseen. now rewrite Hseen.
    + destruct (user_id d) as [| b | n | s | l | kv] eqn:Hu;
        cbn [latest_events_map] in Hm; try discriminate;
        try (rewrite (IH _ _ _ Hm uid); reflexivity).
      rewrite (IH _ _ _ Hm uid).
      change (existsb (value_eqb (VStr uid)) (VStr s :: seen))
        with (String.eqb uid s || existsb (value_eqb (VStr uid)) seen).
      change (value_eqb (VStr s) (VStr uid)) with (String.eqb s uid).
      destruct (String.eqb_spec uid s) as [->|Hne].
      * rewrite Hseen, String.eqb_refl. cbn [orb].
        now rewrite lookup_insert_eq.
      * rewrite (eqb_neq_false s uid) by congruence. cbn [orb].
        rewrite lookup_insert_ne by congruence. reflexivity.
Qed.

(** The loop over the groups succeeds when every key is a string. *)
Lemma latest_events_map_total docs :
  (forall e, In e docs -> exists uid, user_id e = VStr uid) ->
  forall seen acc, exists m, latest_events_map (group_first seen docs) acc = Ok m.
Proof.
  induction docs as [|d docs IH]; intros Hstr seen acc;
    cbn [group_first latest_events_map]; [eauto|].
  destruct (existsb (value_eqb (user_id d)) seen).
  - apply IH. intros; apply Hstr; now right.
  - destruct (Hstr d (or_introl eq_refl)) as [uid Hu].
    cbn [latest_events_map]. rewrite Hu.
    apply IH. intros; apply Hstr; now right.
Qed.

Lemma first_of_Some uid docs e :
  first_of uid docs = Some e -> In e docs /\ user_id e = VStr uid.
Proof.
  unfold first_of. intros H. apply find_some in H as [Hin He].
  split; [assumption|]. now apply value_eqb_VStr.
Qed.

Lemma first_of_None uid docs e :
  first_of uid docs = None -> In e docs -> user_id e <> VStr uid.
Proof.
  unfold first_of. intros H Hin Hu.
  pose proof (find_none _ _ H e Hin) as Hf. cbv beta in Hf.
  rewrite Hu in Hf. simpl in Hf. now rewrite String.eqb_refl in Hf.
Qed.

(** In a list sorted newest first, the first document of a user is not
    earlier than any other document of that user. *)
Lemma first_of_newest uid docs e :
  StronglySorted newest_first docs ->
  first_of uid docs = Some e ->
  forall e', In e' docs -> user_id e' = VStr uid -> newest_first e e'.
Proof.
  induction 1 as [|d docs Hs IH Hall]; [discriminate|].
  rewrite first_of_cons.
  destruct (value_eqb (user_id d) (VStr uid)) eqn:Hd.
  - intros [= <-] e' [<-|Hin] _.
    + apply datetime_ltb_irrefl.
    + rewrite List.Forall_forall in Hall. now apply Hall.
  - intros Hf e' [<-|Hin] Hu.
    + apply value_eqb_VStr in Hu. congruence.
    + now apply IH.
Qed.

(** The report handler does not read the [_id] of an event. *)
Lemma student_row_stringify_id th uid name e :
  student_row th uid name (Some (stringify_id e)) =
  student_row th uid name (Some e).
Proof. unfold stringify_id. now destruct (_id e). Qed.


Lemma student_row_ids th uid name latest r :
  student_row th uid name latest = Ok r -> row_id r = uid /\ row_name r = name.
Proof.
  unfold student_row. destruct latest as [ev|]; [|intros [= <-]; now split].
  destruct (dict_get (metadata ev) "client_status" (VStr "N/A")) as [cs|];
    run_bind; [|discriminate].
  destruct (str_lower cs) as [client_status|]; run_bind; [|discriminate].
  destruct (dict_get (metadata ev) "tab_focused" (VBool false)) as [tab|];
    run_bind; [|discriminate].
  destruct (determine_status client_status tab (server_timestamp ev) th).
  destruct (datetime_add (server_timestamp ev) IST_OFFSET);
    run_bind; [|discriminate].
  intros [= <-]. now split.
Qed.

(** The row of a student is produced for every event that conforms. *)
Lemma student_row_conforms th uid name e :
  conforms e -> exists r, student_row th uid name (Some e) = Ok r.
Proof.
  intros (_ & (d & Hm & Hcs) & (ist & Hadd)).
  assert (exists raw,
             match assoc "client_status" d with
             | Some v => v
             | None => VStr "N/A"
             end = VStr raw) as [raw Hraw].
  { destruct (assoc "client_status" d) as [v|]; [|eauto].
    destruct (Hcs v eq_refl) as [raw ->]. eauto. }
  rewrite (student_row_dict th uid name e d Hm raw Hraw).
  destruct (determine_status _ _ _ _). rewrite Hadd. run_bind. eauto.
Qed.

(* ===================================================================== *)
(** ** Writes to the collection *)
(* ===================================================================== *)

(** [insert_one] returns exactly when the document can be encoded, its
    [_id] can be stored and is free, and the write is acknowledged; the
    collection then holds one more document, the last. *)
Lemma insert_one_Some ack fields doc events stored :
  insert_one ack fields doc events = Some stored <->
  bson_encodable (VDict fields) = true /\ storable_id (_id doc) = true /\
  id_taken (_id doc) events = false /\ ack = true /\
  stored = events ++ [doc].
Proof.
  unfold insert_one.
  destruct (bson_encodable (VDict fields)), (storable_id (_id doc)),
    (id_taken (_id doc) events), ack; cbn [andb negb];
    split; try discriminate; try (intros (? & ? & ? & ? & ?); discriminate).
  - intros [= <-]. repeat split.
  - intros (_ & _ & _ & _ & ->). reflexivity.
Qed.

Lemma insert_one_None ack fields doc events :
  insert_one ack fields doc events = None <->
  bson_encodable (VDict fields) = false \/ storable_id (_id doc) = false \/
  id_taken (_id doc) events = true \/ ack = false.
Proof.
  unfold insert_one.
  destruct (bson_encodable (VDict fields)), (storable_id (_id doc)),
    (id_taken (_id doc) events), ack; cbn [andb negb];
    split; try discriminate; try tauto;
    intros [H|[H|[H|H]]]; discriminate H.
Qed.


(* ===================================================================== *)
(** ** The report *)
(* ===================================================================== *)

Section ReportProperties.

Variable mongo_sort : list event -> list event.
Hypothesis mongo_sort_perm : forall l, Permutation (mongo_sort l) l.
Hypothesis mongo_sort_sorted : forall l, Sorted newest_first (mongo_sort l).

(** The documents the [$group] stage reads. *)
Let sorted_docs (users : list (string * user)) (events : list event) :=
  mongo_sort
    (List.filter (fun e => match_in (map fst (all_students users)) (user_id e))
                 events).

Lemma sorted_docs_In users events e :
  In e (sorted_docs users events) <->
  In e events /\ match_in (map fst (all_students users)) (user_id e) = true.
Proof.
  unfold sorted_docs. split; intros H.
  - apply (Permutation_in _ (mongo_sort_perm _)) in H.
    apply filter_In in H. exact H.
  - apply (Permutation_in _ (Permutation_sym (mongo_sort_perm _))).
    apply filter_In. exact H.
Qed.

Lemma match_in_student ids uid :
  In uid ids -> match_in ids (VStr uid) = true.
Proof.
  intros Hin. cbn [match_in is_student_id]. apply existsb_exists.
  exists uid. split; [assumption|apply String.eqb_refl].
Qed.

(** A report that is produced holds, for each item of the student table,
    the row of the first document of that student after the [$sort]
    stage. *)
Lemma build_report_Ok users events now rows :
  build_report mongo_sort users events now = Ok rows ->
  exists th,
    datetime_sub now (timedelta_new 0 0 0 ACTIVITY_TIMEOUT_MINUTES 0) = Ok th /\
    Forall2
      (fun (item : string * string) r =>
         student_row th (fst item) (snd item)
                     (first_of (fst item) (sorted_docs users events)) = Ok r)
      (all_students users) rows.
Proof.
  unfold build_report, aggregate. cbv zeta. fold (sorted_docs users events).
  destruct (latest_events_map (group_first [] (sorted_docs users events)) ∅)
    as [latest|] eqn:Hlatest; run_bind; [|discriminate].
  destruct (datetime_sub now (timedelta_new 0 0 0 ACTIVITY_TIMEOUT_MINUTES 0))
    as [th|]; run_bind; [|discriminate].
  intros Hrows. exists th. split; [reflexivity|].
  apply for_each_Ok in Hrows.
  eapply Forall2_impl; [exact Hrows|].
  intros [uid name] r Hr. cbn [fst snd].
  rewrite (latest_events_map_lookup _ _ _ _ Hlatest uid) in Hr.
  cbn [existsb] in Hr. rewrite lookup_empty in Hr.
  destruct (first_of uid (sorted_docs users events)) as [e|];
    [|exact Hr].
  now rewrite student_row_stringify_id in Hr.
Qed.

Lemma get_student_data_Success connected users events now rows :
  get_student_data mongo_sort connected users events now = Success rows ->
  build_report mongo_sort users events now = Ok rows.
Proof.
  unfold get_student_data. destruct connected; [|discriminate].
  cbn [negb]. destruct (build_report mongo_sort users events now);
    [|discriminate].
  now intros [= ->].
Qed.

(** The report is produced when the store is reachable, the threshold
    can be computed and the documents conform. *)
Lemma build_report_total users events now th :
  datetime_sub now (timedelta_new 0 0 0 ACTIVITY_TIMEOUT_MINUTES 0) = Ok th ->
  Forall conforms events ->
  exists rows, build_report mongo_sort users events now = Ok rows.
Proof.
  intros Hth Hall. rewrite List.Forall_forall in Hall.
  unfold build_report, aggregate. cbv zeta. fold (sorted_docs users events).
  destruct (latest_events_map_total (sorted_docs users events)) with
    (seen := @nil value) (acc := (∅ : gmap string event))
    as [latest Hlatest].
  { intros e He. apply sorted_docs_In in He as [He _].
    now destruct (Hall e He) as [Hu _]. }
  rewrite Hlatest. run_bind. rewrite Hth. run_bind.
  apply for_each_total. intros [uid name] _.
  rewrite (latest_events_map_lookup _ _ _ _ Hlatest uid).
  cbn [existsb]. rewrite lookup_empty.
  destruct (first_of uid (sorted_docs users events)) as [e|] eqn:Hf.
  - rewrite student_row_stringify_id. apply student_row_conforms.
    apply first_of_Some in Hf as [He _].
    apply sorted_docs_In in He as [He _]. now apply Hall.
  - eauto.
Qed.

(** C4.  With distinct student ids in the user table, a report holds
    exactly one row per student entry of the table, in the order of the
    table, whatever the collection holds; entries with another role give
    no row.  The report is produced whenever the store is reachable, the
    threshold can be computed and the stored documents conform, in
    particular for an empty collection. *)
Theorem one_row_per_student :
  forall (users : list (string * user)) (events : list event) (now : datetime),
    List.NoDup (map u_id (student_entries users)) ->
    (forall connected rows,
        get_student_data mongo_sort connected users events now = Success rows ->
        map (fun r => (row_id r, row_name r)) rows =
          map (fun u => (u_id u, u_name u)) (student_entries users) /\
        length rows = length (student_entries users)) /\
    (forall th,
        datetime_sub now (timedelta_new 0 0 0 ACTIVITY_TIMEOUT_MINUTES 0)
          = Ok th ->
        Forall conforms events ->
        exists rows,
          get_student_data mongo_sort true users events now = Success rows).
Proof.
  intros users events now Hnd. split.
  - intros connected rows Hok.
    apply get_student_data_Success, build_report_Ok in Hok
      as (th & _ & Hrows).
    assert (Hmap : map (fun r => (row_id r, row_name r)) rows =
                   all_students users).
    { clear Hnd. induction Hrows as [|[uid name] r items rows Hr _ IH];
        [reflexivity|].
      cbn [map fst snd] in *. apply student_row_ids in Hr as [-> ->].
      now rewrite IH. }
    rewrite all_students_entries in Hmap by exact Hnd.
    split; [exact Hmap|].
    apply (f_equal (@length _)) in Hmap.
    now rewrite !List.length_map in Hmap.
  - intros th Hth Hall.
    destruct (build_report_total users events now th Hth Hall) as [rows Hrows].
    exists rows. unfold get_student_data. cbn [negb]. now rewrite Hrows.
Qed.

(** The row of a student is the row of an event of that student that no
    other event of the student is later than, or the row of a student
    without events when the collection has none. *)
Lemma report_row_latest connected users events now rows r :
  get_student_data mongo_sort connected users events now = Success rows ->
  In r rows ->
  exists th,
    datetime_sub now (timedelta_new 0 0 0 ACTIVITY_TIMEOUT_MINUTES 0) = Ok th /\
    (((forall e, In e events -> user_id e <> VStr (row_id r)) /\
      student_row th (row_id r) (row_name r) None = Ok r) \/
     (exists e,
         In e events /\ user_id e = VStr (row_id r) /\
         (forall e', In e' events -> user_id e' = VStr (row_id r) ->
                     datetime_ltb (server_timestamp e) (server_timestamp e')
                       = false) /\
         student_row th (row_id r) (row_name r) (Some e) = Ok r)).
Proof.
  intros Hok Hin.
  apply get_student_data_Success, build_report_Ok in Hok
    as (th & Hth & Hrows).
  exists th. split; [exact Hth|].
  destruct (Forall2_In_r _ _ _ _ Hrows Hin) as ([uid name] & Hitem & Hr).
  cbn [fst snd] in Hr.
  destruct (student_row_ids _ _ _ _ _ Hr) as [Hid Hname].
  rewrite Hid, Hname.
  assert (Hids : In uid (map fst (all_students users))).
  { apply in_map_iff. exists (uid, name). now split. }
  destruct (first_of uid (sorted_docs users events)) as [e|] eqn:Hf.
  - right. exists e.
    destruct (first_of_Some _ _ _ Hf) as [He Hu].
    apply sorted_docs_In in He as [He _].
    repeat split; try assumption.
    intros e' He' Hu'.
    apply (first_of_newest uid (sorted_docs users events) e); try assumption.
    + apply Sorted_StronglySorted; [apply newest_first_trans|].
      apply mongo_sort_sorted.
    + apply sorted_docs_In. split; [assumption|].
      rewrite Hu'. now apply match_in_student.
  - left. split; [|exact Hr].
    intros e He Hu. apply (first_of_None _ _ e Hf); [|exact Hu].
    apply sorted_docs_In. split; [assumption|].
    rewrite Hu. now apply match_in_student.
Qed.



End ReportProperties.

(** The report over the sample collection, with the stored user table. *)
Example sample_report :
  get_student_data sort_newest_first true MOCK_USERS sample_events noon =
    Success
      [ {| row_id := "MCA-428"; row_name := "Leni E"; status := "Idle";
           focus := "Blurred"; last_event := VStr "heartbeat";
           timestamp := "2024-01-01T17:28:00" |};
        {| row_id := "MCA-112"; row_name := "Soni Priya";
           status := "Never Logged In"; focus := "N/A";
           last_event := VStr "None"; timestamp := "N/A" |} ].
Proof. vm_compute. reflexivity. Qed.

Lemma mock_student_ids_distinct :
  List.NoDup (map u_id (student_entries MOCK_USERS)).
Proof.
  constructor; [intros [H|[]]; discriminate H|].
  constructor; [intros []|]. constructor.
Defined.

Lemma heartbeat_conforms uid cs tab ts ist :
  datetime_add ts IST_OFFSET = Ok ist -> conforms (heartbeat uid cs tab ts).
Proof.
  intros Hadd. split; [now exists uid|]. split; [|now exists ist].
  eexists. split; [reflexivity|].
  intros v [= <-]. now exists cs.
Defined.

Lemma one_row_per_student_witness :
  (forall connected rows,
      get_student_data sort_newest_first connected MOCK_USERS sample_events noon
        = Success rows ->
      map (fun r => (row_id r, row_name r)) rows =
        [("MCA-428", "Leni E"); ("MCA-112", "Soni Priya")] /\
      length rows = 2%nat) /\
  (exists rows,
      get_student_data sort_newest_first true MOCK_USERS sample_events noon
        = Success rows).
Proof.
  destruct (one_row_per_student sort_newest_first sort_newest_first_perm
              MOCK_USERS sample_events noon mock_student_ids_distinct)
    as [Hrows Hok].
  split; [exact Hrows|].
  apply (Hok noon_threshold); [vm_compute; reflexivity|].
  constructor;
    [apply (heartbeat_conforms _ _ _ _ (mk_datetime 2024 1 1 17 20 0 0));
     vm_compute; reflexivity|].
  constructor;
    [apply (heartbeat_conforms _ _ _ _ (mk_datetime 2024 1 1 17 28 0 0));
     vm_compute; reflexivity|].
  constructor;
    [apply (heartbeat_conforms _ _ _ _ (mk_datetime 2024 1 1 17 29 0 0));
     vm_compute; reflexivity|].
  constructor.
Defined.


(* ===================================================================== *)
(** ** Authentication *)
(* ===================================================================== *)

Lemma value_eqb_VStr_l s v : value_eqb (VStr s) v = true <-> v = VStr s.
Proof.
  destruct v; cbn [value_eqb]; split; try discriminate.
  - intros H. apply String.eqb_eq in H. now subst.
  - intros [= ->]. apply String.eqb_refl.
Qed.

Lemma default_is_VStr (o : option value) s :
  match o with Some x => x | None => VNone end = VStr s <-> o = Some (VStr s).
Proof. destruct o; split; intros H; try discriminate; congruence. Qed.

(** X1.  [authenticate] answers success exactly when the store is
    reachable, the body is an object, its [username] is a key of the user
    table and its [password] is the string stored for that user; the answer
    then carries the id, the name and the role of that entry. *)
Theorem authenticate_success_iff :
  forall (connected : bool) (users : list (string * user)) (data : value)
         (info : identity),
    authenticate connected users data = Ok (Success info) <->
    connected = true /\
    exists d uname u,
      data = VDict d /\
      assoc "username" d = Some (VStr uname) /\
      assoc uname users = Some u /\
      assoc "password" d = Some (VStr (u_password u)) /\
      info = {| i_id := u_id u; i_name := u_name u; i_role := u_role u |}.
Proof.
  intros connected users data info. unfold authenticate. split.
  - destruct connected; cbn [negb]; [|discriminate].
    destruct data as [| | | | |d]; cbn [dict_get]; run_bind; try discriminate.
    destruct (assoc "username" d) as [[| | |uname| |]|] eqn:Hu;
      cbn [users_get]; run_bind; try discriminate.
    destruct (assoc uname users) as [u|] eqn:Hfound; [|discriminate].
    destruct (value_eqb (VStr (u_password u)) _) eqn:Hpw; [|discriminate].
    intros [= <-]. split; [reflexivity|].
    exists d, uname, u. repeat split; try assumption.
    apply value_eqb_VStr_l in Hpw. now apply default_is_VStr in Hpw.
  - intros (-> & d & uname & u & -> & Hu & Hfound & Hpw & ->).
    cbn [negb dict_get]. run_bind. rewrite Hu, Hpw. cbn [users_get].
    run_bind. rewrite Hfound.
    now rewrite (proj2 (value_eqb_VStr_l _ _) eq_refl).
Qed.

(** X2.  The answers of [authenticate] other than success.  With the
    store out of reach the answer is 503, whatever the body.  Otherwise a
    body that is not an object, or whose [username] is a list or an
    object, raises: the handler gives no answer of its own and the
    request ends with the status 500, in these cases only.  An object
    whose [username] is not a key of the user table, or whose [password]
    is not the string stored for that user, is answered 401 with one
    message, the same in both cases.  No other refusal exists. *)
Theorem authenticate_refusal_uniform :
  forall (connected : bool) (users : list (string * user)) (data : value),
    let refused : result (response identity) :=
      Ok (Failure 401 "Invalid username or password.") in
    (connected = false ->
     authenticate connected users data
       = Ok (Failure 503 "Database connection failed.")) /\
    (connected = true ->
     ((forall d, data <> VDict d) ->
      authenticate connected users data = Raise AttributeError) /\
     (forall d username,
         data = VDict d ->
         username = match assoc "username" d with
                    | Some v => v
                    | None => VNone
                    end ->
         ((exists l, username = VList l) \/ (exists o, username = VDict o) ->
          authenticate connected users data = Raise TypeError) /\
         ((forall uname, username = VStr uname -> assoc uname users = None) ->
          (forall l, username <> VList l) -> (forall o, username <> VDict o) ->
          authenticate connected users data = refused) /\
         (forall uname u,
             username = VStr uname -> assoc uname users = Some u ->
             assoc "password" d <> Some (VStr (u_password u)) ->
             authenticate connected users data = refused))) /\
    (forall code msg,
        authenticate connected users data = Ok (Failure code msg) ->
        (connected = false /\ code = 503 /\
         msg = "Database connection failed.") \/
        (connected = true /\ code = 401 /\
         msg = "Invalid username or password.")) /\
    (http_status (authenticate connected users data) = 500 <->
     connected = true /\
     ((forall d, data <> VDict d) \/
      exists d, data = VDict d /\
        ((exists l, assoc "username" d = Some (VList l)) \/
         (exists o, assoc "username" d = Some (VDict o))))).
Proof.
  intros connected users data refused. subst refused.
  split; [intros ->; reflexivity|]. split; [|split].
  - intros ->. unfold authenticate. cbn [negb]. split.
    + intros Hnot. destruct data as [| | | | |d]; try reflexivity.
      now destruct (Hnot d).
    + intros d username -> ->. cbn [dict_get]. run_bind.
      destruct (assoc "username" d) as [username|]; cbn [users_get];
        (split; [|split]).
      * intros [[l ->]|[o ->]]; reflexivity.
      * intros Hunknown Hl Ho.
        destruct username as [| | |uname|l|o]; cbn [users_get]; run_bind;
          try reflexivity.
        -- now rewrite (Hunknown uname eq_refl).
        -- now destruct (Hl l).
        -- now destruct (Ho o).
      * intros uname u -> Hfound Hpw. cbn [users_get]. run_bind.
        rewrite Hfound.
        destruct (value_eqb (VStr (u_password u)) _) eqn:Heq; [|reflexivity].
        exfalso. apply Hpw. apply value_eqb_VStr_l in Heq.
        now apply default_is_VStr in Heq.
      * intros [[l H]|[o H]]; discriminate H.
      * intros _ _ _. reflexivity.
      * intros uname u H. discriminate H.
  - intros code msg. unfold authenticate.
    destruct connected; cbn [negb]; [|intros [= <- <-]; now left].
    destruct (dict_get data "username" VNone) as [username|];
      run_bind; [|discriminate].
    destruct (dict_get data "password" VNone) as [password|];
      run_bind; [|discriminate].
    destruct (users_get users username) as [[u|]|]; run_bind; try discriminate.
    + destruct (value_eqb _ _); [discriminate|]. intros [= <- <-]. now right.
    + intros [= <- <-]. now right.
  - unfold authenticate.
    destruct connected; cbn [negb];
      [|split; [discriminate|intros [H _]; discriminate H]].
    destruct data as [| | | | |d]; cbn [dict_get]; run_bind;
      try (split; [intros _; split; [reflexivity|left; discriminate]
                  |reflexivity]).
    assert (Hno : http_status
                    (Ok (Failure 401 "Invalid username or password.")
                     : result (response identity)) = 500 -> False)
      by discriminate.
    destruct (assoc "username" d) as [[| | |uname|l|o]|] eqn:Hu;
      cbn [users_get]; run_bind;
      try (split;
           [intros H; now destruct (Hno H)
           |intros (_ & [H|(d' & [= <-] & [[l' H]|[o' H]])]);
            [now destruct (H d)|congruence|congruence]]).
    + destruct (assoc uname users) as [u|];
        [destruct (value_eqb (VStr (u_password u)) _)|];
        (split;
         [discriminate
         |intros (_ & [H|(d' & [= <-] & [[l' H]|[o' H]])]);
          [now destruct (H d)|congruence|congruence]]).
    + split; [|reflexivity]. intros _. split; [reflexivity|].
      right. exists d. split; [reflexivity|]. left. now exists l.
    + split; [|reflexivity]. intros _. split; [reflexivity|].
      right. exists d. split; [reflexivity|]. right. now exists o.
Qed.

(** A wrong password, an unknown user, a body that is a list and a store
    out of reach. *)
Lemma authenticate_refusal_uniform_witness :
  authenticate true MOCK_USERS
    (VDict [("username", VStr "Leni"); ("password", VStr "124")])
  = Ok (Failure 401 "Invalid username or password.") /\
  authenticate true MOCK_USERS
    (VDict [("username", VStr "leni"); ("password", VStr "123")])
  = Ok (Failure 401 "Invalid username or password.") /\
  (authenticate true MOCK_USERS (VList [VStr "Leni"; VStr "123"])
   = Raise AttributeError /\
   http_status (authenticate true MOCK_USERS (VList [VStr "Leni"; VStr "123"]))
   = 500) /\
  authenticate false MOCK_USERS
    (VDict [("username", VStr "Leni"); ("password", VStr "123")])
  = Ok (Failure 503 "Database connection failed.").
Proof.
  split; [|split; [|split]].
  - destruct (authenticate_refusal_uniform true MOCK_USERS
                (VDict [("username", VStr "Leni"); ("password", VStr "124")]))
      as (_ & Hreach & _).
    destruct (Hreach eq_refl) as [_ Hobject].
    destruct (Hobject [("username", VStr "Leni"); ("password", VStr "124")]
                (VStr "Leni") eq_refl eq_refl) as (_ & _ & Hwrong).
    apply (Hwrong "Leni" (mk_user "MCA-428" "Leni E" "student" "123"));
      [reflexivity|reflexivity|discriminate].
  - destruct (authenticate_refusal_uniform true MOCK_USERS
                (VDict [("username", VStr "leni"); ("password", VStr "123")]))
      as (_ & Hreach & _).
    destruct (Hreach eq_refl) as [_ Hobject].
    destruct (Hobject [("username", VStr "leni"); ("password", VStr "123")]
                (VStr "leni") eq_refl eq_refl) as (_ & Hunknown & _).
    apply Hunknown; [|discriminate|discriminate].
    intros uname [= <-]. reflexivity.
  - destruct (authenticate_refusal_uniform true MOCK_USERS
                (VList [VStr "Leni"; VStr "123"])) as (_ & Hreach & _ & H500).
    destruct (Hreach eq_refl) as [Hbody _].
    split; [apply Hbody; discriminate|].
    apply H500. split; [reflexivity|]. left. discriminate.
  - destruct (authenticate_refusal_uniform false MOCK_USERS
                (VDict [("username", VStr "Leni"); ("password", VStr "123")]))
      as (Hlost & _).
    apply Hlost. reflexivity.
Defined.

(* ===================================================================== *)
(** ** The status of a row, read back *)
(* ===================================================================== *)

(** The five ways through the chain of tests. *)
Lemma determine_status_cases cs tab ts th :
  (cs = "logged_out" /\
   determine_status cs tab ts th = ("Logged Out", "N/A")) \/
  (cs <> "logged_out" /\ datetime_ltb ts th = true /\
   determine_status cs tab ts th = ("Offline (Inactive)", "N/A")) \/
  (cs = "active" /\ datetime_ltb ts th = false /\
   determine_status cs tab ts th =
     ("Active", if truthy tab then "Focused" else "Blurred")) \/
  (cs = "idle" /\ datetime_ltb ts th = false /\
   determine_status cs tab ts th =
     ("Idle", if truthy tab then "Focused" else "Blurred")) \/
  (cs <> "logged_out" /\ cs <> "active" /\ cs <> "idle" /\
   datetime_ltb ts th = false /\
   determine_status cs tab ts th =
     ("Unknown (" +:+ PyStr.title cs +:+ ")", "N/A")).
Proof.
  destruct (String.eqb_spec cs "logged_out") as [->|H1]; [now left|].
  destruct (datetime_ltb ts th) eqn:Hlt.
  - right; left. repeat split; try assumption.
    now apply determine_status_stale.
  - destruct (String.eqb_spec cs "active") as [->|H2].
    + right; right; left. repeat split. now apply determine_status_active.
    + destruct (String.eqb_spec cs "idle") as [->|H3].
      * right; right; right; left. repeat split.
        now apply determine_status_idle.
      * right; right; right; right. repeat split; try assumption.
        now apply determine_status_unknown.
Qed.

(** The text of an unrecognized status is none of the other texts. *)
Lemma unknown_status_distinct x s :
  In s ["Logged Out"; "Offline (Inactive)"; "Active"; "Idle";
        "Never Logged In"] ->
  "Unknown (" +:+ x +:+ ")" <> s.
Proof.
  intros Hin Heq. apply (f_equal (String.get 0)) in Heq.
  destruct Hin as [<-|[<-|[<-|[<-|[<-|[]]]]]]; vm_compute in Heq;
    discriminate Heq.
Qed.

(** The row of an event, once the metadata has been read. *)
Lemma student_row_dict_Ok th uid name ev d raw r :
  metadata ev = VDict d ->
  match assoc "client_status" d with Some v => v | None => VStr "N/A" end
    = VStr raw ->
  student_row th uid name (Some ev) = Ok r ->
  (status r, focus r) =
    determine_status (PyStr.lower raw)
      (match assoc "tab_focused" d with Some v => v | None => VBool false end)
      (server_timestamp ev) th.
Proof.
  intros Hm Hraw. rewrite (student_row_dict th uid name ev d Hm raw Hraw).
  destruct (determine_status _ _ _ _) as [st fo].
  destruct (datetime_add (server_timestamp ev) IST_OFFSET);
    run_bind; [|discriminate].
  now intros [= <-].
Qed.

(** X3.  For an event with a timestamp of the calendar, each fixed status
    of the row says exactly one thing: "Logged Out" that the
    [client_status] is a spelling of "logged_out"; "Offline (Inactive)"
    that it is not and the event lies more than five minutes before the
    clock reading; "Active" and "Idle" that the [client_status] is a
    spelling of that word and the event is at most five minutes old. *)
Theorem status_characterised :
  forall (now timeout_threshold : datetime) (uid name : string) (ev : event)
         (d : list (string * value)) (raw : string) (r : row),
    valid (server_timestamp ev) ->
    datetime_sub now (timedelta_new 0 0 0 ACTIVITY_TIMEOUT_MINUTES 0)
      = Ok timeout_threshold ->
    metadata ev = VDict d ->
    match assoc "client_status" d with Some v => v | None => VStr "N/A" end
      = VStr raw ->
    student_row timeout_threshold uid name (Some ev) = Ok r ->
    let stale :=
      total_micros (server_timestamp ev)
        < total_micros now - ACTIVITY_TIMEOUT_MINUTES * 60 * 1000000 in
    (status r = "Logged Out" <-> PyStr.lower raw = "logged_out") /\
    (status r = "Offline (Inactive)" <->
       PyStr.lower raw <> "logged_out" /\ stale) /\
    (status r = "Active" <-> PyStr.lower raw = "active" /\ ~ stale) /\
    (status r = "Idle" <-> PyStr.lower raw = "idle" /\ ~ stale).
Proof.
  intros now th uid name ev d raw r Hvalid Hth Hm Hraw Hrow stale.
  pose proof (student_row_dict_Ok _ _ _ _ _ _ _ Hm Hraw Hrow) as Hst.
  pose proof (stale_iff_elapsed now th _ Hvalid Hth) as Hstale.
  fold stale in Hstale. clearbody stale.
  clear Hvalid Hth Hrow Hm Hraw.
  pose proof (unknown_status_distinct (PyStr.title (PyStr.lower raw))) as Hne.
  destruct (determine_status_cases (PyStr.lower raw)
              (match assoc "tab_focused" d with
               | Some v => v
               | None => VBool false
               end) (server_timestamp ev) th)
    as [(Hcs & Hd) | [(Hcs & Hlt & Hd) | [(Hcs & Hlt & Hd) |
        [(Hcs & Hlt & Hd) | (H1 & H2 & H3 & Hlt & Hd)]]]];
    rewrite Hd in Hst; injection Hst as Hst _; rewrite Hst;
    try (assert (Hs : stale) by (now apply Hstale));
    try (assert (Hs : ~ stale)
           by (intros Hs; apply Hstale in Hs; congruence));
    repeat split; intros;
    repeat match goal with H : _ /\ _ |- _ => destruct H end;
    try discriminate; try congruence; try tauto;
    try (exfalso; eapply Hne; [|eassumption]; cbn [In]; tauto).
Qed.

Lemma status_characterised_witness :
  (status
     {| row_id := "MCA-428"; row_name := "Leni E"; status := "Active";
        focus := "Focused"; last_event := VStr "heartbeat";
        timestamp := "2024-01-01T17:25:00" |} = "Active" <->
   PyStr.lower "ACTIVE" = "active" /\
   ~ total_micros (mk_datetime 2024 1 1 11 55 0 0)
       < total_micros noon - ACTIVITY_TIMEOUT_MINUTES * 60 * 1000000).
Proof.
  apply (status_characterised noon noon_threshold "MCA-428" "Leni E"
           (heartbeat "MCA-428" "ACTIVE" true (mk_datetime 2024 1 1 11 55 0 0))
           [("client_status", VStr "ACTIVE"); ("tab_focused", VBool true)]
           "ACTIVE"
           {| row_id := "MCA-428"; row_name := "Leni E"; status := "Active";
              focus := "Focused"; last_event := VStr "heartbeat";
              timestamp := "2024-01-01T17:25:00" |}).
  - repeat split; vm_compute; (reflexivity || discriminate).
  - vm_compute; reflexivity.
  - reflexivity.
  - reflexivity.
  - vm_compute; reflexivity.
Defined.

(** X4.  A row reports a focus only with the status "Active" or "Idle":
    every other row, with or without an event, has the focus "N/A",
    whatever [tab_focused] says. *)
Theorem focus_only_when_active_or_idle :
  forall (timeout_threshold : datetime) (uid name : string)
         (latest : option event) (r : row),
    student_row timeout_threshold uid name latest = Ok r ->
    focus r = "N/A" \/
    ((status r = "Active" \/ status r = "Idle") /\
     (focus r = "Focused" \/ focus r = "Blurred")).
Proof.
  intros th uid name [ev|] r; [|intros [= <-]; now left].
  unfold student_row.
  destruct (dict_get (metadata ev) "client_status" (VStr "N/A")) as [cs|];
    run_bind; [|discriminate].
  destruct (str_lower cs) as [client_status|]; run_bind; [|discriminate].
  destruct (dict_get (metadata ev) "tab_focused" (VBool false)) as [tab|];
    run_bind; [|discriminate].
  destruct (determine_status_cases client_status tab (server_timestamp ev) th)
    as [(_ & Hd) | [(_ & _ & Hd) | [(_ & _ & Hd) |
        [(_ & _ & Hd) | (_ & _ & _ & _ & Hd)]]]];
    rewrite Hd;
    (destruct (datetime_add (server_timestamp ev) IST_OFFSET);
     run_bind; [|discriminate]);
    intros [= <-]; cbn [status focus];
    try (now left);
    right; (split; [tauto|]); destruct (truthy tab); tauto.
Qed.

Lemma focus_only_when_active_or_idle_witness :
  "N/A" = "N/A" \/
  (("Offline (Inactive)" = "Active" \/ "Offline (Inactive)" = "Idle") /\
   ("N/A" = "Focused" \/ "N/A" = "Blurred")).
Proof.
  apply (focus_only_when_active_or_idle noon_threshold "MCA-428" "Leni E"
           (Some (heartbeat "MCA-428" "active" true
                    (mk_datetime 2024 1 1 11 54 0 0)))
           {| row_id := "MCA-428"; row_name := "Leni E";
              status := "Offline (Inactive)"; focus := "N/A";
              last_event := VStr "heartbeat";
              timestamp := "2024-01-01T17:24:00" |}).
  vm_compute; reflexivity.
Defined.

Lemma determine_status_truthy cs tab1 tab2 ts th :
  truthy tab1 = truthy tab2 ->
  determine_status cs tab1 ts th = determine_status cs tab2 ts th.
Proof. intros H. unfold determine_status. now rewrite H. Qed.

(** X5.  The row of an event depends on its metadata only through the
    lowercased [client_status] and the truth value of [tab_focused]: two
    events that agree on these, on [event_type] and on [server_timestamp]
    give the same row, whatever the case of the status, the
    [client_timestamp] and the other keys of the metadata. *)
Theorem row_reads_status_and_focus_only :
  forall (timeout_threshold : datetime) (uid name : string) (ev1 ev2 : event)
         (d1 d2 : list (string * value)) (raw1 raw2 : string),
    metadata ev1 = VDict d1 ->
    metadata ev2 = VDict d2 ->
    match assoc "client_status" d1 with Some v => v | None => VStr "N/A" end
      = VStr raw1 ->
    match assoc "client_status" d2 with Some v => v | None => VStr "N/A" end
      = VStr raw2 ->
    PyStr.lower raw1 = PyStr.lower raw2 ->
    truthy (match assoc "tab_focused" d1 with
            | Some v => v | None => VBool false end) =
    truthy (match assoc "tab_focused" d2 with
            | Some v => v | None => VBool false end) ->
    event_type ev1 = event_type ev2 ->
    server_timestamp ev1 = server_timestamp ev2 ->
    student_row timeout_threshold uid name (Some ev1) =
    student_row timeout_threshold uid name (Some ev2).
Proof.
  intros th uid name ev1 ev2 d1 d2 raw1 raw2 Hm1 Hm2 Hr1 Hr2 Hlow Htab Ht Hts.
  rewrite (student_row_dict th uid name ev1 d1 Hm1 raw1 Hr1).
  rewrite (student_row_dict th uid name ev2 d2 Hm2 raw2 Hr2).
  rewrite Hlow, Ht, Hts. now rewrite (determine_status_truthy _ _ _ _ _ Htab).
Qed.

Lemma row_reads_status_and_focus_only_witness :
  student_row noon_threshold "MCA-428" "Leni E"
    (Some (heartbeat "MCA-428" "IDLE" true (mk_datetime 2024 1 1 11 58 0 0)))
  = student_row noon_threshold "MCA-428" "Leni E"
      (Some {| _id := ObjectId "65920000a1b2c3d4e5f6071d";
               user_id := VStr "MCA-428";
               event_type := VStr "heartbeat";
               metadata :=
                 VDict [("client_timestamp", VStr "1999-01-01T00:00:00");
                        ("tab_focused", VStr "yes");
                        ("client_status", VStr "Idle")];
               server_timestamp := mk_datetime 2024 1 1 11 58 0 0 |}).
Proof.
  apply (row_reads_status_and_focus_only noon_threshold "MCA-428" "Leni E"
           (heartbeat "MCA-428" "IDLE" true (mk_datetime 2024 1 1 11 58 0 0))
           _
           [("client_status", VStr "IDLE"); ("tab_focused", VBool true)]
           [("client_timestamp", VStr "1999-01-01T00:00:00");
            ("tab_focused", VStr "yes");
            ("client_status", VStr "Idle")]
           "IDLE" "Idle");
    reflexivity.
Defined.

(* ===================================================================== *)
(** ** Ingestion *)
(* ===================================================================== *)


(** A logout request with a [user_id] that counts as true and can be
    encoded is stored when the write is acknowledged. *)
Lemma logout_attendance_Success d client_now server_now oid ack events msg
    stored :
  logout_attendance true (VDict d) client_now server_now oid ack events
    = (Success msg, stored) <->
  exists uid,
    assoc "user_id" d = Some uid /\ truthy uid = true /\
    bson_encodable uid = true /\ id_taken (ObjectId oid) events = false /\
    ack = true /\ msg = "Logout event recorded." /\
    stored = events ++
             [mk_event (ObjectId oid) uid (VStr "logout")
                (logout_metadata client_now) (bson_datetime server_now)].
Proof.
  unfold logout_attendance. cbv zeta. cbn [negb dict_get].
  split.
  - destruct (assoc "user_id" d) as [uid|];
      [|cbn [truthy negb]; discriminate].
    destruct (truthy uid) eqn:Htruthy; cbn [negb]; [|discriminate].
    destruct (insert_one _ _ _ _) as [stored'|] eqn:Hins; [|discriminate].
    intros [= <- <-].
    apply insert_one_Some in Hins as (Henc & _ & Hfree & -> & ->).
    exists uid. repeat split; try assumption.
    cbn [bson_encodable forallb fst snd] in Henc.
    now destruct (bson_encodable uid).
  - intros (uid & -> & Htruthy & Henc & Hfree & -> & -> & ->).
    rewrite Htruthy. cbn [negb].
    rewrite (proj2 (insert_one_Some true _ _ events
                      (events ++
                       [mk_event (ObjectId oid) uid (VStr "logout")
                          (logout_metadata client_now)
                          (bson_datetime server_now)])));
      [reflexivity|].
    repeat split; try assumption.
    cbn [bson_encodable forallb fst snd]. rewrite Henc. reflexivity.
Qed.

(** X7.  [logout_attendance] answers success exactly when the store is
    reachable, the body is an object whose [user_id] counts as true and
    can be encoded, the new [ObjectId] is free and the write is
    acknowledged: the collection then holds one more document, of type
    "logout", with the status "logged_out", [tab_focused] false and the
    server's clock reading.  Every other answer is 400, 500 or 503 and
    leaves the collection as it was: 503 exactly when the store is out of
    reach, and 400 exactly when the store is reachable and the body is an
    object whose [user_id] is missing or counts as false ([None], [False],
    0, an empty string, list or object). *)
Theorem logout_attendance_stores_iff :
  forall (connected : bool) (data : value) (client_now server_now : datetime)
         (oid : string) (acknowledged : bool) (events : list event),
    (forall msg stored,
        logout_attendance connected data client_now server_now oid
          acknowledged events = (Success msg, stored) <->
        connected = true /\
        exists d uid,
          data = VDict d /\ assoc "user_id" d = Some uid /\
          truthy uid = true /\ bson_encodable uid = true /\
          id_taken (ObjectId oid) events = false /\
          acknowledged = true /\
          msg = "Logout event recorded." /\
          stored = events ++
                   [mk_event (ObjectId oid) uid (VStr "logout")
                      (VDict [("client_status", VStr "logged_out");
                              ("tab_focused", VBool false);
                              ("client_timestamp",
                               VStr (isoformat client_now))])
                      (bson_datetime server_now)]) /\
    (forall code msg stored,
        logout_attendance connected data client_now server_now oid
          acknowledged events = (Failure code msg, stored) ->
        stored = events /\
        (code = 400 \/ code = 500 \/ code = 503) /\
        (code = 503 <-> connected = false) /\
        (code = 400 <->
         connected = true /\
         exists d, data = VDict d /\
           (assoc "user_id" d = None \/
            exists uid, assoc "user_id" d = Some uid /\
              (uid = VNone \/ uid = VBool false \/ uid = VInt 0 \/
               uid = VStr "" \/ uid = VList [] \/ uid = VDict [])))).
Proof.
  intros connected data client_now server_now oid ack events. split.
  - intros msg stored. split.
    + destruct connected; [|discriminate].
      destruct data as [| | | | |d]; try discriminate.
      intros H. apply logout_attendance_Success in H
        as (uid & Hu & Htruthy & Henc & Hfree & -> & -> & ->).
      split; [reflexivity|]. exists d, uid. repeat split; assumption.
    + intros (-> & d & uid & -> & Hu & Htruthy & Henc & Hfree & -> & -> & ->).
      apply logout_attendance_Success. exists uid. repeat split; assumption.
  - intros code msg stored. unfold logout_attendance. cbv zeta.
    destruct connected; cbn [negb].
    + destruct data as [| | | | |d]; cbn [dict_get];
        try (intros [= <- <- <-]; split; [reflexivity|]; split; [tauto|];
             split; [split; discriminate|]; split; [discriminate|];
             intros (_ & d' & Hd & _); discriminate Hd).
      destruct (assoc "user_id" d) as [uid|] eqn:Hu.
      * destruct (truthy uid) eqn:Htruthy; cbn [negb].
        -- destruct (insert_one _ _ _ _); [discriminate|].
           intros [= <- <- <-]. split; [reflexivity|]. split; [tauto|].
           split; [split; discriminate|]. split; [discriminate|].
           intros (_ & d' & [= <-] & [H|(uid' & Hu' & Hfalse)]);
             [congruence|].
           assert (uid' = uid) as -> by congruence.
           destruct Hfalse as [->|[->|[->|[->|[->| ->]]]]];
             discriminate Htruthy.
        -- intros [= <- <- <-]. split; [reflexivity|]. split; [tauto|].
           split; [split; discriminate|]. split; [|reflexivity].
           intros _. split; [reflexivity|]. exists d. split; [reflexivity|].
           right. exists uid. split; [exact Hu|]. clear Hu.
           destruct uid as [|b|n|s|l|o]; cbn [truthy] in Htruthy.
           ++ tauto.
           ++ subst b. tauto.
           ++ apply Bool.negb_false_iff, Z.eqb_eq in Htruthy. subst n. tauto.
           ++ apply Bool.negb_false_iff, String.eqb_eq in Htruthy. subst s.
              tauto.
           ++ destruct l; [tauto|discriminate].
           ++ destruct o; [tauto|discriminate].
      * cbn [truthy negb]. intros [= <- <- <-].
        split; [reflexivity|]. split; [tauto|].
        split; [split; discriminate|]. split; [|reflexivity].
        intros _. split; [reflexivity|]. exists d. split; [reflexivity|].
        left. exact Hu.
    + intros [= <- <- <-]. split; [reflexivity|]. split; [tauto|].
      split; [tauto|]. split; [discriminate|]. intros [H _]. discriminate H.
Qed.

(* ===================================================================== *)
(** ** The report and the other handlers *)
(* ===================================================================== *)

Lemma for_each_map {A B} (f : A -> result B) (g : A -> B) xs :
  (forall x, In x xs -> f x = Ok (g x)) -> for_each f xs = Ok (map g xs).
Proof.
  induction xs as [|x xs IH]; intros H; cbn [for_each map]; [reflexivity|].
  rewrite (H x (or_introl eq_refl)). run_bind.
  rewrite IH by (intros; apply H; now right). run_bind. reflexivity.
Qed.

(** The row of an event never has the status of a student without
    events. *)
Lemma student_row_event_status th uid name ev r :
  student_row th uid name (Some ev) = Ok r ->
  status r <> "Never Logged In" /\ last_event r = event_type ev.
Proof.
  unfold student_row.
  destruct (dict_get (metadata ev) "client_status" (VStr "N/A")) as [cs|];
    run_bind; [|discriminate].
  destruct (str_lower cs) as [client_status|]; run_bind; [|discriminate].
  destruct (dict_get (metadata ev) "tab_focused" (VBool false)) as [tab|];
    run_bind; [|discriminate].
  pose proof (unknown_status_distinct (PyStr.title client_status)
                "Never Logged In") as Hne.
  destruct (determine_status_cases client_status tab (server_timestamp ev) th)
    as [(_ & Hd) | [(_ & _ & Hd) | [(_ & _ & Hd) |
        [(_ & _ & Hd) | (_ & _ & _ & _ & Hd)]]]];
    rewrite Hd;
    (destruct (datetime_add (server_timestamp ev) IST_OFFSET);
     run_bind; [|discriminate]);
    intros [= <-]; cbn [status last_event]; (split; [|reflexivity]);
    first [discriminate | apply Hne; cbn [In]; tauto].
Qed.

Section ReportAndHandlers.

Variable mongo_sort : list event -> list event.
Hypothesis mongo_sort_perm : forall l, Permutation (mongo_sort l) l.
Hypothesis mongo_sort_sorted : forall l, Sorted newest_first (mongo_sort l).

Lemma mongo_sort_nil : mongo_sort [] = [].
Proof. apply Permutation_nil. symmetry. apply mongo_sort_perm. Qed.

(** X8.  After [clear_all_events] the collection is empty and the answer
    counts the documents it held; the report that follows lists every
    student of the table as "Never Logged In", and a second clearing
    counts 0. *)
Theorem report_after_clear :
  forall (users : list (string * user)) (events : list event)
         (now timeout_threshold : datetime),
    datetime_sub now (timedelta_new 0 0 0 ACTIVITY_TIMEOUT_MINUTES 0)
      = Ok timeout_threshold ->
    let cleared := clear_all_events true events in
    fst cleared =
      Success ("Cleared " +:+ str_of_count (length events)
               +:+ " attendance records.") /\
    snd cleared = [] /\
    fst (clear_all_events true (snd cleared)) =
      Success "Cleared 0 attendance records." /\
    get_student_data mongo_sort true users (snd cleared) now =
      Success
        (map (fun item : string * string =>
                {| row_id := fst item; row_name := snd item;
                   status := "Never Logged In"; focus := "N/A";
                   last_event := VStr "None"; timestamp := "N/A" |})
             (all_students users)).
Proof.
  intros users events now th Hth cleared. subst cleared.
  unfold clear_all_events. cbn [negb fst snd length].
  split; [reflexivity|]. split; [reflexivity|]. split; [reflexivity|].
  unfold get_student_data, build_report, aggregate. cbn [negb List.filter].
  cbv zeta. rewrite mongo_sort_nil. cbn [group_first latest_events_map].
  run_bind. rewrite Hth. run_bind.
  rewrite (for_each_map _
             (fun item : string * string =>
                {| row_id := fst item; row_name := snd item;
                   status := "Never Logged In"; focus := "N/A";
                   last_event := VStr "None"; timestamp := "N/A" |}));
    [reflexivity|].
  intros [uid name] _. now rewrite lookup_empty.
Qed.

(** X9.  In a report, a row has the status "Never Logged In" exactly when
    the collection holds no event of that student. *)
Theorem never_logged_in_iff_no_event :
  forall (connected : bool) (users : list (string * user))
         (events : list event) (now : datetime) (rows : list row) (r : row),
    get_student_data mongo_sort connected users events now = Success rows ->
    In r rows ->
    (status r = "Never Logged In" <->
     forall e, In e events -> user_id e <> VStr (row_id r)).
Proof.
  intros connected users events now rows r Hok Hin.
  destruct (report_row_latest mongo_sort mongo_sort_perm mongo_sort_sorted
              _ _ _ _ _ _ Hok Hin)
    as (th & _ & [[Hnone Hrow] | (e & He & Hu & _ & Hrow)]).
  - injection Hrow as <-. cbn [status row_id] in *. split; auto.
  - apply student_row_event_status in Hrow as [Hne _]. split.
    + intros Hs. contradiction.
    + intros Hnone. exfalso. now apply (Hnone e He).
Qed.

Lemma sorted_In users events e :
  In e (mongo_sort
          (List.filter
             (fun e => match_in (map fst (all_students users)) (user_id e))
             events)) <->
  In e events /\ match_in (map fst (all_students users)) (user_id e) = true.
Proof. apply sorted_docs_In. exact mongo_sort_perm. Qed.

(** An event with metadata that cannot be read gives no row. *)
Lemma student_row_unreadable th uid name ev :
  (forall d, metadata ev <> VDict d) \/
  (exists d v, metadata ev = VDict d /\ assoc "client_status" d = Some v /\
               forall s, v <> VStr s) ->
  student_row th uid name (Some ev) = Raise AttributeError.
Proof.
  intros [Hm | (d & v & Hm & Hv & Hs)]; unfold student_row.
  - destruct (metadata ev) as [| | | | |d]; try reflexivity.
    now destruct (Hm d).
  - rewrite Hm. cbn [dict_get]. run_bind. rewrite Hv.
    destruct v as [| | |s| |]; try reflexivity. now destruct (Hs s).
Qed.

(** X10.  The report is all or nothing.  When the latest event of one
    student of the table has metadata that is not an object, or a
    [client_status] that is not a string, the handler answers 500 and
    gives no row for any student. *)
Theorem unreadable_latest_event_fails_report :
  forall (users : list (string * user)) (events : list event)
         (now : datetime) (e : event) (uid : string),
    In uid (map fst (all_students users)) ->
    In e events ->
    user_id e = VStr uid ->
    (forall e', In e' events -> user_id e' = VStr uid ->
                e' = e \/
                datetime_ltb (server_timestamp e') (server_timestamp e) = true) ->
    (forall d, metadata e <> VDict d) \/
    (exists d v, metadata e = VDict d /\ assoc "client_status" d = Some v /\
                 forall s, v <> VStr s) ->
    get_student_data mongo_sort true users events now =
      Failure 500 "Failed to retrieve student data.".
Proof.
  intros users events now e uid Huid He Hu Hlatest Hbad.
  unfold get_student_data. cbn [negb].
  destruct (build_report mongo_sort users events now) as [rows|] eqn:Hrep;
    [|reflexivity].
  exfalso. apply build_report_Ok in Hrep as (th & _ & Hrows).
  apply in_map_iff in Huid as ([uid' name] & Hfst & Hitem).
  cbn [fst] in Hfst. subst uid'.
  destruct (Forall2_In_l _ _ _ _ Hrows Hitem) as (r & _ & Hr).
  cbn [fst snd] in Hr.
  assert (Hin : In e (mongo_sort
                        (List.filter
                           (fun e => match_in (map fst (all_students users))
                                              (user_id e)) events))).
  { apply sorted_In. split; [assumption|]. rewrite Hu.
    apply match_in_student. apply in_map_iff. now exists (uid, name). }
  destruct (first_of uid _) as [e0|] eqn:Hfirst.
  - destruct (first_of_Some _ _ _ Hfirst) as [Hin0 Hu0].
    pose proof (first_of_newest uid _ e0
                  (Sorted_StronglySorted newest_first_trans
                     (mongo_sort_sorted _)) Hfirst e Hin Hu) as Hnew.
    apply sorted_In in Hin0 as [Hin0 _].
    destruct (Hlatest e0 Hin0 Hu0) as [-> | Hlt].
    + rewrite (student_row_unreadable th uid name e Hbad) in Hr.
      discriminate Hr.
    + unfold newest_first in Hnew. congruence.
  - now apply (first_of_None _ _ e Hfirst Hin).
Qed.

Lemma value_eqb_VList_l l v :
  value_eqb (VList l) v = true -> exists l', v = VList l'.
Proof. destruct v; try discriminate. eauto. Qed.

(** The loop over the groups fails when a document has an array as
    [user_id]. *)
Lemma latest_events_map_unhashable docs : forall seen acc e l,
  (forall v, In v seen -> forall l', v <> VList l') ->
  In e docs -> user_id e = VList l ->
  latest_events_map (group_first seen docs) acc = Raise TypeError.
Proof.
  induction docs as [|d docs IH]; intros seen acc e l Hseen Hin Hu;
    [destruct Hin|].
  cbn [group_first].
  destruct (existsb (value_eqb (user_id d)) seen) eqn:Hex.
  - destruct Hin as [<-|Hin]; [|now apply (IH seen acc e l)].
    exfalso. apply existsb_exists in Hex as (v & Hv & Heq).
    rewrite Hu in Heq. apply value_eqb_VList_l in Heq as [l' ->].
    now apply (Hseen _ Hv l').
  - cbn [latest_events_map].
    destruct (user_id d) as [| | |s| |] eqn:Hd; try reflexivity;
      (destruct Hin as [<-|Hin]; [congruence|]);
      apply (IH _ _ e l); try assumption;
      intros v [<-|Hv] l'; try discriminate; now apply Hseen.
Qed.

(** X11.  One stored document whose [user_id] is an array that holds the
    id of a student of the table makes the report fail: the handler
    answers 500 for as long as the document is in the collection. *)
Theorem array_user_id_fails_report :
  forall (users : list (string * user)) (events : list event)
         (now : datetime) (e : event) (l : list value) (uid : string),
    In e events ->
    user_id e = VList l ->
    In (VStr uid) l ->
    In uid (map fst (all_students users)) ->
    get_student_data mongo_sort true users events now =
      Failure 500 "Failed to retrieve student data.".
Proof.
  intros users events now e l uid He Hu Hl Huid.
  unfold get_student_data, build_report, aggregate. cbn [negb]. cbv zeta.
  rewrite (latest_events_map_unhashable _ [] ∅ e l);
    [reflexivity| intros v [] |  | exact Hu].
  apply sorted_In. split; [assumption|]. rewrite Hu. cbn [match_in].
  apply existsb_exists. exists (VStr uid). split; [assumption|].
  cbn [is_student_id]. apply existsb_exists. exists uid.
  split; [assumption|apply String.eqb_refl].
Qed.

(** X12.  Events of users that are not students of the table do not show
    in the report: with or without such an event in the collection, the
    handler gives the same answer. *)
Theorem other_users_events_ignored :
  forall (connected : bool) (users : list (string * user))
         (before after : list event) (e : event) (uid : string)
         (now : datetime),
    user_id e = VStr uid ->
    ~ In uid (map fst (all_students users)) ->
    get_student_data mongo_sort connected users (before ++ e :: after) now =
    get_student_data mongo_sort connected users (before ++ after) now.
Proof.
  intros connected users before after e uid now Hu Hnot.
  unfold get_student_data, build_report, aggregate. cbv zeta.
  rewrite !List.filter_app. cbn [List.filter]. rewrite Hu.
  replace (match_in (map fst (all_students users)) (VStr uid)) with false;
    [reflexivity|].
  symmetry. cbn [match_in is_student_id].
  destruct (existsb (String.eqb uid) (map fst (all_students users))) eqn:Hex;
    [|reflexivity].
  apply existsb_exists in Hex as (x & Hx & Heq).
  apply String.eqb_eq in Heq. now subst.
Qed.

(** X13.  A logout is final until the next event.  After
    [logout_attendance] has stored its document for a student, later than
    the student's other events, every report lists the student as "Logged
    Out" with focus "N/A" and last event "logout", whatever the clock
    reads when the report is built. *)
Theorem logged_out_after_logout :
  forall (connected : bool) (users : list (string * user))
         (events : list event) (d : list (string * value)) (uid : string)
         (client_now server_now : datetime) (oid : string)
         (acknowledged : bool) (msg : string) (stored : list event)
         (now : datetime) (rows : list row) (r : row),
    assoc "user_id" d = Some (VStr uid) ->
    logout_attendance true (VDict d) client_now server_now oid acknowledged
      events = (Success msg, stored) ->
    (forall e, In e events -> user_id e = VStr uid ->
               datetime_ltb (server_timestamp e) (bson_datetime server_now)
                 = true) ->
    get_student_data mongo_sort connected users stored now = Success rows ->
    In r rows ->
    row_id r = uid ->
    status r = "Logged Out" /\ focus r = "N/A" /\ last_event r = VStr "logout".
Proof.
  intros connected users events d uid client_now server_now oid ack msg stored
         now rows r Hu Hlogout Hold Hok Hin Hid.
  apply logout_attendance_Success in Hlogout
    as (uid' & Hu' & _ & _ & _ & _ & _ & ->).
  assert (uid' = VStr uid) as -> by congruence.
  set (out := mk_event (ObjectId oid) (VStr uid) (VStr "logout")
                (logout_metadata client_now)
                (bson_datetime server_now)) in *.
  assert (Hout : In out (events ++ [out]))
    by (apply in_or_app; right; now left).
  destruct (report_row_latest mongo_sort mongo_sort_perm mongo_sort_sorted
              _ _ _ _ _ _ Hok Hin)
    as (th & _ & [[Hnone _] | (e & He & Hue & Hmax & Hrow)]).
  - exfalso. apply (Hnone out Hout). now rewrite Hid.
  - rewrite Hid in *.
    assert (e = out) as ->.
    { apply in_app_or in He as [He | [<- | []]]; [|reflexivity].
      pose proof (Hmax out Hout eq_refl) as Hge.
      pose proof (Hold e He Hue) as Hlt.
      change (server_timestamp out) with (bson_datetime server_now) in Hge.
      congruence. }
    destruct (student_row_event_status _ _ _ _ _ Hrow) as [_ Hlast].
    pose proof (student_row_dict_Ok th uid (row_name r) out _ "logged_out" r
                  eq_refl eq_refl Hrow) as Hst.
    change (PyStr.lower "logged_out") with "logged_out" in Hst.
    unfold determine_status in Hst.
    change (String.eqb "logged_out" "logged_out") with true in Hst.
    cbv iota in Hst. injection Hst as Hstatus Hfocus.
    rewrite Hstatus, Hfocus, Hlast.
    split; [reflexivity|]. split; reflexivity.
Qed.

Lemma dict_set_assoc {V} k (v : V) d x :
  assoc x (dict_set k v d) = if String.eqb k x then Some v else assoc x d.
Proof.
  induction d as [|[k' v'] d IH]; cbn [dict_set assoc]; [reflexivity|].
  destruct (String.eqb_spec k' k) as [->|Hne]; cbn [assoc].
  - now destruct (String.eqb k x).
  - rewrite IH. destruct (String.eqb_spec k' x) as [->|Hx]; [|reflexivity].
    now rewrite (eqb_neq_false k x) by congruence.
Qed.

Lemma dict_set_keys {V} k (v : V) d x :
  In x (map fst (dict_set k v d)) <-> x = k \/ In x (map fst d).
Proof.
  induction d as [|[k' v'] d IH]; cbn [dict_set map fst In].
  - split; [intros [<-|[]]; now left | intros [->|[]]; now left].
  - destruct (String.eqb_spec k' k) as [->|Hne]; cbn [map fst In].
    + split; [intros [<-|H]; auto | intros [->|[<-|H]]; auto].
    + rewrite IH. split.
      * intros [<-|[->|H]]; auto.
      * intros [->|[<-|H]]; auto.
Qed.

Lemma dict_set_NoDup {V} k (v : V) d :
  List.NoDup (map fst d) -> List.NoDup (map fst (dict_set k v d)).
Proof.
  induction d as [|[k' v'] d IH]; cbn [dict_set map fst]; intros Hnd.
  - constructor; [intros []|constructor].
  - apply NoDup_cons_iff in Hnd as [Hk' Hnd].
    destruct (String.eqb_spec k' k) as [->|Hne]; cbn [map fst].
    + now constructor.
    + constructor; [|now apply IH].
      intros Hin. apply dict_set_keys in Hin as [->|Hin]; tauto.
Qed.

Lemma assoc_In {V} k (v : V) d :
  List.NoDup (map fst d) -> In (k, v) d -> assoc k d = Some v.
Proof.
  induction d as [|[k' v'] d IH]; cbn [map fst assoc]; intros Hnd Hin;
    [destruct Hin|].
  apply NoDup_cons_iff in Hnd as [Hk' Hnd].
  destruct Hin as [[= -> ->]|Hin]; [now rewrite String.eqb_refl|].
  destruct (String.eqb_spec k' k) as [->|Hne]; [|now apply IH].
  exfalso. apply Hk'. apply in_map_iff. now exists (k, v).
Qed.

(** The student table while it is being filled: [acc] is the table so
    far, [us] the entries still to come. *)
Lemma all_students_invariant us : forall acc,
  List.NoDup (map fst acc) ->
  let table :=
    fold_left
      (fun d user_data =>
         if String.eqb (u_role user_data) "student"
         then dict_set (u_id user_data) (u_name user_data) d
         else d)
      us acc in
  List.NoDup (map fst table) /\
  (forall x, In x (map fst table) <->
             In x (map fst acc) \/
             exists u, In u us /\ u_role u = "student" /\ u_id u = x) /\
  (forall x name,
      assoc x table = Some name ->
      (assoc x acc = Some name /\
       forall u, In u us -> u_role u = "student" -> u_id u <> x) \/
      exists before u after,
        us = before ++ u :: after /\ u_role u = "student" /\ u_id u = x /\
        u_name u = name /\
        forall u', In u' after -> u_role u' = "student" -> u_id u' <> x).
Proof.
  induction us as [|u us IH]; intros acc Hnd; cbn [fold_left].
  - split; [assumption|]. split.
    + intros x. split; [now left|]. intros [H|(u & [] & _)]. exact H.
    + intros x name Hx. left. split; [assumption|]. intros u [].
  - destruct (String.eqb_spec (u_role u) "student") as [Hrole|Hrole].
    + destruct (IH (dict_set (u_id u) (u_name u) acc)
                   (dict_set_NoDup _ _ _ Hnd)) as (Hnd' & Hkeys & Hlast).
      split; [assumption|]. split.
      * intros x. rewrite Hkeys, dict_set_keys. split.
        -- intros [[->|H]|(u' & Hu' & Hr' & Hx)]; auto.
           ++ right. exists u. repeat split; auto. now left.
           ++ right. exists u'. repeat split; auto. now right.
        -- intros [H|(u' & [<-|Hu'] & Hr' & Hx)]; auto.
           right. now exists u'.
      * intros x name Hx.
        destruct (Hlast x name Hx)
          as [[Hacc Hnone] | (before & u' & after & -> & Hr' & Hid & Hn & Haft)].
        -- rewrite dict_set_assoc in Hacc.
           destruct (String.eqb_spec (u_id u) x) as [Hux|Hux].
           ++ injection Hacc as <-. right. exists [], u, us.
              repeat split; auto.
           ++ left. split; [assumption|].
              intros u' [<-|Hu'] Hr'; auto.
        -- right. exists (u :: before), u', after. repeat split; auto.
    + destruct (IH acc Hnd) as (Hnd' & Hkeys & Hlast).
      split; [assumption|]. split.
      * intros x. rewrite Hkeys. split.
        -- intros [H|(u' & Hu' & Hr' & Hx)]; auto.
           right. exists u'. repeat split; auto. now right.
        -- intros [H|(u' & [<-|Hu'] & Hr' & Hx)]; auto; [contradiction|].
           right. now exists u'.
      * intros x name Hx.
        destruct (Hlast x name Hx)
          as [[Hacc Hnone] | (before & u' & after & -> & Hr' & Hid & Hn & Haft)].
        -- left. split; [assumption|].
           intros u' [<-|Hu'] Hr'; [contradiction|auto].
        -- right. exists (u :: before), u', after. repeat split; auto.
Qed.

Lemma report_rows_table connected users events now rows :
  get_student_data mongo_sort connected users events now = Success rows ->
  map (fun r => (row_id r, row_name r)) rows = all_students users.
Proof.
  intros Hok.
  apply get_student_data_Success, build_report_Ok in Hok as (th & _ & Hrows).
  induction Hrows as [|[uid name] r items rows Hr _ IH]; [reflexivity|].
  cbn [map fst snd] in *. apply student_row_ids in Hr as [-> ->].
  now rewrite IH.
Qed.

(** X14.  The rows of a report have distinct ids, one for each id that a
    student entry of the table carries.  When several student entries
    carry one id, the row has the name of the last of them. *)
Theorem one_row_per_distinct_student_id :
  forall (connected : bool) (users : list (string * user))
         (events : list event) (now : datetime) (rows : list row),
    get_student_data mongo_sort connected users events now = Success rows ->
    List.NoDup (map row_id rows) /\
    (forall uid,
        In uid (map row_id rows) <->
        exists u, In u (map snd users) /\ u_role u = "student" /\ u_id u = uid) /\
    (forall r,
        In r rows ->
        exists before u after,
          map snd users = before ++ u :: after /\
          u_role u = "student" /\ u_id u = row_id r /\ u_name u = row_name r /\
          forall u', In u' after -> u_role u' = "student" ->
                     u_id u' <> row_id r).
Proof.
  intros connected users events now rows Hok.
  apply report_rows_table in Hok.
  assert (Hids : map row_id rows = map fst (all_students users))
    by (rewrite <- Hok, map_map; reflexivity).
  destruct (all_students_invariant (map snd users) [] (List.NoDup_nil _))
    as (Hnd & Hkeys & Hlast).
  fold (all_students users) in Hnd, Hkeys, Hlast.
  split; [now rewrite Hids|]. split.
  - intros uid. rewrite Hids, Hkeys. split; [intros [[]|H]; exact H|auto].
  - intros r Hr.
    assert (Hin : In (row_id r, row_name r) (all_students users))
      by (rewrite <- Hok; apply in_map_iff; now exists r).
    destruct (Hlast _ _ (assoc_In _ _ _ Hnd Hin)) as [[Hacc _]|H];
      [discriminate Hacc|exact H].
Qed.
End ReportAndHandlers.

Lemma report_after_clear_witness :
  fst (clear_all_events true sample_events) =
    Success "Cleared 3 attendance records." /\
  get_student_data sort_newest_first true MOCK_USERS
    (snd (clear_all_events true sample_events)) noon =
    Success
      [ {| row_id := "MCA-428"; row_name := "Leni E";
           status := "Never Logged In"; focus := "N/A";
           last_event := VStr "None"; timestamp := "N/A" |};
        {| row_id := "MCA-112"; row_name := "Soni Priya";
           status := "Never Logged In"; focus := "N/A";
           last_event := VStr "None"; timestamp := "N/A" |} ].
Proof.
  destruct (report_after_clear sort_newest_first sort_newest_first_perm
              MOCK_USERS sample_events noon noon_threshold eq_refl)
    as (Hmsg & _ & _ & Hrep).
  split; [exact Hmsg|exact Hrep].
Defined.

Lemma never_logged_in_iff_no_event_witness :
  "Never Logged In" = "Never Logged In" <->
  (forall e, In e sample_events -> user_id e <> VStr "MCA-112").
Proof.
  apply (never_logged_in_iff_no_event sort_newest_first
           sort_newest_first_perm sort_newest_first_sorted
           true MOCK_USERS sample_events noon
           [ {| row_id := "MCA-428"; row_name := "Leni E"; status := "Idle";
                focus := "Blurred"; last_event := VStr "heartbeat";
                timestamp := "2024-01-01T17:28:00" |};
             {| row_id := "MCA-112"; row_name := "Soni Priya";
                status := "Never Logged In"; focus := "N/A";
                last_event := VStr "None"; timestamp := "N/A" |} ]
           {| row_id := "MCA-112"; row_name := "Soni Priya";
              status := "Never Logged In"; focus := "N/A";
              last_event := VStr "None"; timestamp := "N/A" |}).
  - vm_compute; reflexivity.
  - right. left. reflexivity.
Defined.

Lemma unreadable_latest_event_fails_report_witness :
  get_student_data sort_newest_first true MOCK_USERS
    (sample_events ++ [unreadable_event]) noon =
    Failure 500 "Failed to retrieve student data.".
Proof.
  apply (unreadable_latest_event_fails_report sort_newest_first
           sort_newest_first_perm sort_newest_first_sorted
           MOCK_USERS (sample_events ++ [unreadable_event]) noon
           unreadable_event "MCA-428").
  - left. reflexivity.
  - right. right. right. left. reflexivity.
  - reflexivity.
  - intros e' [<-|[<-|[<-|[<-|[]]]]] Hu;
      first [ left; reflexivity | right; reflexivity | discriminate Hu ].
  - left. intros d. discriminate.
Defined.

Lemma array_user_id_fails_report_witness :
  get_student_data sort_newest_first true MOCK_USERS
    (array_event :: sample_events) noon =
    Failure 500 "Failed to retrieve student data.".
Proof.
  apply (array_user_id_fails_report sort_newest_first sort_newest_first_perm
           MOCK_USERS (array_event :: sample_events) noon array_event
           [VStr "nobody"; VStr "MCA-112"] "MCA-112").
  - left. reflexivity.
  - reflexivity.
  - right. left. reflexivity.
  - right. left. reflexivity.
Defined.

Lemma other_users_events_ignored_witness :
  get_student_data sort_newest_first true MOCK_USERS sample_events noon =
  get_student_data sort_newest_first true MOCK_USERS
    [ heartbeat "MCA-428" "active" true (mk_datetime 2024 1 1 11 50 0 0);
      heartbeat "MCA-428" "idle" false (mk_datetime 2024 1 1 11 58 0 0) ]
    noon.
Proof.
  apply (other_users_events_ignored sort_newest_first true MOCK_USERS
           [ heartbeat "MCA-428" "active" true (mk_datetime 2024 1 1 11 50 0 0);
             heartbeat "MCA-428" "idle" false (mk_datetime 2024 1 1 11 58 0 0) ]
           []
           (heartbeat "tch-99b3" "active" true (mk_datetime 2024 1 1 11 59 0 0))
           "tch-99b3" noon eq_refl).
  intros [H|[H|[]]]; discriminate H.
Defined.

Lemma logged_out_after_logout_witness :
  "Logged Out" = "Logged Out" /\ "N/A" = "N/A" /\
  VStr "logout" = VStr "logout".
Proof.
  apply (logged_out_after_logout sort_newest_first sort_newest_first_perm
           sort_newest_first_sorted true MOCK_USERS sample_events
           [("user_id", VStr "MCA-428")] "MCA-428"
           (mk_datetime 2024 1 1 12 0 30 100) (mk_datetime 2024 1 1 12 0 30 200)
           "65920000a1b2c3d4e5f60720" true "Logout event recorded."
           (sample_events ++
            [mk_event (ObjectId "65920000a1b2c3d4e5f60720") (VStr "MCA-428")
               (VStr "logout")
               (logout_metadata (mk_datetime 2024 1 1 12 0 30 100))
               (mk_datetime 2024 1 1 12 0 30 0)])
           (mk_datetime 2024 1 3 9 0 0 0)
           [ {| row_id := "MCA-428"; row_name := "Leni E";
                status := "Logged Out"; focus := "N/A";
                last_event := VStr "logout";
                timestamp := "2024-01-01T17:30:30" |};
             {| row_id := "MCA-112"; row_name := "Soni Priya";
                status := "Never Logged In"; focus := "N/A";
                last_event := VStr "None"; timestamp := "N/A" |} ]
           {| row_id := "MCA-428"; row_name := "Leni E";
              status := "Logged Out"; focus := "N/A";
              last_event := VStr "logout";
              timestamp := "2024-01-01T17:30:30" |}).
  - reflexivity.
  - vm_compute; reflexivity.
  - intros e [<-|[<-|[<-|[]]]] _; reflexivity.
  - vm_compute; reflexivity.
  - left. reflexivity.
  - reflexivity.
Defined.

Lemma one_row_per_distinct_student_id_witness :
  List.NoDup ["S-1"] /\
  exists before u after,
    map snd twin_users = before ++ u :: after /\
    u_role u = "student" /\ u_id u = "S-1" /\ u_name u = "Bob" /\
    forall u', In u' after -> u_role u' = "student" -> u_id u' <> "S-1".
Proof.
  destruct (one_row_per_distinct_student_id sort_newest_first true twin_users
              sample_events noon
              [ {| row_id := "S-1"; row_name := "Bob";
                   status := "Never Logged In"; focus := "N/A";
                   last_event := VStr "None"; timestamp := "N/A" |} ])
    as (Hnd & _ & Hlast).
  - vm_compute; reflexivity.
  - split; [exact Hnd|].
    apply (Hlast {| row_id := "S-1"; row_name := "Bob";
                    status := "Never Logged In"; focus := "N/A";
                    last_event := VStr "None"; timestamp := "N/A" |}).
    left. reflexivity.
Defined.

(* ===================================================================== *)
(** ** The report does not depend on the order of the collection *)
(* ===================================================================== *)

Lemma match_in_key ids v :
  match_in ids v = true -> (exists uid, v = VStr uid) \/ (exists l, v = VList l).
Proof. destruct v; try discriminate; eauto. Qed.

(** The first document of a student is the same in two arrangements of
    the same documents, both newest first, when the student's documents
    have distinct timestamps. *)
Lemma first_of_arrangement uid docs1 docs2 :
  StronglySorted newest_first docs1 ->
  StronglySorted newest_first docs2 ->
  (forall e, In e docs1 <-> In e docs2) ->
  (forall e1 e2, In e1 docs1 -> In e2 docs1 ->
                 user_id e1 = user_id e2 ->
                 server_timestamp e1 = server_timestamp e2 -> e1 = e2) ->
  first_of uid docs1 = first_of uid docs2.
Proof.
  intros Hs1 Hs2 Hsame Hdistinct.
  destruct (first_of uid docs1) as [e1|] eqn:H1;
    destruct (first_of uid docs2) as [e2|] eqn:H2; try reflexivity.
  - destruct (first_of_Some _ _ _ H1) as [Hin1 Hu1].
    destruct (first_of_Some _ _ _ H2) as [Hin2 Hu2].
    pose proof (first_of_newest uid docs1 e1 Hs1 H1 e2
                  (proj2 (Hsame e2) Hin2) Hu2) as H12.
    pose proof (first_of_newest uid docs2 e2 Hs2 H2 e1
                  (proj1 (Hsame e1) Hin1) Hu1) as H21.
    f_equal. apply Hdistinct; try assumption.
    + now apply Hsame.
    + congruence.
    + now apply datetime_ltb_antisym.
  - destruct (first_of_Some _ _ _ H1) as [Hin1 Hu1].
    now destruct (first_of_None _ _ e1 H2 (proj1 (Hsame e1) Hin1)).
  - destruct (first_of_Some _ _ _ H2) as [Hin2 Hu2].
    now destruct (first_of_None _ _ e2 H1 (proj2 (Hsame e2) Hin2)).
Qed.

(** The map of latest events is the same for two such arrangements. *)
Lemma latest_events_map_arrangement docs1 docs2 :
  StronglySorted newest_first docs1 ->
  StronglySorted newest_first docs2 ->
  (forall e, In e docs1 <-> In e docs2) ->
  (forall e, In e docs1 ->
             (exists uid, user_id e = VStr uid) \/ (exists l, user_id e = VList l)) ->
  (forall e1 e2, In e1 docs1 -> In e2 docs1 ->
                 user_id e1 = user_id e2 ->
                 server_timestamp e1 = server_timestamp e2 -> e1 = e2) ->
  latest_events_map (group_first [] docs1) ∅ =
  latest_events_map (group_first [] docs2) ∅.
Proof.
  intros Hs1 Hs2 Hsame Hkeys Hdistinct.
  destruct (existsb (fun e => match user_id e with
                              | VList _ => true
                              | _ => false
                              end) docs1) eqn:Harr.
  - apply existsb_exists in Harr as (e & He & Hl).
    destruct (user_id e) as [| | | |l|] eqn:Hu; try discriminate.
    rewrite (latest_events_map_unhashable docs1 [] ∅ e l);
      [|intros v []|assumption|assumption].
    rewrite (latest_events_map_unhashable docs2 [] ∅ e l);
      [reflexivity|intros v []|now apply Hsame|assumption].
  - assert (Hstr : forall e, In e docs1 -> exists uid, user_id e = VStr uid).
    { intros e He. destruct (Hkeys e He) as [H|[l Hl]]; [exact H|].
      exfalso.
      assert (Hex : existsb (fun e => match user_id e with
                                      | VList _ => true
                                      | _ => false
                                      end) docs1 = true).
      { apply existsb_exists. exists e. split; [assumption|]. now rewrite Hl. }
      congruence. }
    destruct (latest_events_map_total docs1 Hstr [] ∅) as [m1 H1].
    destruct (latest_events_map_total docs2) with (seen := @nil value)
      (acc := (∅ : gmap string event)) as [m2 H2].
    { intros e He. apply Hstr. now apply Hsame. }
    rewrite H1, H2. f_equal. apply map_eq. intros uid.
    rewrite (latest_events_map_lookup _ _ _ _ H1 uid).
    rewrite (latest_events_map_lookup _ _ _ _ H2 uid).
    cbn [existsb].
    now rewrite (first_of_arrangement uid docs1 docs2 Hs1 Hs2 Hsame Hdistinct).
Qed.

(** X15.  The answer of the report handler does not depend on the order
    in which the collection holds its documents, nor on how the [$sort]
    stage orders documents of equal timestamps, as long as no two
    documents of one user carry the same timestamp. *)
Theorem report_independent_of_order :
  forall (sort1 sort2 : list event -> list event),
    (forall l, Permutation (sort1 l) l) ->
    (forall l, Sorted newest_first (sort1 l)) ->
    (forall l, Permutation (sort2 l) l) ->
    (forall l, Sorted newest_first (sort2 l)) ->
    forall (connected : bool) (users : list (string * user))
           (events1 events2 : list event) (now : datetime),
      Permutation events1 events2 ->
      (forall e1 e2, In e1 events1 -> In e2 events1 ->
                     user_id e1 = user_id e2 ->
                     server_timestamp e1 = server_timestamp e2 -> e1 = e2) ->
      get_student_data sort1 connected users events1 now =
      get_student_data sort2 connected users events2 now.
Proof.
  intros sort1 sort2 Hp1 Hs1 Hp2 Hs2 connected users events1 events2 now
         Hperm Hdistinct.
  unfold get_student_data, build_report, aggregate. cbv zeta.
  rewrite (latest_events_map_arrangement
             (sort1 (List.filter
                       (fun e => match_in (map fst (all_students users))
                                          (user_id e)) events1))
             (sort2 (List.filter
                       (fun e => match_in (map fst (all_students users))
                                          (user_id e)) events2)));
    try reflexivity.
  - apply Sorted_StronglySorted; [apply newest_first_trans|apply Hs1].
  - apply Sorted_StronglySorted; [apply newest_first_trans|apply Hs2].
  - intros e. rewrite (sorted_docs_In sort1 Hp1), (sorted_docs_In sort2 Hp2).
    split; intros [Hin Hm]; (split; [|exact Hm]).
    + eapply Permutation_in; eassumption.
    + eapply Permutation_in; [symmetry|]; eassumption.
  - intros e He. apply (sorted_docs_In sort1 Hp1) in He as [_ Hm].
    now apply match_in_key in Hm.
  - intros e1 e2 He1 He2. apply (sorted_docs_In sort1 Hp1) in He1 as [He1 _].
    apply (sorted_docs_In sort1 Hp1) in He2 as [He2 _]. now apply Hdistinct.
Qed.

Lemma report_independent_of_order_witness :
  get_student_data sort_newest_first true MOCK_USERS sample_events noon =
  get_student_data sort_newest_first true MOCK_USERS (rev sample_events) noon.
Proof.
  apply (report_independent_of_order sort_newest_first sort_newest_first
           sort_newest_first_perm sort_newest_first_sorted
           sort_newest_first_perm sort_newest_first_sorted
           true MOCK_USERS sample_events (rev sample_events) noon).
  - apply Permutation_rev.
  - intros e1 e2 [<-|[<-|[<-|[]]]] [<-|[<-|[<-|[]]]] Hu Hts;
      first [reflexivity | discriminate Hu | discriminate Hts].
Defined.

(* ===================================================================== *)
(** ** The handlers on sample requests *)
(* ===================================================================== *)

Lemma authenticate_success_iff_witness :
  authenticate true MOCK_USERS
    (VDict [("username", VStr "Leni"); ("password", VStr "123")])
  = Ok (Success {| i_id := "MCA-428"; i_name := "Leni E";
                   i_role := "student" |}).
Proof.
  apply (proj2 (authenticate_success_iff true MOCK_USERS
                  (VDict [("username", VStr "Leni"); ("password", VStr "123")])
                  {| i_id := "MCA-428"; i_name := "Leni E";
                     i_role := "student" |})).
  split; [reflexivity|].
  exists [("username", VStr "Leni"); ("password", VStr "123")], "Leni",
    (mk_user "MCA-428" "Leni E" "student" "123").
  repeat split; reflexivity.
Defined.


(** A logout is stored; an empty [user_id] is answered 400; a [user_id]
    that does not fit 64 bits is answered 500. *)
Lemma logout_attendance_stores_iff_witness :
  logout_attendance true (VDict [("user_id", VStr "MCA-428")])
    (mk_datetime 2024 1 1 12 0 30 100) (mk_datetime 2024 1 1 12 0 30 200)
    "65920000a1b2c3d4e5f60723" true sample_events
  = (Success "Logout event recorded.",
     sample_events ++
     [mk_event (ObjectId "65920000a1b2c3d4e5f60723") (VStr "MCA-428")
        (VStr "logout")
        (VDict [("client_status", VStr "logged_out");
                ("tab_focused", VBool false);
                ("client_timestamp", VStr "2024-01-01T12:00:30.000100")])
        (mk_datetime 2024 1 1 12 0 30 0)]) /\
  (logout_attendance true (VDict [("user_id", VStr "")]) noon noon
     "65920000a1b2c3d4e5f60723" true sample_events
   = (Failure 400 "Missing user_id for logout event.", sample_events) /\
   exists d, VDict [("user_id", VStr "")] = VDict d /\
     (assoc "user_id" d = None \/
      exists uid, assoc "user_id" d = Some uid /\
        (uid = VNone \/ uid = VBool false \/ uid = VInt 0 \/
         uid = VStr "" \/ uid = VList [] \/ uid = VDict []))) /\
  (logout_attendance true (VDict [("user_id", VInt (2 ^ 63))]) noon noon
     "65920000a1b2c3d4e5f60723" true sample_events
   = (Failure 500 "Internal server error during logout event storage.",
      sample_events) /\
   (500 = 400 \/ 500 = 500 \/ 500 = 503)).
Proof.
  split; [|split].
  - apply (proj1 (logout_attendance_stores_iff true
                    (VDict [("user_id", VStr "MCA-428")])
                    (mk_datetime 2024 1 1 12 0 30 100)
                    (mk_datetime 2024 1 1 12 0 30 200)
                    "65920000a1b2c3d4e5f60723" true sample_events)
                 "Logout event recorded." _).
    split; [reflexivity|].
    exists [("user_id", VStr "MCA-428")], (VStr "MCA-428").
    repeat split; reflexivity.
  - assert (H : logout_attendance true (VDict [("user_id", VStr "")]) noon noon
                  "65920000a1b2c3d4e5f60723" true sample_events
                = (Failure 400 "Missing user_id for logout event.",
                   sample_events)) by (vm_compute; reflexivity).
    split; [exact H|].
    destruct (proj2 (logout_attendance_stores_iff true
                       (VDict [("user_id", VStr "")]) noon noon
                       "65920000a1b2c3d4e5f60723" true sample_events)
                    _ _ _ H) as (_ & _ & _ & H400).
    now apply H400.
  - assert (H : logout_attendance true (VDict [("user_id", VInt (2 ^ 63))])
                  noon noon "65920000a1b2c3d4e5f60723" true sample_events
                = (Failure 500
                     "Internal server error during logout event storage.",
                   sample_events)) by (vm_compute; reflexivity).
    split; [exact H|].
    destruct (proj2 (logout_attendance_stores_iff true
                       (VDict [("user_id", VInt (2 ^ 63))]) noon noon
                       "65920000a1b2c3d4e5f60723" true sample_events)
                    _ _ _ H) as (_ & Hcode & _).
    exact Hcode.
Defined.

(* ===================================================================== *)
(** ** A row as time passes *)
(* ===================================================================== *)

(** A row with an event shows that the metadata could be read. *)
Lemma student_row_Ok_readable th uid name ev r :
  student_row th uid name (Some ev) = Ok r ->
  exists d raw,
    metadata ev = VDict d /\
    match assoc "client_status" d with Some v => v | None => VStr "N/A" end
      = VStr raw.
Proof.
  unfold student_row.
  destruct (metadata ev) as [| | | | |d]; cbn [dict_get]; run_bind;
    try discriminate.
  destruct (match assoc "client_status" d with
            | Some v => v
            | None => VStr "N/A"
            end) as [| | |raw| |] eqn:Hraw;
    cbn [str_lower]; run_bind; try discriminate.
  intros _. now exists d, raw.
Qed.

Lemma student_row_timestamp th1 th2 uid name ev r1 r2 :
  student_row th1 uid name (Some ev) = Ok r1 ->
  student_row th2 uid name (Some ev) = Ok r2 ->
  timestamp r1 = timestamp r2 /\ last_event r1 = last_event r2.
Proof.
  unfold student_row.
  destruct (dict_get (metadata ev) "client_status" (VStr "N/A")) as [cs|];
    run_bind; [|discriminate].
  destruct (str_lower cs) as [client_status|]; run_bind; [|discriminate].
  destruct (dict_get (metadata ev) "tab_focused" (VBool false)) as [tab|];
    run_bind; [|discriminate].
  destruct (determine_status client_status tab (server_timestamp ev) th1).
  destruct (determine_status client_status tab (server_timestamp ev) th2).
  destruct (datetime_add (server_timestamp ev) IST_OFFSET);
    run_bind; [|discriminate].
  intros [= <-] [= <-]. now split.
Qed.

(** X16.  While no new event arrives, time only moves a row towards
    "Offline (Inactive)".  For one event and two clock readings, the row
    of the later reading has the status of the earlier one or "Offline
    (Inactive)"; a row that is "Logged Out" or "Offline (Inactive)" keeps
    its status; the timestamp and the last event do not change. *)
Theorem status_as_time_passes :
  forall (now1 now2 th1 th2 : datetime) (uid name : string) (ev : event)
         (r1 r2 : row),
    valid (server_timestamp ev) ->
    datetime_sub now1 (timedelta_new 0 0 0 ACTIVITY_TIMEOUT_MINUTES 0) = Ok th1 ->
    datetime_sub now2 (timedelta_new 0 0 0 ACTIVITY_TIMEOUT_MINUTES 0) = Ok th2 ->
    total_micros now1 <= total_micros now2 ->
    student_row th1 uid name (Some ev) = Ok r1 ->
    student_row th2 uid name (Some ev) = Ok r2 ->
    (status r2 = status r1 \/ status r2 = "Offline (Inactive)") /\
    (status r1 = "Logged Out" \/ status r1 = "Offline (Inactive)" ->
     status r2 = status r1 /\ focus r2 = focus r1) /\
    timestamp r2 = timestamp r1 /\ last_event r2 = last_event r1.
Proof.
  intros now1 now2 th1 th2 uid name ev r1 r2 Hvalid Hth1 Hth2 Hle Hr1 Hr2.
  destruct (student_row_timestamp _ _ _ _ _ _ _ Hr1 Hr2) as [Hts Hlast].
  destruct (student_row_Ok_readable _ _ _ _ _ Hr1) as (d & raw & Hm & Hraw).
  pose proof (student_row_dict_Ok _ _ _ _ _ _ _ Hm Hraw Hr1) as H1.
  pose proof (student_row_dict_Ok _ _ _ _ _ _ _ Hm Hraw Hr2) as H2.
  pose proof (stale_iff_elapsed now1 th1 _ Hvalid Hth1) as Hs1.
  pose proof (stale_iff_elapsed now2 th2 _ Hvalid Hth2) as Hs2.
  assert (Hmono : datetime_ltb (server_timestamp ev) th1 = true ->
                  datetime_ltb (server_timestamp ev) th2 = true).
  { intros H. apply Hs2. apply Hs1 in H. lia. }
  clear Hs1 Hs2 Hvalid Hth1 Hth2 Hle Hr1 Hr2 Hm Hraw.
  pose proof (unknown_status_distinct (PyStr.title (PyStr.lower raw))) as Hne.
  set (tab := match assoc "tab_focused" d with
              | Some v => v
              | None => VBool false
              end) in *.
  clearbody tab.
  split; [|split; [|split; congruence]].
  - destruct (determine_status_cases (PyStr.lower raw) tab
                (server_timestamp ev) th1)
      as [(Hc1 & Hd1) | [(Hc1 & Hl1 & Hd1) | [(Hc1 & Hl1 & Hd1) |
          [(Hc1 & Hl1 & Hd1) | (Ha1 & Hb1 & Hc1 & Hl1 & Hd1)]]]];
      destruct (determine_status_cases (PyStr.lower raw) tab
                  (server_timestamp ev) th2)
        as [(Hc2 & Hd2) | [(Hc2 & Hl2 & Hd2) | [(Hc2 & Hl2 & Hd2) |
            [(Hc2 & Hl2 & Hd2) | (Ha2 & Hb2 & Hc2 & Hl2 & Hd2)]]]];
      rewrite Hd1 in H1; rewrite Hd2 in H2;
      injection H1 as Hst1 _; injection H2 as Hst2 _;
      rewrite Hst1, Hst2;
      first [ left; reflexivity | right; reflexivity
            | congruence
            | exfalso; rewrite Hc1 in *; discriminate
            | exfalso; specialize (Hmono Hl1); congruence ].
  - intros Hfixed.
    destruct (determine_status_cases (PyStr.lower raw) tab
                (server_timestamp ev) th1)
      as [(Hc1 & Hd1) | [(Hc1 & Hl1 & Hd1) | [(Hc1 & Hl1 & Hd1) |
          [(Hc1 & Hl1 & Hd1) | (Ha1 & Hb1 & Hc1 & Hl1 & Hd1)]]]];
      rewrite Hd1 in H1; injection H1 as Hst1 Hfo1;
      rewrite Hst1 in Hfixed;
      try (destruct Hfixed as [Hf|Hf]; discriminate Hf);
      try (exfalso; destruct Hfixed as [Hf|Hf];
           (eapply Hne; [|exact Hf]); cbn [In]; tauto).
    + rewrite (proj2 (String.eqb_eq _ _) Hc1) in H2 || idtac.
      unfold determine_status in H2. rewrite Hc1 in H2.
      change (String.eqb "logged_out" "logged_out") with true in H2.
      cbv iota in H2. injection H2 as Hst2 Hfo2. split; congruence.
    + rewrite (determine_status_stale _ _ _ _ Hc1 (Hmono Hl1)) in H2.
      injection H2 as Hst2 Hfo2. split; congruence.
Qed.

Lemma status_as_time_passes_witness :
  ("Offline (Inactive)" = "Active" \/
   "Offline (Inactive)" = "Offline (Inactive)") /\
  ("Active" = "Logged Out" \/ "Active" = "Offline (Inactive)" ->
   "Offline (Inactive)" = "Active" /\ "N/A" = "Focused") /\
  "2024-01-01T17:28:00" = "2024-01-01T17:28:00" /\
  VStr "heartbeat" = VStr "heartbeat".
Proof.
  apply (status_as_time_passes noon (mk_datetime 2024 1 1 12 10 0 0)
           noon_threshold (mk_datetime 2024 1 1 12 5 0 0) "MCA-428" "Leni E"
           (heartbeat "MCA-428" "active" true (mk_datetime 2024 1 1 11 58 0 0))
           {| row_id := "MCA-428"; row_name := "Leni E"; status := "Active";
              focus := "Focused"; last_event := VStr "heartbeat";
              timestamp := "2024-01-01T17:28:00" |}
           {| row_id := "MCA-428"; row_name := "Leni E";
              status := "Offline (Inactive)"; focus := "N/A";
              last_event := VStr "heartbeat";
              timestamp := "2024-01-01T17:28:00" |}).
  - repeat split; vm_compute; (reflexivity || discriminate).
  - vm_compute; reflexivity.
  - vm_compute; reflexivity.
  - vm_compute; discriminate.
  - vm_compute; reflexivity.
  - vm_compute; reflexivity.
Defined.
